(** * Jellyseerr integration plugin: catalog refresh, routing and request workflow

    A shallow embedding of [src/plugin.js] (classes
    [JellyseerrIntegrationPlugin] and [JellyseerrServerConnector]) and the
    properties of its catalog cache, view router, request workflow and
    notification service.

    Modelling conventions:
    - JavaScript objects used as dictionaries ([networkCache], [studioCache])
      are [gmap string _] for their own properties; reads go through [js_get],
      which also sees the properties every object literal inherits from
      [Object.prototype].
    - Identifiers are the numeric TMDB identifiers of the Jellyseerr API
      ("mediaId: number" in the API notes of the source); [String(id)] is the
      decimal numeral, [pretty] on [N].
    - An [async] method is a computation in the monad [M]: it threads the
      plugin and browser state, may throw, and records every [fetch] and
      console message in a trace.  The answer of the remote service to a
      request is given by an oracle.  No other event handler runs while a
      method is suspended on a [fetch].
    - [setTimeout] callbacks are first-order [TimerAction]s kept in a timer
      queue; [advance] lets the event loop run up to a given instant, every
      callback firing at the instant it is due. *)

From Stdlib Require Import NArith Ascii String List Lia Sorted.
From stdpp Require Import base gmap strings list pretty.

Local Open Scope string_scope.
Local Open Scope list_scope.
Local Open Scope N_scope.

(** ** Strings as the source uses them *)

Module JsString.

(** [s.startsWith(p)]. *)
Definition startsWith (s p : string) : bool := String.prefix p s.

(** [s.substring(1)]. *)
Definition substring1 (s : string) : string :=
  match s with
  | EmptyString => EmptyString
  | String _ s' => s'
  end.

(** [s.split(c)] for a one-character separator: never empty. *)
Fixpoint split (c : ascii) (s : string) : list string :=
  match s with
  | EmptyString => [EmptyString]
  | String a s' =>
      if Ascii.eqb a c then EmptyString :: split c s'
      else match split c s' with
           | [] => [String a EmptyString]
           | w :: ws => String a w :: ws
           end
  end.

(** [xs.pop()] as an expression: the last element ([undefined] on the empty
    array, which [split] never returns). *)
Definition pop (xs : list string) : string := List.last xs EmptyString.

(** Does the character occur in the string? *)
Fixpoint contains (c : ascii) (s : string) : bool :=
  match s with
  | EmptyString => false
  | String a s' => Ascii.eqb a c || contains c s'
  end.

End JsString.

(** ** Data model *)

(** An entry of [GET /networks] or [GET /studios].  The [name] is a string
    or missing: nothing in the plugin checks what the service delivers. *)
Record CatalogEntity := {
  entity_id : N;
  entity_name : option string;
  logoPath : option string;
}.

Inductive MediaType := movie | tv.

Definition mediaType_string (m : MediaType) : string :=
  match m with movie => "movie" | tv => "tv" end.

(** An entry of the [movies] or [tvShows] array of a content response. *)
Record ContentItem := {
  item_id : N;
  item_mediaType : MediaType;
  item_title : option string;
  item_name : option string;
  item_available : bool;
  item_jellyfinId : option string;
}.

(** [a || b] on two optional strings inside a template literal: the first
    truthy one, and the text "undefined" when [b] is reached and missing. *)
Definition or_else (a b : option string) : string :=
  match a with
  | Some (String c s) => String c s
  | _ => match b with Some s => s | None => "undefined" end
  end.

(** [item.title || item.name] *)
Definition display_name (item : ContentItem) : string :=
  or_else (item_title item) (item_name item).

(** Parsed JSON bodies, as far as the plugin inspects them. *)
Inductive JSON :=
| JNull
| JArray (entities : list CatalogEntity)
| JObject (movies tvShows : option (list ContentItem)).

(** ** The remote service *)

Inductive Method := GET | POST | PUT.

Record RequestBody := { mediaId : N; body_mediaType : MediaType }.

Record Request := {
  req_url : string;
  req_method : Method;
  req_apiKey : string;
  req_body : option RequestBody;
}.

(** What [fetch] settles to: a rejection (transport failure) or an HTTP
    response whose body parses ([Some]) or not ([None]). *)
Inductive Response :=
| Rejected
| Http (status : N) (statusText : string) (body : option JSON).

(** [response.ok] *)
Definition response_ok (status : N) : bool := (200 <=? status) && (status <=? 299).

Inductive Exn :=
| FetchRejected
| ApiError (status : N) (statusText : string)
| JsonSyntaxError
| TypeError (what : string).

(** ** The rendered document *)

Record Badge := { badge_className : string; badge_textContent : string }.

(** A [.content-card] element: its two data attributes, its title, the
    [.availability-badge] inside it and whether it holds a [.request-button].
    Poster and year are left out. *)
Record Card := {
  data_id : string;
  data_mediaType : string;
  card_title : string;
  card_badge : option Badge;
  card_requestBtn : bool;
}.

Inductive CatalogKind := Network | Studio.

Record PageHeader := { logo_src : string; header_title : string }.

Inductive PageItem :=
| ContentSection (title : string) (cards : list Card)
| ErrorMessage (text : string).

(** Children of [#content-container].  The browse page stands for the two
    grids [renderBrowsePage] builds from the caches it is given, one card for
    each value.  The order of the cards is the host's (its collation of the
    names and, among values without a name, its sorting algorithm) and is not
    represented; that the sort can throw is, in [renderBrowsePage]. *)
Inductive ContainerChild :=
| BrowsePage (networks studios : gmap string CatalogEntity)
| NotFoundHeading (text : string)
| ContentPage (kind : CatalogKind) (header : PageHeader) (items : list PageItem).

(** The home sections [renderNetworksAndStudios] builds from the configured
    names and the two caches. *)
Record HomeSections := {
  home_displayNetworks : list string;
  home_networks : gmap string CatalogEntity;
  home_displayStudios : list string;
  home_studios : gmap string CatalogEntity;
}.

Inductive Severity := info | success | error.

(** A [.jellyseerr-notification] element; [node] is its identity. *)
Record Notification := {
  node : N;
  severity : Severity;
  notif_title : string;
  notif_message : string;
  fade_out : bool;
}.

(** The page and its host: the elements the plugin looks up, the location
    hash, whether [window.jellyfinJellyseerrPlugin] holds the plugin, and the
    one choice ECMAScript leaves to the engine that the plugin depends on:
    whether [Array.prototype.sort], at work on the values of a cache of which
    some but not all have a name, calls the comparator with a value without
    name as its first argument. *)
Record DOM := {
  home : option HomeSections;
  content_container : option (list ContainerChild);
  notif_container : option (list Notification);
  location_hash : string;
  window_plugin : bool;
  comparator_reaches_nameless : gmap string CatalogEntity -> bool;
}.

(** Callbacks handed to [setTimeout] by [showNotification]. *)
Inductive TimerAction :=
| AddFadeOut (target : N)
| RemoveNotification (target : N).

Record Timer := { due : N; action : TimerAction }.

(** ** Plugin and browser state *)

Record Options := {
  jellyseerrUrl : string;
  jellyseerrApiKey : string;
  refreshInterval : N;
  displayNetworks : list string;
  displayStudios : list string;
}.

(** The connector keeps the address and key it was constructed with. *)
Record Connector := { baseUrl : string; apiKey : string }.

Record World := {
  options : Options;
  serverConnector : Connector;
  networkCache : gmap string CatalogEntity;
  studioCache : gmap string CatalogEntity;
  lastRefresh : option N;
  dom : DOM;
  clock : N;
  timers : list Timer;
  next_node : N;
}.

Definition set_networkCache (c : gmap string CatalogEntity) (w : World) : World :=
  {| options := options w; serverConnector := serverConnector w;
     networkCache := c; studioCache := studioCache w;
     lastRefresh := lastRefresh w; dom := dom w; clock := clock w;
     timers := timers w; next_node := next_node w |}.

Definition set_studioCache (c : gmap string CatalogEntity) (w : World) : World :=
  {| options := options w; serverConnector := serverConnector w;
     networkCache := networkCache w; studioCache := c;
     lastRefresh := lastRefresh w; dom := dom w; clock := clock w;
     timers := timers w; next_node := next_node w |}.

Definition set_lastRefresh (t : option N) (w : World) : World :=
  {| options := options w; serverConnector := serverConnector w;
     networkCache := networkCache w; studioCache := studioCache w;
     lastRefresh := t; dom := dom w; clock := clock w;
     timers := timers w; next_node := next_node w |}.

Definition set_dom (d : DOM) (w : World) : World :=
  {| options := options w; serverConnector := serverConnector w;
     networkCache := networkCache w; studioCache := studioCache w;
     lastRefresh := lastRefresh w; dom := d; clock := clock w;
     timers := timers w; next_node := next_node w |}.

Definition set_clock (t : N) (w : World) : World :=
  {| options := options w; serverConnector := serverConnector w;
     networkCache := networkCache w; studioCache := studioCache w;
     lastRefresh := lastRefresh w; dom := dom w; clock := t;
     timers := timers w; next_node := next_node w |}.

Definition set_timers (ts : list Timer) (w : World) : World :=
  {| options := options w; serverConnector := serverConnector w;
     networkCache := networkCache w; studioCache := studioCache w;
     lastRefresh := lastRefresh w; dom := dom w; clock := clock w;
     timers := ts; next_node := next_node w |}.

Definition set_next_node (n : N) (w : World) : World :=
  {| options := options w; serverConnector := serverConnector w;
     networkCache := networkCache w; studioCache := studioCache w;
     lastRefresh := lastRefresh w; dom := dom w; clock := clock w;
     timers := timers w; next_node := n |}.

Definition set_home (h : option HomeSections) (d : DOM) : DOM :=
  {| home := h; content_container := content_container d;
     notif_container := notif_container d; location_hash := location_hash d;
     window_plugin := window_plugin d;
     comparator_reaches_nameless := comparator_reaches_nameless d |}.

Definition set_content_container (c : option (list ContainerChild)) (d : DOM) : DOM :=
  {| home := home d; content_container := c;
     notif_container := notif_container d; location_hash := location_hash d;
     window_plugin := window_plugin d;
     comparator_reaches_nameless := comparator_reaches_nameless d |}.

Definition set_notif_container (c : option (list Notification)) (d : DOM) : DOM :=
  {| home := home d; content_container := content_container d;
     notif_container := c; location_hash := location_hash d;
     window_plugin := window_plugin d;
     comparator_reaches_nameless := comparator_reaches_nameless d |}.

(** ** The monad of asynchronous methods *)

Inductive ConsoleLevel := log_level | error_level.

Inductive Event :=
| EvFetch (r : Request) (snapshot : World)
| EvConsole (level : ConsoleLevel) (message : string) (cause : option Exn).

Definition Oracle := Request -> Response.

Record St := { world : World; trace : list Event }.

Inductive Res (A : Type) :=
| Returned (a : A)
| Thrown (e : Exn).
Arguments Returned {A} a.
Arguments Thrown {A} e.

Definition M (A : Type) : Type := Oracle -> St -> Res A * St.

Definition ret {A} (a : A) : M A := fun _ s => (Returned a, s).

Definition throw {A} (e : Exn) : M A := fun _ s => (Thrown e, s).

Definition bind {A B} (m : M A) (k : A -> M B) : M B :=
  fun o s =>
    match m o s with
    | (Returned a, s') => k a o s'
    | (Thrown e, s') => (Thrown e, s')
    end.

(** [try { m } catch (error) { h error }] *)
Definition try_catch {A} (m : M A) (h : Exn -> M A) : M A :=
  fun o s =>
    match m o s with
    | (Returned a, s') => (Returned a, s')
    | (Thrown e, s') => h e o s'
    end.

Declare Scope js_scope.
Delimit Scope js_scope with js.
Notation "x <- m ;; k" := (bind m (fun x => k))
  (at level 100, m at next level, right associativity) : js_scope.
Notation "m ;; k" := (bind m (fun _ => k))
  (at level 100, right associativity) : js_scope.
Local Open Scope js_scope.

Definition get_world : M World := fun _ s => (Returned (world s), s).

Definition modify (f : World -> World) : M unit :=
  fun _ s => (Returned tt, {| world := f (world s); trace := trace s |}).

Definition emit (e : Event) : M unit :=
  fun _ s => (Returned tt, {| world := world s; trace := trace s ++ [e] |}).

(** [await fetch(url, options)]: the call is recorded together with the state
    it was issued in. *)
Definition fetch (r : Request) : M Response :=
  fun o s => (Returned (o r),
              {| world := world s; trace := trace s ++ [EvFetch r (world s)] |}).

Definition console_log (msg : string) : M unit := emit (EvConsole log_level msg None).

Definition console_error (msg : string) (e : Exn) : M unit :=
  emit (EvConsole error_level msg (Some e)).

(** Running a method from a state with an empty trace. *)
Definition run {A} (m : M A) (o : Oracle) (w : World) : Res A * St :=
  m o {| world := w; trace := [] |}.

Definition final_world {A} (r : Res A * St) : World := world (snd r).
Definition final_trace {A} (r : Res A * St) : list Event := trace (snd r).

(** Requests recorded in a trace, in the order they were issued. *)
Fixpoint requests (tr : list Event) : list Request :=
  match tr with
  | [] => []
  | EvFetch r _ :: tr' => r :: requests tr'
  | EvConsole _ _ _ :: tr' => requests tr'
  end.

(** ** JellyseerrServerConnector *)

Module ServerConnector.

(** [makeRequest(endpoint, method = 'GET', data = null)] *)
Definition makeRequest (endpoint : string) (method : Method)
    (data : option RequestBody) : M JSON :=
  w <- get_world;;
  let c := serverConnector w in
  response <- fetch {| req_url := baseUrl c +:+ "/api/v1" +:+ endpoint;
                       req_method := method;
                       req_apiKey := apiKey c;
                       req_body := match method with
                                   | GET => None
                                   | POST | PUT => data
                                   end |};;
  match response with
  | Rejected => throw FetchRejected
  | Http status statusText body =>
      if response_ok status then
        match body with
        | Some j => ret j
        | None => throw JsonSyntaxError
        end
      else throw (ApiError status statusText)
  end.

Definition getNetworks : M JSON := makeRequest "/networks" GET None.

Definition getStudios : M JSON := makeRequest "/studios" GET None.

Definition getNetworkContent (networkId : string) : M JSON :=
  makeRequest ("/network/" +:+ networkId +:+ "/content") GET None.

Definition getStudioContent (studioId : string) : M JSON :=
  makeRequest ("/studio/" +:+ studioId +:+ "/content") GET None.

Definition requestContent (id : N) (mediaType : MediaType) : M JSON :=
  makeRequest "/request" POST
    (Some {| mediaId := id; body_mediaType := mediaType |}).

End ServerConnector.

(** ** Property reads on JavaScript values *)

(** The properties an object literal inherits from [Object.prototype]. *)
Definition object_prototype_keys : list string :=
  [ "constructor"; "__proto__"; "hasOwnProperty"; "isPrototypeOf";
    "propertyIsEnumerable"; "toLocaleString"; "toString"; "valueOf";
    "__defineGetter__"; "__defineSetter__"; "__lookupGetter__";
    "__lookupSetter__" ].

Inductive PropValue :=
| Undefined
| Own (e : CatalogEntity)
| Inherited (key : string).

(** [cache[key]] on a cache built from [{}]: an own property, else a property
    of [Object.prototype], else [undefined]. *)
Definition js_get (cache : gmap string CatalogEntity) (key : string) : PropValue :=
  match cache !! key with
  | Some e => Own e
  | None =>
      if existsb (String.eqb key) object_prototype_keys then Inherited key
      else Undefined
  end.

(** [!v] is false exactly for objects and functions, true for [undefined]. *)
Definition truthy (v : PropValue) : bool :=
  match v with
  | Undefined => false
  | Own _ | Inherited _ => true
  end.

(** [title.textContent = v.name]: the entity's name, and no text when it has
    none; the [name] of an inherited function (the constructor is [Object]);
    nothing on [Object.prototype] itself. *)
Definition prop_name (v : PropValue) : string :=
  match v with
  | Undefined => ""
  | Own e => default "" (entity_name e)
  | Inherited k =>
      if String.eqb k "constructor" then "Object"
      else if String.eqb k "__proto__" then ""
      else k
  end.

(** [v.logoPath], when truthy. *)
Definition prop_logoPath (v : PropValue) : option string :=
  match v with
  | Own e => match logoPath e with
             | Some (String c s) => Some (String c s)
             | _ => None
             end
  | _ => None
  end.

(** [data.reduce((acc, x) => { acc[x.id] = x; return acc; }, {})] *)
Definition cache_key (e : CatalogEntity) : string := pretty (entity_id e).

Definition index_by_id (l : list CatalogEntity) : gmap string CatalogEntity :=
  fold_left (fun acc e => <[cache_key e := e]> acc) l ∅.

Definition reduce_by_id (data : JSON) : M (gmap string CatalogEntity) :=
  match data with
  | JArray l => ret (index_by_id l)
  | JNull => throw (TypeError "Cannot read properties of null (reading 'reduce')")
  | JObject _ _ => throw (TypeError "reduce is not a function")
  end.

(** [content.movies] and [content.tvShows] *)
Definition prop_movies (content : JSON) : M (option (list ContentItem)) :=
  match content with
  | JNull => throw (TypeError "Cannot read properties of null (reading 'movies')")
  | JArray _ => ret None
  | JObject m _ => ret m
  end.

Definition prop_tvShows (content : JSON) : M (option (list ContentItem)) :=
  match content with
  | JNull => throw (TypeError "Cannot read properties of null (reading 'tvShows')")
  | JArray _ => ret None
  | JObject _ t => ret t
  end.

(** ** ViewRouter *)

Inductive ViewDescriptor :=
| BrowseAll
| NetworkDetail (id : string)
| StudioDetail (id : string)
| Unrecognized.

Definition browse_path : string := "/jellyseerr/browse".
Definition network_prefix : string := "/jellyseerr/network/".
Definition studio_prefix : string := "/jellyseerr/studio/".

(** The branch selection of [renderCustomView]. *)
Definition resolve (path : string) : ViewDescriptor :=
  if String.eqb path browse_path then BrowseAll
  else if JsString.startsWith path network_prefix then
    NetworkDetail (JsString.pop (JsString.split "/" path))
  else if JsString.startsWith path studio_prefix then
    StudioDetail (JsString.pop (JsString.split "/" path))
  else Unrecognized.

(** ** JellyseerrIntegrationPlugin *)

Module Plugin.

(** [new JellyseerrServerConnector(options)] *)
Definition new_connector (o : Options) : Connector :=
  {| baseUrl := jellyseerrUrl o; apiKey := jellyseerrApiKey o |}.

(** [new JellyseerrIntegrationPlugin(options)], in a browser showing [d] at
    instant [now] with no timer pending; [o] is the settings merged over the
    defaults. *)
Definition constructor (o : Options) (d : DOM) (now : N) : World :=
  {| options := o; serverConnector := new_connector o;
     networkCache := ∅; studioCache := ∅; lastRefresh := None;
     dom := d; clock := now; timers := []; next_node := 0 |}.

Definition display_duration : N := 5000.
Definition exit_duration : N := 500.

(** The body of [showNotification]: the container is created when missing,
    the element is appended, and the first timeout is registered. *)
Definition add_notification (title message : string) (type : Severity)
    (w : World) : World :=
  let existing := default [] (notif_container (dom w)) in
  let notification := {| node := next_node w; severity := type;
                         notif_title := title; notif_message := message;
                         fade_out := false |} in
  set_next_node (next_node w + 1)
    (set_timers (timers w ++ [{| due := clock w + display_duration;
                                 action := AddFadeOut (next_node w) |}])
       (set_dom (set_notif_container (Some (existing ++ [notification])) (dom w))
          w)).

(** [showNotification(title, message, type = 'info')] *)
Definition showNotification (title message : string) (type : Severity) : M unit :=
  modify (add_notification title message type).

(** [container.innerHTML = ...] and [container.appendChild(...)] on
    [#content-container]. *)
Definition set_children (cs : list ContainerChild) : M unit :=
  modify (fun w => set_dom (set_content_container (Some cs) (dom w)) w).

Definition appendChild (c : ContainerChild) : M unit :=
  modify (fun w =>
    match content_container (dom w) with
    | Some cs => set_dom (set_content_container (Some (cs ++ [c])) (dom w)) w
    | None => w
    end).

Definition availability_badge (available : bool) : Badge :=
  {| badge_className := "availability-badge " +:+
                        (if available then "available" else "not-available");
     badge_textContent := if available then "Available" else "Not Available" |}.

Definition requested_badge : Badge :=
  {| badge_className := "availability-badge requested";
     badge_textContent := "Requested" |}.

(** [createContentCard(item)] *)
Definition createContentCard (item : ContentItem) : Card :=
  {| data_id := pretty (item_id item);
     data_mediaType := mediaType_string (item_mediaType item);
     card_title := match item_title item with
                   | Some (String c s) => String c s
                   | _ => default "" (item_name item)
                   end;
     card_badge := Some (availability_badge (item_available item));
     card_requestBtn := negb (item_available item) |}.

(** [createContentSection(title, items)] *)
Definition createContentSection (title : string) (items : list ContentItem) : PageItem :=
  ContentSection title (map createContentCard items).

(** [if (group && group.length > 0) { ...appendChild(section) }] *)
Definition section_if_nonempty (title : string) (group : option (list ContentItem))
    : list PageItem :=
  match group with
  | Some (i :: items) => [createContentSection title (i :: items)]
  | _ => []
  end.

Definition tmdb_w500 : string := "https://image.tmdb.org/t/p/w500".

Definition default_logo (kind : CatalogKind) : string :=
  match kind with
  | Network => "plugins/JellyfinJellyseerrIntegration/images/default-network.png"
  | Studio => "plugins/JellyfinJellyseerrIntegration/images/default-studio.png"
  end.

Definition content_header (kind : CatalogKind) (v : PropValue) : PageHeader :=
  {| logo_src := match prop_logoPath v with
                 | Some p => tmdb_w500 +:+ p
                 | None => default_logo kind
                 end;
     header_title := prop_name v |}.

(** [renderNetworkContentPage(container, networkId)] *)
Definition renderNetworkContentPage (networkId : string) : M unit :=
  w <- get_world;;
  let network := js_get (networkCache w) networkId in
  if negb (truthy network) then
    set_children [NotFoundHeading "Network not found"]
  else
    items <- try_catch
      (content <- ServerConnector.getNetworkContent networkId;;
       movies <- prop_movies content;;
       tvShows <- prop_tvShows content;;
       ret (section_if_nonempty "Movies" movies ++
            section_if_nonempty "TV Shows" tvShows))
      (fun e =>
         console_error ("Error fetching content for network " +:+ networkId +:+ ":") e;;
         ret [ErrorMessage "Failed to load content for this network."]);;
    appendChild (ContentPage Network (content_header Network network) items).

(** [renderStudioContentPage(container, studioId)] *)
Definition renderStudioContentPage (studioId : string) : M unit :=
  w <- get_world;;
  let studio := js_get (studioCache w) studioId in
  if negb (truthy studio) then
    set_children [NotFoundHeading "Studio not found"]
  else
    items <- try_catch
      (content <- ServerConnector.getStudioContent studioId;;
       movies <- prop_movies content;;
       tvShows <- prop_tvShows content;;
       ret (section_if_nonempty "Movies" movies ++
            section_if_nonempty "TV Shows" tvShows))
      (fun e =>
         console_error ("Error fetching content for studio " +:+ studioId +:+ ":") e;;
         ret [ErrorMessage "Failed to load content for this studio."]);;
    appendChild (ContentPage Studio (content_header Studio studio) items).

(** Has the entity no [name] to call [localeCompare] on? *)
Definition nameless (e : CatalogEntity) : bool :=
  match entity_name e with
  | Some _ => false
  | None => true
  end.

(** Does [Object.values(cache).sort((a, b) => a.name.localeCompare(b.name))]
    throw?  It does when the comparator is called with an [a] without name.
    With fewer than two values the comparator is not called.  With two or
    more it is called: every call throws when no value has a name, none does
    when all have one, and in between the engine's sequence of calls
    decides. *)
Definition sort_throws (d : DOM) (cache : gmap string CatalogEntity) : bool :=
  let values := map snd (map_to_list cache) in
  (1 <? length values)%nat && existsb nameless values &&
  (forallb nameless values || comparator_reaches_nameless d cache).

Definition localeCompare_of_undefined : Exn :=
  TypeError "Cannot read properties of undefined (reading 'localeCompare')".

(** [renderBrowsePage(container)]: the networks are sorted and their cards
    made, then the studios, and the page is appended last. *)
Definition renderBrowsePage : M unit :=
  w <- get_world;;
  if sort_throws (dom w) (networkCache w) then throw localeCompare_of_undefined
  else if sort_throws (dom w) (studioCache w) then throw localeCompare_of_undefined
  else appendChild (BrowsePage (networkCache w) (studioCache w)).

(** [renderCustomView(path)] *)
Definition renderCustomView (path : string) : M unit :=
  w <- get_world;;
  match content_container (dom w) with
  | None => ret tt
  | Some _ =>
      set_children [];;
      match resolve path with
      | BrowseAll => renderBrowsePage
      | NetworkDetail networkId => renderNetworkContentPage networkId
      | StudioDetail studioId => renderStudioContentPage studioId
      | Unrecognized => ret tt
      end
  end.

(** A call to an [async] method that is not awaited: the caller never sees
    it throw. *)
Definition not_awaited (m : M unit) : M unit := try_catch m (fun _ => ret tt).

(** [handleViewChange(event)], on [event.detail.view] *)
Definition handleViewChange (view : string) : M unit :=
  if JsString.startsWith view "/jellyseerr/" then not_awaited (renderCustomView view)
  else ret tt.

(** [renderNetworksAndStudios(container)] *)
Definition renderNetworksAndStudios : M unit :=
  modify (fun w =>
    set_dom (set_home (Some {| home_displayNetworks := displayNetworks (options w);
                               home_networks := networkCache w;
                               home_displayStudios := displayStudios (options w);
                               home_studios := studioCache w |}) (dom w)) w).

(** [updateUI()] *)
Definition updateUI : M unit :=
  w <- get_world;;
  match home (dom w) with
  | Some _ => renderNetworksAndStudios
  | None => ret tt
  end;;
  let path := JsString.substring1 (location_hash (dom w)) in
  if JsString.startsWith path "/jellyseerr/" then not_awaited (renderCustomView path)
  else ret tt.

(** The end of the [try] block of [refreshData], once both caches are set. *)
Definition refreshData_report : M unit :=
  w <- get_world;;
  console_log ("Refreshed data: " +:+ pretty (size (networkCache w)) +:+
               " networks, " +:+ pretty (size (studioCache w)) +:+ " studios");;
  updateUI.

(** The [try] block of [refreshData]. *)
Definition refreshData_try : M unit :=
  networksData <- ServerConnector.getNetworks;;
  networks <- reduce_by_id networksData;;
  modify (set_networkCache networks);;
  studiosData <- ServerConnector.getStudios;;
  studios <- reduce_by_id studiosData;;
  modify (set_studioCache studios);;
  refreshData_report.

(** The [catch] block of [refreshData]. *)
Definition refreshData_catch (e : Exn) : M unit :=
  console_error "Error refreshing data from Jellyseerr:" e.

(** [refreshData()] *)
Definition refreshData : M unit :=
  console_log "Refreshing data from Jellyseerr";;
  modify (fun w => set_lastRefresh (Some (clock w)) w);;
  try_catch refreshData_try refreshData_catch.

(** Does [.content-card[data-id=...][data-media-type=...]] select the card? *)
Definition selects (item : ContentItem) (c : Card) : bool :=
  String.eqb (data_id c) (pretty (item_id item)) &&
  String.eqb (data_mediaType c) (mediaType_string (item_mediaType item)).

(** The body of [cards.forEach(card => ...)] in [requestContent]. *)
Definition mark_requested (c : Card) : Card :=
  {| data_id := data_id c; data_mediaType := data_mediaType c;
     card_title := card_title c;
     card_badge := match card_badge c with
                   | Some _ => Some requested_badge
                   | None => None
                   end;
     card_requestBtn := false |}.

Definition update_card (item : ContentItem) (c : Card) : Card :=
  if selects item c then mark_requested c else c.

Definition map_item_cards (f : Card -> Card) (i : PageItem) : PageItem :=
  match i with
  | ContentSection title cards => ContentSection title (map f cards)
  | ErrorMessage text => ErrorMessage text
  end.

Definition map_child_cards (f : Card -> Card) (c : ContainerChild) : ContainerChild :=
  match c with
  | ContentPage kind header items => ContentPage kind header (map (map_item_cards f) items)
  | other => other
  end.

Definition map_cards (f : Card -> Card) (d : DOM) : DOM :=
  set_content_container (map (map_child_cards f) <$> content_container d) d.

(** [requestContent(item)] *)
Definition requestContent (item : ContentItem) : M unit :=
  try_catch
    (result <- ServerConnector.requestContent (item_id item) (item_mediaType item);;
     showNotification "Success" (display_name item +:+ " has been requested.") success;;
     modify (fun w => set_dom (map_cards (update_card item) (dom w)) w))
    (fun e =>
       console_error ("Error requesting content " +:+ pretty (item_id item) +:+ ":") e;;
       showNotification "Error" ("Failed to request " +:+ display_name item +:+ ".") error).

End Plugin.

(** Every [.content-card] of the document, in document order. *)
Definition item_cards (i : PageItem) : list Card :=
  match i with
  | ContentSection _ cards => cards
  | ErrorMessage _ => []
  end.

Definition child_cards (c : ContainerChild) : list Card :=
  match c with
  | ContentPage _ _ items => concat (map item_cards items)
  | _ => []
  end.

Definition document_cards (d : DOM) : list Card :=
  match content_container d with
  | Some cs => concat (map child_cards cs)
  | None => []
  end.

(** ** The timer queue *)

Module EventLoop.

(** [notification.classList.add('fade-out')] *)
Definition add_fade_out (target : N) (n : Notification) : Notification :=
  if N.eqb (node n) target then
    {| node := node n; severity := severity n; notif_title := notif_title n;
       notif_message := notif_message n; fade_out := true |}
  else n.

(** Running one [setTimeout] callback of [showNotification]. *)
Definition fire (a : TimerAction) (w : World) : World :=
  match a with
  | AddFadeOut target =>
      set_timers (timers w ++ [{| due := clock w + Plugin.exit_duration;
                                  action := RemoveNotification target |}])
        (set_dom (set_notif_container
                    (map (add_fade_out target) <$> notif_container (dom w))
                    (dom w)) w)
  | RemoveNotification target =>
      set_dom (set_notif_container
                 (List.filter (fun n => negb (N.eqb (node n) target))
                    <$> notif_container (dom w))
                 (dom w)) w
  end.

(** The timer that fires next: the earliest one, the first registered among
    equals; and the queue without it. *)
Fixpoint pick (ts : list Timer) : option (Timer * list Timer) :=
  match ts with
  | [] => None
  | t :: ts' =>
      match pick ts' with
      | None => Some (t, [])
      | Some (m, rest) =>
          if due t <=? due m then Some (t, ts') else Some (m, t :: rest)
      end
  end.

(** Callbacks a timer can still cause to run, itself included. *)
Definition weight (t : Timer) : nat :=
  match action t with
  | AddFadeOut _ => 2
  | RemoveNotification _ => 1
  end.

Definition total_weight (ts : list Timer) : nat :=
  fold_right (fun t acc => (weight t + acc)%nat) 0%nat ts.

Fixpoint run_timers (fuel : nat) (until : N) (w : World) : World :=
  match fuel with
  | O => w
  | S fuel' =>
      match pick (timers w) with
      | Some (t, rest) =>
          if due t <=? until then
            run_timers fuel' until
              (fire (action t) (set_clock (N.max (clock w) (due t)) (set_timers rest w)))
          else w
      | None => w
      end
  end.

(** The event loop runs every callback due up to [until]; the clock then
    reads [until]. *)
Definition advance (until : N) (w : World) : World :=
  let w' := run_timers (total_weight (timers w)) until w in
  set_clock (N.max (clock w') until) w'.

(** Is the notification element in the list, and in which phase? *)
Definition lookup_notification (target : N) (w : World) : option Notification :=
  match notif_container (dom w) with
  | Some l => List.find (fun n => N.eqb (node n) target) l
  | None => None
  end.

End EventLoop.

(** ** Sample states *)

Module Sample.

Definition hbo : CatalogEntity :=
  {| entity_id := 1; entity_name := Some "HBO"; logoPath := Some "/hbo.png" |}.
Definition netflix : CatalogEntity :=
  {| entity_id := 2; entity_name := Some "Netflix"; logoPath := None |}.
Definition warner : CatalogEntity :=
  {| entity_id := 9; entity_name := Some "Warner Bros."; logoPath := None |}.

Definition dune : ContentItem :=
  {| item_id := 42; item_mediaType := movie; item_title := Some "Dune";
     item_name := None; item_available := false; item_jellyfinId := None |}.
Definition dune_series : ContentItem :=
  {| item_id := 42; item_mediaType := tv; item_title := None;
     item_name := Some "Dune: Prophecy"; item_available := false;
     item_jellyfinId := None |}.
Definition heat : ContentItem :=
  {| item_id := 7; item_mediaType := movie; item_title := Some "Heat";
     item_name := None; item_available := true; item_jellyfinId := Some "abc" |}.

Definition empty_dom : DOM :=
  {| home := None; content_container := Some []; notif_container := None;
     location_hash := ""; window_plugin := true;
     comparator_reaches_nameless := fun _ => true |}.

Definition opts : Options :=
  {| jellyseerrUrl := "http://localhost:5055"; jellyseerrApiKey := "k";
     refreshInterval := 12; displayNetworks := ["HBO"]; displayStudios := [] |}.

(** A fresh plugin at instant 1000: empty caches, nothing rendered. *)
Definition w0 : World := Plugin.constructor opts empty_dom 1000.

(** A content page showing [dune] twice, the series of the same id and
    [heat]. *)
Definition page : ContainerChild :=
  ContentPage Network {| logo_src := "x"; header_title := "HBO" |}
    [ Plugin.createContentSection "Movies" [dune; heat; dune];
      Plugin.createContentSection "TV Shows" [dune_series] ].

Definition w_page : World :=
  set_dom (set_content_container (Some [page]) empty_dom)
    (set_networkCache (index_by_id [hbo]) w0).

Definition url (endpoint : string) : string :=
  "http://localhost:5055/api/v1" +:+ endpoint.

(** The service answers every call with [200 OK]: the two catalogs, a
    content list, an acknowledgement. *)
Definition all_ok : Oracle := fun r =>
  if String.eqb (req_url r) (url "/networks") then
    Http 200 "OK" (Some (JArray [hbo; netflix]))
  else if String.eqb (req_url r) (url "/studios") then
    Http 200 "OK" (Some (JArray [warner]))
  else if String.eqb (req_url r) (url "/request") then
    Http 201 "Created" (Some (JObject None None))
  else Http 200 "OK" (Some (JObject (Some [dune]) (Some []))).

(** The service is unreachable. *)
Definition all_down : Oracle := fun _ => Rejected.

(** Only [GET /networks] fails. *)
Definition networks_down : Oracle := fun r =>
  if String.eqb (req_url r) (url "/networks") then
    Http 500 "Internal Server Error" None
  else all_ok r.

(** Only [GET /studios] fails. *)
Definition studios_down : Oracle := fun r =>
  if String.eqb (req_url r) (url "/studios") then Rejected else all_ok r.

(** The service answers with an object that has neither group. *)
Definition bare_object : Oracle := fun _ => Http 200 "OK" (Some (JObject None None)).

(** The service lists a series among the movies. *)
Definition misfiled : Oracle := fun _ =>
  Http 200 "OK" (Some (JObject (Some [dune_series]) (Some []))).

End Sample.

(** ** Auxiliary notions for the statements *)

(** What [renderCustomView] leaves behind when no branch is taken. *)
Definition cleared (w : World) : World :=
  match content_container (dom w) with
  | Some _ => set_dom (set_content_container (Some []) (dom w)) w
  | None => w
  end.

(** The request [makeRequest] sends from state [w]. *)
Definition api_request (w : World) (endpoint : string) (method : Method)
    (body : option RequestBody) : Request :=
  {| req_url := baseUrl (serverConnector w) +:+ "/api/v1" +:+ endpoint;
     req_method := method;
     req_apiKey := apiKey (serverConnector w);
     req_body := body |}.

Definition networks_request (w : World) : Request := api_request w "/networks" GET None.

Definition studios_request (w : World) : Request := api_request w "/studios" GET None.

Definition content_request (w : World) (kind : CatalogKind) (id : string) : Request :=
  api_request w
    (match kind with Network => "/network/" | Studio => "/studio/" end +:+ id +:+ "/content")
    GET None.

Definition submit_request (w : World) (item : ContentItem) : Request :=
  api_request w "/request" POST
    (Some {| mediaId := item_id item; body_mediaType := item_mediaType item |}).

(** The body [makeRequest] returns, if it returns. *)
Definition response_json (r : Response) : option JSON :=
  match r with
  | Http status _ (Some j) => if response_ok status then Some j else None
  | _ => None
  end.

Definition succeeded (r : Response) : bool :=
  match response_json r with Some _ => true | None => false end.

(** The exception [makeRequest] throws otherwise. *)
Definition response_exn (r : Response) : Exn :=
  match r with
  | Rejected => FetchRejected
  | Http status statusText _ =>
      if response_ok status then JsonSyntaxError else ApiError status statusText
  end.

(** The catalog a response to [GET /networks] or [GET /studios] delivers. *)
Definition catalog_of (r : Response) : option (list CatalogEntity) :=
  match response_json r with
  | Some (JArray l) => Some l
  | _ => None
  end.

(** The exception that reaches the [catch] block of [refreshData] when a
    response delivers no catalog. *)
Definition catalog_exn (r : Response) : Exn :=
  match response_json r with
  | None => response_exn r
  | Some JNull => TypeError "Cannot read properties of null (reading 'reduce')"
  | Some _ => TypeError "reduce is not a function"
  end.

(** Identity keys, as the selector of [requestContent] compares them. *)
Definition card_key (c : Card) : string * string := (data_id c, data_mediaType c).

Definition item_key (item : ContentItem) : string * string :=
  (pretty (item_id item), mediaType_string (item_mediaType item)).

(** The cards of the document that represent [item]. *)
Definition representations (item : ContentItem) (d : DOM) : list Card :=
  List.filter (Plugin.selects item) (document_cards d).

(** A property of the state held whenever a request was issued. *)
Definition snapshot_ok (I : World -> Prop) (ev : Event) : Prop :=
  match ev with
  | EvFetch _ s => I s
  | EvConsole _ _ _ => True
  end.

(** [m] only appends to the trace, and a property [I] of the state that holds
    when [m] starts holds whenever [m] issues a request and when it ends. *)
Definition preserves {A} (I : World -> Prop) (m : M A) : Prop :=
  forall o s, I (world s) ->
    exists tr, trace (snd (m o s)) = trace s ++ tr /\
               Forall (snapshot_ok I) tr /\
               I (world (snd (m o s))).

(** Properties that do not depend on the home sections nor on the content
    container. *)
Definition view_independent (I : World -> Prop) : Prop :=
  forall w, I w ->
    (forall h, I (set_dom (set_home h (dom w)) w)) /\
    (forall c, I (set_dom (set_content_container c (dom w)) w)).

(** How a representation is displayed. *)
Definition shows_not_available (c : Card) : Prop :=
  card_badge c = Some (Plugin.availability_badge false) /\ card_requestBtn c = true.

Definition shows_requested (c : Card) : Prop :=
  card_badge c = Some Plugin.requested_badge /\ card_requestBtn c = false.

(** The element [showNotification] appends in state [w]. *)
Definition new_notification (title message : string) (type : Severity) (w : World)
    : Notification :=
  {| node := next_node w; severity := type; notif_title := title;
     notif_message := message; fade_out := false |}.

(** The two content getters of the connector, by catalog. *)
Definition fetchForEntity (kind : CatalogKind) (entityId : string) : M JSON :=
  match kind with
  | Network => ServerConnector.getNetworkContent entityId
  | Studio => ServerConnector.getStudioContent entityId
  end.

(** The two content pages of the plugin, by catalog. *)
Definition renderContentPage (kind : CatalogKind) (entityId : string) : M unit :=
  match kind with
  | Network => Plugin.renderNetworkContentPage entityId
  | Studio => Plugin.renderStudioContentPage entityId
  end.

Definition cache_of (kind : CatalogKind) (w : World) : gmap string CatalogEntity :=
  match kind with
  | Network => networkCache w
  | Studio => studioCache w
  end.

Definition not_found_text (kind : CatalogKind) : string :=
  match kind with
  | Network => "Network not found"
  | Studio => "Studio not found"
  end.

(** A content result with a movies group and a series group. *)
Definition has_both_groups (j : JSON) : Prop :=
  exists m t, j = JObject (Some m) (Some t).

(** ... whose items are filed by media type. *)
Definition grouped_by_mediaType (j : JSON) : Prop :=
  exists m t, j = JObject (Some m) (Some t) /\
              Forall (fun i => item_mediaType i = movie) m /\
              Forall (fun i => item_mediaType i = tv) t.

(** The element a timer callback acts on. *)
Definition target_of (a : TimerAction) : N :=
  match a with
  | AddFadeOut target | RemoveNotification target => target
  end.

Definition targets (id : N) (tm : Timer) : bool := N.eqb (target_of (action tm)) id.

(** The pending timers of one notification. *)
Definition own_timers (id : N) (w : World) : list Timer :=
  List.filter (targets id) (timers w).

(** Node identities are handed out in increasing order: the elements in the
    notification list and the targets of the pending timers are older than
    the next one. *)
Definition fresh (w : World) : Prop :=
  Forall (fun n => node n < next_node w) (default [] (notif_container (dom w))) /\
  Forall (fun tm => target_of (action tm) < next_node w) (timers w).

(** The notification once its exit transition has begun. *)
Definition fading (n : Notification) : Notification :=
  {| node := node n; severity := severity n; notif_title := notif_title n;
     notif_message := notif_message n; fade_out := true |}.

(** The three phases of the notification [n] created at instant [t]. *)
Definition displayed (n : Notification) (t : N) (w : World) : Prop :=
  EventLoop.lookup_notification (node n) w = Some n /\
  own_timers (node n) w
  = [{| due := t + Plugin.display_duration; action := AddFadeOut (node n) |}] /\
  clock w <= t + Plugin.display_duration.

Definition leaving (n : Notification) (t : N) (w : World) : Prop :=
  EventLoop.lookup_notification (node n) w = Some (fading n) /\
  own_timers (node n) w
  = [{| due := t + Plugin.display_duration + Plugin.exit_duration;
        action := RemoveNotification (node n) |}] /\
  t + Plugin.display_duration <= clock w.

Definition removed (n : Notification) (t : N) (w : World) : Prop :=
  EventLoop.lookup_notification (node n) w = None /\
  own_timers (node n) w = [] /\
  t + Plugin.display_duration + Plugin.exit_duration <= clock w.

Definition lifecycle (n : Notification) (t : N) (w : World) : Prop :=
  displayed n t w \/ leaving n t w \/ removed n t w.

(** Every card of the document carries a badge. *)
Definition badged (d : DOM) : Prop :=
  Forall (fun c => is_Some (card_badge c)) (document_cards d).

(** * The rest of the plugin *)

(** ** Settings, and the connector method the plugin never calls *)

Definition set_options (o : Options) (w : World) : World :=
  {| options := o; serverConnector := serverConnector w;
     networkCache := networkCache w; studioCache := studioCache w;
     lastRefresh := lastRefresh w; dom := dom w; clock := clock w;
     timers := timers w; next_node := next_node w |}.

(** [pluginManifest.config.onSave(settings)]: when
    [window.jellyfinJellyseerrPlugin] holds the plugin, its options are
    replaced and a refresh is started (not awaited); otherwise nothing
    happens. *)
Definition onSave (settings : Options) : M unit :=
  w <- get_world;;
  if window_plugin (dom w) then
    modify (set_options settings);;
    Plugin.not_awaited Plugin.refreshData
  else ret tt.

(** [checkLibraryStatus(tmdbId, mediaType)] of the connector. *)
Definition checkLibraryStatus (tmdbId : N) (mediaType : MediaType) : M JSON :=
  ServerConnector.makeRequest
    ("/search/status?tmdbId=" +:+ pretty tmdbId +:+ "&mediaType=" +:+
     mediaType_string mediaType) GET None.

(** ** Network and studio cards *)

(** A [.network-card] or [.studio-card] element: data attribute, logo, title
    and the path its click handler navigates to. *)
Record EntityCard := {
  ec_className : string;
  ec_data_id : string;
  ec_img_src : string;
  ec_img_alt : string;
  ec_title : string;
  ec_click : string;
}.

Definition tmdb_w300 : string := "https://image.tmdb.org/t/p/w300".

(** [entity.logoPath ? tmdb + entity.logoPath : fallback] *)
Definition logo_or (base fallback : string) (e : CatalogEntity) : string :=
  match logoPath e with
  | Some (String c s) => base +:+ String c s
  | _ => fallback
  end.

(** [openNetworkBrowser()], [openNetworkContent(network)] and
    [openStudioContent(studio)]: the path handed to
    [Jellyfin.Navigation.navigate]. *)
Definition openNetworkBrowser : string := "/jellyseerr/browse".

Definition openNetworkContent (network : CatalogEntity) : string :=
  "/jellyseerr/network/" +:+ pretty (entity_id network).

Definition openStudioContent (studio : CatalogEntity) : string :=
  "/jellyseerr/studio/" +:+ pretty (entity_id studio).

(** [createNetworkCard(network)] *)
Definition createNetworkCard (network : CatalogEntity) : EntityCard :=
  {| ec_className := "card network-card";
     ec_data_id := pretty (entity_id network);
     ec_img_src := logo_or tmdb_w300 (Plugin.default_logo Network) network;
     ec_img_alt := default "undefined" (entity_name network);
     ec_title := default "" (entity_name network);
     ec_click := openNetworkContent network |}.

(** [createStudioCard(studio)] *)
Definition createStudioCard (studio : CatalogEntity) : EntityCard :=
  {| ec_className := "card studio-card";
     ec_data_id := pretty (entity_id studio);
     ec_img_src := logo_or tmdb_w300 (Plugin.default_logo Studio) studio;
     ec_img_alt := default "undefined" (entity_name studio);
     ec_title := default "" (entity_name studio);
     ec_click := openStudioContent studio |}.

(** The loop of [renderNetworksAndStudios] over the configured names:
    [names.forEach(name => { const e = values.find(n => n.name === name);
    if (e) list.appendChild(createCard(e)); })], where [values] is the array
    [Object.values(cache)]. *)
Definition has_name (name : string) (n : CatalogEntity) : bool :=
  match entity_name n with
  | Some s => String.eqb s name
  | None => false
  end.

Definition select_cards (createCard : CatalogEntity -> EntityCard)
    (names : list string) (values : list CatalogEntity) : list EntityCard :=
  flat_map (fun name =>
              match List.find (has_name name) values with
              | Some e => [createCard e]
              | None => []
              end) names.

(** ** Statements about what a method does *)

(** The method returns normally, whatever the service answers. *)
Definition always_returns {A} (m : M A) : Prop :=
  forall o s, exists a, fst (m o s) = Returned a.

(** The method only appends to the trace, and only events that satisfy [P]. *)
Definition emits {A} (P : Event -> Prop) (m : M A) : Prop :=
  forall o s, exists tr, trace (snd (m o s)) = trace s ++ tr /\ Forall P tr.

(** Every entity of the cache has a name. *)
Definition named (cache : gmap string CatalogEntity) : Prop :=
  map_Forall (fun _ e => is_Some (entity_name e)) cache.

(** [renderCustomView(path)] gets to sort a cache for the browse page, and
    the sort throws. *)
Definition browse_rejects (path : string) (w : World) : bool :=
  match content_container (dom w), resolve path with
  | Some _, BrowseAll =>
      Plugin.sort_throws (dom w) (networkCache w) ||
      Plugin.sort_throws (dom w) (studioCache w)
  | _, _ => false
  end.

(** The endpoints the plugin reads with [GET]. *)
Definition read_endpoint (e : string) : Prop :=
  e = "/networks" \/ e = "/studios" \/
  (exists id, e = "/network/" +:+ id +:+ "/content") \/
  (exists id, e = "/studio/" +:+ id +:+ "/content").

(** A request as the plugin sends them: to the connector's address with the
    connector's key; a [GET] without body on one of the read endpoints, or a
    [POST] of a media id to ["/request"]. *)
Definition plugin_request (ev : Event) : Prop :=
  match ev with
  | EvFetch r s =>
      req_apiKey r = apiKey (serverConnector s) /\
      exists endpoint,
        req_url r = baseUrl (serverConnector s) +:+ "/api/v1" +:+ endpoint /\
        ((req_method r = GET /\ req_body r = None /\ read_endpoint endpoint) \/
         (req_method r = POST /\ endpoint = "/request" /\ is_Some (req_body r)))
  | EvConsole _ _ _ => True
  end.

(** ** Sessions *)

(** What can happen to an installed plugin: the refresh timer ticks, a
    request button is clicked, the host changes view, the settings are
    saved, or time passes until an instant. *)
Inductive Action :=
| DoRefresh
| DoSubmit (item : ContentItem)
| DoViewChange (view : string)
| DoSave (settings : Options)
| DoWait (until : N).

Definition handler (a : Action) : M unit :=
  match a with
  | DoRefresh => Plugin.refreshData
  | DoSubmit item => Plugin.requestContent item
  | DoViewChange view => Plugin.handleViewChange view
  | DoSave settings => onSave settings
  | DoWait _ => ret tt
  end.

(** One action, with the service answering as [o] while it runs. *)
Definition perform (o : Oracle) (a : Action) (w : World) : World :=
  match a with
  | DoWait until => EventLoop.advance until w
  | _ => final_world (run (handler a) o w)
  end.

(** A session: actions one after the other, each with the service of its
    time. *)
Definition play (turns : list (Oracle * Action)) (w : World) : World :=
  fold_left (fun w turn => perform (fst turn) (snd turn) w) turns w.

(** Properties of the state that depend neither on the rendered views nor on
    the caches or the refresh timestamp. *)
Definition background (I : World -> Prop) : Prop :=
  forall w, I w ->
    (forall h, I (set_dom (set_home h (dom w)) w)) /\
    (forall c, I (set_dom (set_content_container c (dom w)) w)) /\
    (forall c, I (set_networkCache c w)) /\
    (forall c, I (set_studioCache c w)) /\
    (forall t, I (set_lastRefresh t w)).

(** A request to the address and with the key of connector [c]. *)
Definition sent_with (c : Connector) (r : Request) : Prop :=
  req_apiKey r = apiKey c /\
  exists endpoint, req_url r = baseUrl c +:+ "/api/v1" +:+ endpoint.

(** The request [checkLibraryStatus] would send from state [w]. *)
Definition status_request (w : World) (tmdbId : N) (mediaType : MediaType) : Request :=
  api_request w
    ("/search/status?tmdbId=" +:+ pretty tmdbId +:+ "&mediaType=" +:+
     mediaType_string mediaType) GET None.

(** ** Numerals and cache keys *)

Definition is_digit (c : ascii) : bool :=
  (48 <=? N_of_ascii c) && (N_of_ascii c <=? 57).

Fixpoint all_digits (s : string) : bool :=
  match s with
  | EmptyString => true
  | String c s' => is_digit c && all_digits s'
  end.

(** Every entry of the cache sits under the key of its own id. *)
Definition keyed (m : gmap string CatalogEntity) : Prop :=
  forall k e, m !! k = Some e -> k = cache_key e.

(** The entity of id [id] that [index_by_id] keeps: the last one delivered. *)
Definition last_with_id (id : N) (l : list CatalogEntity) : option CatalogEntity :=
  List.find (fun e => N.eqb (entity_id e) id) (rev l).

(** ** Content pages, by response *)

Definition failed_text (kind : CatalogKind) : string :=
  match kind with
  | Network => "Failed to load content for this network."
  | Studio => "Failed to load content for this studio."
  end.

Definition fetch_error_text (kind : CatalogKind) (id : string) : string :=
  match kind with
  | Network => "Error fetching content for network " +:+ id +:+ ":"
  | Studio => "Error fetching content for studio " +:+ id +:+ ":"
  end.

(** The items delivered by a content response, movies first. *)
Definition delivered_items (j : JSON) : list ContentItem :=
  match j with
  | JObject m t => default [] m ++ default [] t
  | _ => []
  end.

(** What the [try] block of a content page appends, by response: the
    sections of the groups present and not empty; nothing for an array; the
    error message when the call failed or delivered [null]. *)
Definition page_items (kind : CatalogKind) (r : Response) : list PageItem :=
  match response_json r with
  | Some (JObject m t) =>
      Plugin.section_if_nonempty "Movies" m ++ Plugin.section_if_nonempty "TV Shows" t
  | Some (JArray _) => []
  | Some JNull | None => [ErrorMessage (failed_text kind)]
  end.

(** The exception its [catch] block logs, if any. *)
Definition page_exn (r : Response) : option Exn :=
  match response_json r with
  | None => Some (response_exn r)
  | Some JNull => Some (TypeError "Cannot read properties of null (reading 'movies')")
  | Some _ => None
  end.

(** The card of an entity and the path it opens, by catalog. *)
Definition entity_card (kind : CatalogKind) (e : CatalogEntity) : EntityCard :=
  match kind with
  | Network => createNetworkCard e
  | Studio => createStudioCard e
  end.

(** The state after [container.appendChild(c)]. *)
Definition appended (c : ContainerChild) (w : World) : World :=
  match content_container (dom w) with
  | Some cs => set_dom (set_content_container (Some (cs ++ [c])) (dom w)) w
  | None => w
  end.

(** ** The notification list and its timers, over time *)

(** The identities of the notifications in the list, top to bottom. *)
Definition nodes (w : World) : list N :=
  map node (default [] (notif_container (dom w))).

(** The list is in order of creation. *)
Definition ordered (w : World) : Prop := StronglySorted N.lt (nodes w).

(** No timer is overdue. *)
Definition settled (w : World) : Prop :=
  Forall (fun tm => clock w < due tm) (timers w).

(** Every notification in the list has a timer pending for it. *)
Definition covered (w : World) : Prop :=
  Forall (fun n => Exists (fun tm => target_of (action tm) = node n) (timers w))
         (default [] (notif_container (dom w))).

(** The time a notification stays after the timer has fired. *)
Definition remaining (tm : Timer) : N :=
  match action tm with
  | AddFadeOut _ => Plugin.exit_duration
  | RemoveNotification _ => 0
  end.

(** Every pending removal is at most [horizon] away. *)
Definition within (horizon : N) (w : World) : Prop :=
  Forall (fun tm => due tm + remaining tm <= horizon) (timers w).

(** The invariant of the notification service. *)
Definition tidy (w : World) : Prop :=
  fresh w /\ ordered w /\ settled w /\ covered w /\
  within (clock w + Plugin.display_duration + Plugin.exit_duration) w.

(** The notification [n], created at instant [t], is on its schedule in a
    tidy state that has handed out its identity. *)
Definition scheduled (n : Notification) (t : N) (w : World) : Prop :=
  tidy w /\ node n < next_node w /\ lifecycle n t w.

(** While the callbacks run: no timer is due before the clock, and every
    pending removal falls by [deadline]. *)
Definition draining (deadline : N) (w : World) : Prop :=
  Forall (fun tm => clock w <= due tm /\ due tm + remaining tm <= deadline) (timers w).

(** ** What a handler leaves alone *)

(** Properties that do not depend on the content container. *)
Definition container_independent (I : World -> Prop) : Prop :=
  forall w c, I w -> I (set_dom (set_content_container c (dom w)) w).

(** [w'] is [w] up to the children of the content container. *)
Definition same_but_container (w w' : World) : Prop :=
  set_dom (set_content_container (content_container (dom w)) (dom w')) w' = w.

(** The home sections [renderNetworksAndStudios] builds in state [w]. *)
Definition rendered_home (w : World) : HomeSections :=
  {| home_displayNetworks := displayNetworks (options w);
     home_networks := networkCache w;
     home_displayStudios := displayStudios (options w);
     home_studios := studioCache w |}.

(** The card is as [createContentCard] draws it for some item. *)
Definition drawn (c : Card) : Prop := exists item, c = Plugin.createContentCard item.

(** * Properties *)

(** ** Routing *)

Section SplitFacts.

Variable sep : ascii.

Lemma split_nonempty (s : string) : JsString.split sep s <> [].
Proof.
  destruct s as [|a s]; simpl; [discriminate|].
  destruct (Ascii.eqb a sep); [discriminate|].
  destruct (JsString.split sep s); discriminate.
Qed.

Lemma split_app_sep (s1 s2 : string) :
  JsString.split sep (s1 +:+ String sep s2)
  = JsString.split sep s1 ++ JsString.split sep s2.
Proof.
  induction s1 as [|a s1 IH]; simpl.
  - now rewrite Ascii.eqb_refl.
  - rewrite IH. destruct (Ascii.eqb a sep); [reflexivity|].
    pose proof (split_nonempty s1) as Hne.
    destruct (JsString.split sep s1); [contradiction|reflexivity].
Qed.

Lemma split_without_sep (s : string) :
  JsString.contains sep s = false -> JsString.split sep s = [s].
Proof.
  induction s as [|a s IH]; simpl; [reflexivity|].
  intros H. apply orb_false_iff in H as [Ha Hs].
  rewrite Ha, (IH Hs). reflexivity.
Qed.

Lemma pop_app (l1 l2 : list string) :
  l2 <> [] -> JsString.pop (l1 ++ l2) = JsString.pop l2.
Proof.
  intros Hne. unfold JsString.pop.
  induction l1 as [|x l1 IH]; [reflexivity|].
  simpl. destruct (l1 ++ l2) eqn:E; [|exact IH].
  apply app_eq_nil in E as [_ ->]. contradiction.
Qed.

(** The segment after the last separator ignores everything up to and
    including any earlier separator. *)
Lemma pop_split_app_sep (s1 s2 : string) :
  JsString.pop (JsString.split sep (s1 +:+ String sep s2))
  = JsString.pop (JsString.split sep s2).
Proof. rewrite split_app_sep. apply pop_app, split_nonempty. Qed.

Lemma pop_split_without_sep (s : string) :
  JsString.contains sep s = false -> JsString.pop (JsString.split sep s) = s.
Proof. intros H. now rewrite split_without_sep. Qed.

(** With a separator inside, the last segment is strictly shorter. *)
Lemma pop_split_length (s : string) :
  (String.length (JsString.pop (JsString.split sep s)) <= String.length s)%nat.
Proof.
  induction s as [|a s IH]; simpl; [lia|].
  pose proof (split_nonempty s) as Hne.
  destruct (Ascii.eqb a sep).
  - unfold JsString.pop in *. simpl.
    destruct (JsString.split sep s); [contradiction|]. lia.
  - unfold JsString.pop in *.
    destruct (JsString.split sep s) as [|w ws]; [contradiction|].
    simpl in *. destruct ws; simpl in *; lia.
Qed.

Lemma pop_split_with_sep (s : string) :
  JsString.contains sep s = true -> JsString.pop (JsString.split sep s) <> s.
Proof.
  induction s as [|a s IH]; simpl; [discriminate|].
  intros H Heq.
  pose proof (split_nonempty s) as Hne.
  pose proof (pop_split_length s) as Hlen.
  destruct (Ascii.eqb a sep) eqn:Ha.
  - unfold JsString.pop in *. simpl in Heq.
    destruct (JsString.split sep s); [contradiction|].
    rewrite Heq in Hlen. simpl in Hlen. lia.
  - simpl in H. unfold JsString.pop in *.
    destruct (JsString.split sep s) as [|w ws] eqn:E; [contradiction|].
    destruct ws as [|w' ws].
    + simpl in Heq. injection Heq as Heq. apply IH; [exact H|]. exact Heq.
    + change (List.last (String a w :: w' :: ws) "") with (List.last (w :: w' :: ws) "") in Heq.
      rewrite Heq in Hlen. simpl in Hlen. lia.
Qed.

End SplitFacts.

Lemma startsWith_app (p r : string) : JsString.startsWith (p +:+ r) p = true.
Proof.
  unfold JsString.startsWith.
  induction p as [|a p IH]; simpl; [now destruct r|].
  destruct (ascii_dec a a); [exact IH|contradiction].
Qed.

Lemma startsWith_inv (s p : string) :
  JsString.startsWith s p = true -> exists r, s = p +:+ r.
Proof.
  unfold JsString.startsWith. revert s.
  induction p as [|a p IH]; intros s H.
  - exists s. reflexivity.
  - destruct s as [|b s]; simpl in H; [discriminate|].
    destruct (ascii_dec a b) as [->|]; [|discriminate].
    destruct (IH s H) as [r ->]. exists r. reflexivity.
Qed.


Lemma resolve_network (r : string) :
  resolve (network_prefix +:+ r) = NetworkDetail (JsString.pop (JsString.split "/" r)).
Proof.
  unfold resolve. rewrite startsWith_app.
  change (network_prefix +:+ r) with ("/jellyseerr/network" +:+ String "/" r).
  rewrite pop_split_app_sep. reflexivity.
Qed.

Lemma resolve_studio (r : string) :
  resolve (studio_prefix +:+ r) = StudioDetail (JsString.pop (JsString.split "/" r)).
Proof.
  unfold resolve. rewrite startsWith_app.
  change (studio_prefix +:+ r) with ("/jellyseerr/studio" +:+ String "/" r).
  rewrite pop_split_app_sep. reflexivity.
Qed.

Lemma renderCustomView_unrecognized (p : string) (o : Oracle) (w : World) :
  resolve p = Unrecognized ->
  run (Plugin.renderCustomView p) o w = (Returned tt, {| world := cleared w; trace := [] |}).
Proof.
  intros H. unfold run, Plugin.renderCustomView, cleared, bind, get_world. simpl.
  destruct (content_container (dom w)); [|reflexivity].
  rewrite H. reflexivity.
Qed.

(** C5 (as amended).  [resolve] is a function of the path alone.  The browse
    path gives [BrowseAll]; a path with the network prefix gives
    [NetworkDetail s] and one with the studio prefix [StudioDetail s], where
    [s] is the segment after the last ["/"] of the path, which is the
    remainder after the prefix exactly when that remainder has no ["/"];
    every other path is [Unrecognized], for which [renderCustomView] empties
    the content container (when there is one), issues no request and raises
    no error. *)
Theorem resolve_rules (p : string) :
  (p = browse_path -> resolve p = BrowseAll) /\
  (forall r, p = network_prefix +:+ r ->
     resolve p = NetworkDetail (JsString.pop (JsString.split "/" r)) /\
     (JsString.contains "/" r = false <-> JsString.pop (JsString.split "/" r) = r)) /\
  (forall r, p = studio_prefix +:+ r ->
     resolve p = StudioDetail (JsString.pop (JsString.split "/" r)) /\
     (JsString.contains "/" r = false <-> JsString.pop (JsString.split "/" r) = r)) /\
  (p <> browse_path ->
   JsString.startsWith p network_prefix = false ->
   JsString.startsWith p studio_prefix = false ->
   resolve p = Unrecognized /\
   forall o w, run (Plugin.renderCustomView p) o w
               = (Returned tt, {| world := cleared w; trace := [] |})).
Proof.
  assert (Hseg : forall r, JsString.contains "/" r = false
                           <-> JsString.pop (JsString.split "/" r) = r).
  { intros r. split; [apply pop_split_without_sep|].
    intros Heq. destruct (JsString.contains "/" r) eqn:E; [|reflexivity].
    exfalso. exact (pop_split_with_sep _ _ E Heq). }
  repeat split.
  - intros ->. reflexivity.
  - subst p. apply resolve_network.
  - apply Hseg.
  - apply Hseg.
  - subst p. apply resolve_studio.
  - apply Hseg.
  - apply Hseg.
  - unfold resolve. apply String.eqb_neq in H. rewrite H, H0, H1. reflexivity.
  - intros o w. apply renderCustomView_unrecognized.
    unfold resolve. apply String.eqb_neq in H. rewrite H, H0, H1. reflexivity.
Qed.

Lemma resolve_rules_witness :
  resolve "/jellyseerr/network/7" = NetworkDetail "7" /\
  resolve "/jellyseerr/studio/9" = StudioDetail "9" /\
  resolve "/jellyseerr/nonsense" = Unrecognized.
Proof.
  split; [|split].
  - destruct (resolve_rules "/jellyseerr/network/7") as (_ & Hn & _).
    exact (proj1 (Hn "7" eq_refl)).
  - destruct (resolve_rules "/jellyseerr/studio/9") as (_ & _ & Hs & _).
    exact (proj1 (Hs "9" eq_refl)).
  - destruct (resolve_rules "/jellyseerr/nonsense") as (_ & _ & _ & Hu).
    refine (proj1 (Hu _ eq_refl eq_refl)). discriminate.
Defined.

(** C5, as stated, fails twice: the identifier is the last segment of the
    path and not the remainder after the prefix, and an unrecognized path
    under ["/jellyseerr/"] blanks the content view. *)
Lemma resolve_remainder_counterexample :
  resolve (network_prefix +:+ "7/8") = NetworkDetail "8" /\
  resolve (network_prefix +:+ "7/8") <> NetworkDetail "7/8" /\
  resolve "/jellyseerr/nonsense" = Unrecognized /\
  content_container (dom Sample.w_page) = Some [Sample.page] /\
  content_container
    (dom (final_world (run (Plugin.handleViewChange "/jellyseerr/nonsense")
                           Sample.all_ok Sample.w_page))) = Some [].
Proof. repeat split; try reflexivity. discriminate. Qed.

(** ** Running the connector *)

Lemma makeRequest_run (endpoint : string) (method : Method)
    (data : option RequestBody) (o : Oracle) (s : St) :
  let body := match method with GET => None | POST | PUT => data end in
  let req := api_request (world s) endpoint method body in
  ServerConnector.makeRequest endpoint method data o s
  = (match response_json (o req) with
     | Some j => Returned j
     | None => Thrown (response_exn (o req))
     end,
     {| world := world s; trace := trace s ++ [EvFetch req (world s)] |}).
Proof.
  unfold ServerConnector.makeRequest, api_request, bind, get_world, fetch; simpl.
  match goal with |- context [o ?r] => destruct (o r) as [|status txt [j|]] end;
    simpl; [reflexivity | destruct (response_ok status); reflexivity ..].
Qed.

(** ** Cards of the document *)

Lemma document_cards_map_cards (f : Card -> Card) (d : DOM) :
  document_cards (Plugin.map_cards f d) = map f (document_cards d).
Proof.
  unfold document_cards, Plugin.map_cards; simpl.
  destruct (content_container d) as [cs|]; simpl; [|reflexivity].
  induction cs as [|c cs IH]; simpl; [reflexivity|].
  rewrite map_app, IH. f_equal.
  destruct c as [| |kind header items]; simpl; try reflexivity.
  induction items as [|i items IHi]; simpl; [reflexivity|].
  rewrite map_app, IHi. f_equal. destruct i; reflexivity.
Qed.

Lemma selects_key (item : ContentItem) (c : Card) :
  Plugin.selects item c = true <-> card_key c = item_key item.
Proof.
  unfold Plugin.selects, card_key, item_key.
  rewrite andb_true_iff, !String.eqb_eq. split.
  - intros [-> ->]. reflexivity.
  - intros H. injection H as -> ->. split; reflexivity.
Qed.

Lemma selects_mark_requested (item : ContentItem) (c : Card) :
  Plugin.selects item (Plugin.mark_requested c) = Plugin.selects item c.
Proof. reflexivity. Qed.

Lemma filter_selects_update (item : ContentItem) (l : list Card) :
  List.filter (Plugin.selects item) (map (Plugin.update_card item) l)
  = map Plugin.mark_requested (List.filter (Plugin.selects item) l).
Proof.
  induction l as [|c l IH]; [reflexivity|].
  cbn [map List.filter].
  destruct (Plugin.selects item c) eqn:E.
  - assert (Hu : Plugin.update_card item c = Plugin.mark_requested c)
      by (unfold Plugin.update_card; now rewrite E).
    rewrite Hu, selects_mark_requested, E. cbn [map]. f_equal. exact IH.
  - assert (Hu : Plugin.update_card item c = c)
      by (unfold Plugin.update_card; now rewrite E).
    rewrite Hu, E. exact IH.
Qed.

(** Cards are rendered with their item's key, and different items of the
    service have different keys. *)
Lemma createContentCard_key (item : ContentItem) :
  card_key (Plugin.createContentCard item) = item_key item.
Proof. reflexivity. Qed.

Lemma item_key_inj (i j : ContentItem) :
  item_key i = item_key j ->
  item_id i = item_id j /\ item_mediaType i = item_mediaType j.
Proof.
  unfold item_key. intros H. injection H as Hid Hmt. split.
  - exact (pretty_N_inj _ _ Hid).
  - destruct (item_mediaType i), (item_mediaType j); simpl in Hmt;
      first [reflexivity | discriminate].
Qed.

Lemma createContentCard_has_badge (item : ContentItem) :
  is_Some (card_badge (Plugin.createContentCard item)).
Proof. eexists. reflexivity. Qed.

(** ** Running [requestContent] *)

Lemma requestContent_success (item : ContentItem) (o : Oracle) (w : World) :
  succeeded (o (submit_request w item)) = true ->
  run (Plugin.requestContent item) o w
  = (Returned tt,
     {| world :=
          let w1 := Plugin.add_notification "Success"
                      (display_name item +:+ " has been requested.") success w in
          set_dom (Plugin.map_cards (Plugin.update_card item) (dom w1)) w1;
        trace := [EvFetch (submit_request w item) w] |}).
Proof.
  intros H. unfold run, Plugin.requestContent, ServerConnector.requestContent,
    try_catch, bind.
  rewrite makeRequest_run. simpl world. fold (submit_request w item).
  unfold succeeded in H.
  destruct (response_json (o (submit_request w item))); [reflexivity|discriminate].
Qed.

Lemma requestContent_failure (item : ContentItem) (o : Oracle) (w : World) :
  succeeded (o (submit_request w item)) = false ->
  run (Plugin.requestContent item) o w
  = (Returned tt,
     {| world := Plugin.add_notification "Error"
                   ("Failed to request " +:+ display_name item +:+ ".") error w;
        trace := [EvFetch (submit_request w item) w;
                  EvConsole error_level
                    ("Error requesting content " +:+ pretty (item_id item) +:+ ":")
                    (Some (response_exn (o (submit_request w item))))] |}).
Proof.
  intros H. unfold run, Plugin.requestContent, ServerConnector.requestContent,
    try_catch, bind.
  rewrite makeRequest_run. simpl world. fold (submit_request w item).
  unfold succeeded in H.
  destruct (response_json (o (submit_request w item))); [discriminate|reflexivity].
Qed.

Lemma lookup_map {A B} (f : A -> B) (l : list A) (i : nat) :
  map f l !! i = f <$> (l !! i).
Proof.
  revert i. induction l as [|x l IH]; intros [|i]; simpl; try reflexivity.
  apply IH.
Qed.

(** ** Request workflow *)

(** C2 (as amended).  The remote call is the first thing [requestContent]
    does: it is issued in the very state the method was called in, so no
    representation has changed by then, and it is the only remote call of the
    submission.  The cards are updated once the call has succeeded and are
    left as they were when it fails. *)
Theorem submit_calls_remote_first (item : ContentItem) (o : Oracle) (w : World) :
  let r := run (Plugin.requestContent item) o w in
  (exists rest,
     final_trace r = EvFetch (submit_request w item) w :: rest /\
     requests rest = []) /\
  document_cards (dom (final_world r))
  = if succeeded (o (submit_request w item))
    then map (Plugin.update_card item) (document_cards (dom w))
    else document_cards (dom w).
Proof.
  intros r. subst r. destruct (succeeded (o (submit_request w item))) eqn:E.
  - rewrite (requestContent_success _ _ _ E). split.
    + exists []. split; reflexivity.
    + unfold final_world. cbn [snd world dom set_dom].
      rewrite document_cards_map_cards. reflexivity.
  - rewrite (requestContent_failure _ _ _ E). split; [|reflexivity].
    eexists. split; reflexivity.
Qed.

(** C2, as stated, fails: when the remote call is issued, the two cards of
    the item still show "Not Available" with their request button; nothing
    was set to a pending state before. *)
Lemma submit_no_pending_counterexample :
  exists snapshot,
    final_trace (run (Plugin.requestContent Sample.dune) Sample.all_ok Sample.w_page)
    = [EvFetch (submit_request Sample.w_page Sample.dune) snapshot] /\
    length (representations Sample.dune (dom snapshot)) = 2%nat /\
    Forall shows_not_available (representations Sample.dune (dom snapshot)) /\
    dom snapshot = dom Sample.w_page.
Proof.
  exists Sample.w_page. split; [reflexivity|]. split; [reflexivity|].
  split; [|reflexivity]. repeat constructor.
Qed.

(** Cards are rendered with a badge and keep it. *)
Lemma rendered_cards_have_badge (title : string) (group : option (list ContentItem)) :
  Forall (fun c => is_Some (card_badge c))
    (concat (map item_cards (Plugin.section_if_nonempty title group))).
Proof.
  destruct group as [[|i l]|]; [constructor| |constructor].
  cbn [Plugin.section_if_nonempty map concat]. rewrite app_nil_r.
  cbn [item_cards Plugin.createContentSection].
  apply Forall_forall. intros c Hc. apply list_elem_of_In, in_map_iff in Hc.
  destruct Hc as (x & <- & _). apply createContentCard_has_badge.
Qed.

Lemma update_card_has_badge (item : ContentItem) (c : Card) :
  is_Some (card_badge c) -> is_Some (card_badge (Plugin.update_card item c)).
Proof.
  intros [b Hb]. unfold Plugin.update_card, Plugin.mark_requested.
  destruct (Plugin.selects item c); cbn [card_badge]; rewrite Hb; eexists; reflexivity.
Qed.

(** C3.  After a successful submission the [n] cards that represent the item
    are still [n], every one of them shows "Requested" and none holds a
    request button.  (Cards carry a badge: [createContentCard] always adds
    one.) *)
Theorem submit_success_fans_out (item : ContentItem) (o : Oracle) (w : World) (n : nat) :
  succeeded (o (submit_request w item)) = true ->
  length (representations item (dom w)) = n ->
  Forall (fun c => is_Some (card_badge c)) (representations item (dom w)) ->
  let w' := final_world (run (Plugin.requestContent item) o w) in
  length (representations item (dom w')) = n /\
  Forall shows_requested (representations item (dom w')).
Proof.
  intros Hok Hn Hbadge w'. subst w'.
  rewrite (requestContent_success _ _ _ Hok). unfold final_world, representations.
  cbn [snd world dom set_dom]. rewrite document_cards_map_cards.
  change (document_cards (dom (Plugin.add_notification _ _ _ w)))
    with (document_cards (dom w)).
  rewrite filter_selects_update. fold (representations item (dom w)).
  split.
  - rewrite length_map. exact Hn.
  - clear Hn. induction Hbadge as [|c l [b Hb] _ IH]; constructor; [|exact IH].
    unfold shows_requested, Plugin.mark_requested. simpl. rewrite Hb. split; reflexivity.
Qed.

Lemma submit_success_fans_out_witness :
  let w' := final_world (run (Plugin.requestContent Sample.dune) Sample.all_ok Sample.w_page) in
  length (representations Sample.dune (dom w')) = 2%nat /\
  Forall shows_requested (representations Sample.dune (dom w')).
Proof.
  apply (submit_success_fans_out Sample.dune Sample.all_ok Sample.w_page 2).
  - reflexivity.
  - reflexivity.
  - repeat constructor; eexists; reflexivity.
Defined.

(** C10.  A successful submission keeps every card in its place; a card whose
    key differs from the item's is left exactly as it was, and a card with
    the item's key keeps its data attributes and its title, has its badge
    (when it carries one, as every card [createContentCard] makes does)
    turned into the "Requested" badge and holds no request button
    afterwards. *)
Theorem submit_success_frame (item : ContentItem) (o : Oracle) (w : World) :
  succeeded (o (submit_request w item)) = true ->
  let w' := final_world (run (Plugin.requestContent item) o w) in
  length (document_cards (dom w')) = length (document_cards (dom w)) /\
  forall (i : nat) (c : Card),
    document_cards (dom w) !! i = Some c ->
    (card_key c <> item_key item -> document_cards (dom w') !! i = Some c) /\
    (card_key c = item_key item ->
     exists c',
       document_cards (dom w') !! i = Some c' /\
       data_id c' = data_id c /\
       data_mediaType c' = data_mediaType c /\
       card_title c' = card_title c /\
       card_requestBtn c' = false /\
       card_badge c' = match card_badge c with
                       | Some _ =>
                           Some {| badge_className := "availability-badge requested";
                                   badge_textContent := "Requested" |}
                       | None => None
                       end /\
       (is_Some (card_badge c) -> shows_requested c')).
Proof.
  intros Hok w'. subst w'.
  rewrite (requestContent_success _ _ _ Hok). unfold final_world.
  cbn [snd world dom set_dom]. rewrite document_cards_map_cards.
  change (document_cards (dom (Plugin.add_notification _ _ _ w)))
    with (document_cards (dom w)).
  split; [apply length_map|].
  intros i c Hi. rewrite lookup_map, Hi. unfold Plugin.update_card. simpl.
  destruct (Plugin.selects item c) eqn:E.
  - apply selects_key in E. split; [contradiction|]. intros _.
    exists (Plugin.mark_requested c).
    do 6 (split; [reflexivity|]).
    intros [b Hb]. unfold shows_requested, Plugin.mark_requested.
    cbn [card_badge card_requestBtn]. rewrite Hb. split; reflexivity.
  - split; [reflexivity|]. intros Hk. apply selects_key in Hk. congruence.
Qed.

Lemma submit_success_frame_witness :
  let w' := final_world (run (Plugin.requestContent Sample.dune) Sample.all_ok Sample.w_page) in
  document_cards (dom w') !! 1%nat = Some (Plugin.createContentCard Sample.heat) /\
  document_cards (dom w') !! 3%nat = Some (Plugin.createContentCard Sample.dune_series) /\
  exists c',
    document_cards (dom w') !! 0%nat = Some c' /\
    data_id c' = "42" /\ data_mediaType c' = "movie" /\ card_title c' = "Dune" /\
    card_requestBtn c' = false /\
    card_badge c' = Some {| badge_className := "availability-badge requested";
                            badge_textContent := "Requested" |} /\
    (is_Some (card_badge (Plugin.createContentCard Sample.dune)) -> shows_requested c').
Proof.
  pose proof (submit_success_frame Sample.dune Sample.all_ok Sample.w_page eq_refl)
    as [_ H].
  split; [|split].
  - apply (H 1%nat (Plugin.createContentCard Sample.heat) eq_refl). discriminate.
  - apply (H 3%nat (Plugin.createContentCard Sample.dune_series) eq_refl). discriminate.
  - apply (H 0%nat (Plugin.createContentCard Sample.dune) eq_refl). reflexivity.
Defined.

(** C4.  A failed submission of an item whose cards show "Not Available"
    with their request button leaves every one of them showing "Not
    Available" with its request button: the content view, and with it every
    card, is exactly as it was.  And it appends exactly one notification, of
    severity [error], whose message carries the item's display name. *)
Theorem submit_failure_keeps_cards (item : ContentItem) (o : Oracle) (w : World) :
  succeeded (o (submit_request w item)) = false ->
  Forall shows_not_available (representations item (dom w)) ->
  let w' := final_world (run (Plugin.requestContent item) o w) in
  content_container (dom w') = content_container (dom w) /\
  representations item (dom w') = representations item (dom w) /\
  Forall shows_not_available (representations item (dom w')) /\
  notif_container (dom w')
  = Some (default [] (notif_container (dom w)) ++
          [new_notification "Error" ("Failed to request " +:+ display_name item +:+ ".")
             error w]).
Proof.
  intros Hfail Hna w'. subst w'.
  rewrite (requestContent_failure _ _ _ Hfail). repeat split. exact Hna.
Qed.

Lemma submit_failure_keeps_cards_witness :
  let w' := final_world (run (Plugin.requestContent Sample.dune) Sample.all_down Sample.w_page) in
  length (representations Sample.dune (dom Sample.w_page)) = 2%nat /\
  content_container (dom w') = Some [Sample.page] /\
  representations Sample.dune (dom w') = representations Sample.dune (dom Sample.w_page) /\
  Forall shows_not_available (representations Sample.dune (dom w')) /\
  notif_container (dom w')
  = Some [new_notification "Error" "Failed to request Dune." error Sample.w_page].
Proof.
  split; [reflexivity|].
  apply (submit_failure_keeps_cards Sample.dune Sample.all_down Sample.w_page eq_refl).
  repeat constructor.
Defined.

(** ** Content pages *)

(** For an identifier that is neither cached nor the name of a property of
    [Object.prototype], the page is the "not found" heading and no request is
    made. *)
Lemma not_found_without_fetch (kind : CatalogKind) (id : string) (o : Oracle) (w : World) :
  cache_of kind w !! id = None ->
  existsb (String.eqb id) object_prototype_keys = false ->
  run (renderContentPage kind id) o w
  = (Returned tt,
     {| world := set_dom (set_content_container
                            (Some [NotFoundHeading (not_found_text kind)]) (dom w)) w;
        trace := [] |}).
Proof.
  intros Hc Hp. destruct kind; simpl in Hc;
    unfold run, renderContentPage, Plugin.renderNetworkContentPage,
      Plugin.renderStudioContentPage, bind, get_world, js_get; cbn [world];
    rewrite Hc, Hp; reflexivity.
Qed.

(** C6 at the failing input: with empty caches, navigating to the network
    (or studio) "constructor" finds the inherited [Object.prototype.constructor],
    requests content for it and renders a page titled "Object" instead of the
    "not found" heading. *)
Theorem inherited_key_is_fetched :
  networkCache Sample.w0 !! "constructor" = None /\
  studioCache Sample.w0 !! "constructor" = None /\
  (let r := run (Plugin.renderCustomView "/jellyseerr/network/constructor")
              Sample.all_down Sample.w0 in
   requests (final_trace r) = [content_request Sample.w0 Network "constructor"] /\
   content_container (dom (final_world r))
   = Some [ContentPage Network
             {| logo_src := Plugin.default_logo Network; header_title := "Object" |}
             [ErrorMessage "Failed to load content for this network."]]) /\
  (let r := run (Plugin.renderCustomView "/jellyseerr/studio/constructor")
              Sample.all_ok Sample.w0 in
   requests (final_trace r) = [content_request Sample.w0 Studio "constructor"] /\
   content_container (dom (final_world r))
   = Some [ContentPage Studio
             {| logo_src := Plugin.default_logo Studio; header_title := "Object" |}
             [Plugin.createContentSection "Movies" [Sample.dune]]]).
Proof. repeat split. Qed.

(** C7 (as amended).  The content getters return the body of the response as
    it is: nothing is added, dropped or re-filed, so the result has a movies
    group and a series group exactly when the response has them.  It is the
    content page that leaves out a group that is missing or empty. *)
Theorem content_fetch_passes_through (kind : CatalogKind) (id : string)
    (o : Oracle) (w : World) (j : JSON) :
  response_json (o (content_request w kind id)) = Some j ->
  run (fetchForEntity kind id) o w
  = (Returned j, {| world := w; trace := [EvFetch (content_request w kind id) w] |}) /\
  (forall title group,
     Plugin.section_if_nonempty title group = []
     <-> group = None \/ group = Some []) /\
  (forall cs m t,
     j = JObject m t ->
     truthy (js_get (cache_of kind w) id) = true ->
     content_container (dom w) = Some cs ->
     content_container (dom (final_world (run (renderContentPage kind id) o w)))
     = Some (cs ++ [ContentPage kind
                      (Plugin.content_header kind (js_get (cache_of kind w) id))
                      (Plugin.section_if_nonempty "Movies" m ++
                       Plugin.section_if_nonempty "TV Shows" t)])).
Proof.
  intros Hj. split; [|split].
  - unfold run, fetchForEntity, ServerConnector.getNetworkContent,
      ServerConnector.getStudioContent.
    destruct kind; rewrite makeRequest_run; simpl world;
      unfold content_request in Hj; rewrite Hj; reflexivity.
  - intros title [[|i l]|]; simpl.
    + split; [now right | reflexivity].
    + split; [discriminate | intros [H|H]; discriminate].
    + split; [now left | reflexivity].
  - intros cs m t -> Hfound Hcs.
    unfold run, renderContentPage, Plugin.renderNetworkContentPage,
      Plugin.renderStudioContentPage, ServerConnector.getNetworkContent,
      ServerConnector.getStudioContent.
    destruct kind; simpl in *; unfold bind at 1; simpl;
      rewrite Hfound; simpl; unfold bind at 1, try_catch, bind at 1;
      rewrite makeRequest_run; simpl world;
      unfold content_request in Hj; rewrite Hj; simpl;
      unfold Plugin.appendChild, modify, final_world; simpl; rewrite Hcs; reflexivity.
Qed.

Lemma content_fetch_passes_through_witness :
  run (fetchForEntity Network "1") Sample.all_ok Sample.w_page
  = (Returned (JObject (Some [Sample.dune]) (Some [])),
     {| world := Sample.w_page;
        trace := [EvFetch (content_request Sample.w_page Network "1") Sample.w_page] |}) /\
  content_container
    (dom (final_world (run (renderContentPage Network "1") Sample.all_ok Sample.w_page)))
  = Some [Sample.page;
          ContentPage Network
            {| logo_src := "https://image.tmdb.org/t/p/w500/hbo.png";
               header_title := "HBO" |}
            [Plugin.createContentSection "Movies" [Sample.dune]]].
Proof.
  destruct (content_fetch_passes_through Network "1" Sample.all_ok Sample.w_page
              (JObject (Some [Sample.dune]) (Some [])) eq_refl) as (H1 & _ & H3).
  split; [exact H1|].
  exact (H3 [Sample.page] (Some [Sample.dune]) (Some []) eq_refl eq_refl eq_refl).
Defined.

(** C7, as stated, fails: an answer without groups is returned without
    groups, and a series listed among the movies stays there. *)
Lemma content_groups_counterexample :
  fst (run (fetchForEntity Network "1") Sample.bare_object Sample.w_page)
  = Returned (JObject None None) /\
  ~ has_both_groups (JObject None None) /\
  fst (run (fetchForEntity Studio "9") Sample.misfiled Sample.w_page)
  = Returned (JObject (Some [Sample.dune_series]) (Some [])) /\
  ~ grouped_by_mediaType (JObject (Some [Sample.dune_series]) (Some [])).
Proof.
  split; [reflexivity|]. split.
  - intros (m & t & H). discriminate H.
  - split; [reflexivity|].
    intros (m & t & H & Hm & _). injection H as <- <-.
    inversion Hm as [|i l Hi _]. discriminate Hi.
Qed.

(** ** What a method leaves alone *)

Section Preserves.

Variable I : World -> Prop.

Lemma preserves_ret {A} (a : A) : preserves I (ret a).
Proof. intros o s HI. exists []. rewrite app_nil_r. repeat split; [constructor|exact HI]. Qed.

Lemma preserves_throw {A} (e : Exn) : preserves I (@throw A e).
Proof. intros o s HI. exists []. rewrite app_nil_r. repeat split; [constructor|exact HI]. Qed.

Lemma preserves_get_world : preserves I get_world.
Proof. intros o s HI. exists []. rewrite app_nil_r. repeat split; [constructor|exact HI]. Qed.

Lemma preserves_bind {A B} (m : M A) (k : A -> M B) :
  preserves I m -> (forall a, preserves I (k a)) -> preserves I (bind m k).
Proof.
  intros Hm Hk o s HI. unfold bind.
  destruct (Hm o s HI) as (tr1 & E1 & F1 & I1).
  destruct (m o s) as [[a|e] s1]; simpl in *.
  - destruct (Hk a o s1 I1) as (tr2 & E2 & F2 & I2).
    exists (tr1 ++ tr2). rewrite E2, E1, app_assoc.
    repeat split; [|exact I2]. apply Forall_app. split; assumption.
  - exists tr1. repeat split; assumption.
Qed.

Lemma preserves_try_catch {A} (m : M A) (h : Exn -> M A) :
  preserves I m -> (forall e, preserves I (h e)) -> preserves I (try_catch m h).
Proof.
  intros Hm Hh o s HI. unfold try_catch.
  destruct (Hm o s HI) as (tr1 & E1 & F1 & I1).
  destruct (m o s) as [[a|e] s1]; simpl in *.
  - exists tr1. repeat split; assumption.
  - destruct (Hh e o s1 I1) as (tr2 & E2 & F2 & I2).
    exists (tr1 ++ tr2). rewrite E2, E1, app_assoc.
    repeat split; [|exact I2]. apply Forall_app. split; assumption.
Qed.

Lemma preserves_modify (f : World -> World) :
  (forall w, I w -> I (f w)) -> preserves I (modify f).
Proof.
  intros Hf o s HI. exists []. simpl. rewrite app_nil_r.
  repeat split; [constructor|]. apply Hf, HI.
Qed.

Lemma preserves_console_log (msg : string) : preserves I (console_log msg).
Proof.
  intros o s HI. eexists. simpl. repeat split; [|exact HI].
  repeat constructor.
Qed.

Lemma preserves_console_error (msg : string) (e : Exn) :
  preserves I (console_error msg e).
Proof.
  intros o s HI. eexists. simpl. repeat split; [|exact HI].
  repeat constructor.
Qed.

Lemma preserves_makeRequest (endpoint : string) (method : Method)
    (data : option RequestBody) :
  preserves I (ServerConnector.makeRequest endpoint method data).
Proof.
  intros o s HI. rewrite makeRequest_run. eexists. simpl.
  repeat split; [|exact HI]. repeat constructor. exact HI.
Qed.

Hypothesis I_view : view_independent I.

Lemma preserves_set_children (cs : list ContainerChild) :
  preserves I (Plugin.set_children cs).
Proof. apply preserves_modify. intros w Hw. apply (I_view w Hw). Qed.

Lemma preserves_appendChild (c : ContainerChild) :
  preserves I (Plugin.appendChild c).
Proof.
  apply preserves_modify. intros w Hw.
  destruct (content_container (dom w)); [apply (I_view w Hw)|exact Hw].
Qed.

Lemma preserves_renderNetworksAndStudios :
  preserves I Plugin.renderNetworksAndStudios.
Proof. apply preserves_modify. intros w Hw. apply (I_view w Hw). Qed.

Ltac step :=
  first
    [ apply preserves_ret | apply preserves_throw | apply preserves_get_world
    | apply preserves_makeRequest | apply preserves_console_log
    | apply preserves_console_error | apply preserves_set_children
    | apply preserves_appendChild | apply preserves_renderNetworksAndStudios
    | apply preserves_bind; [|intros ?]
    | apply preserves_try_catch; [|intros ?]
    | match goal with
      | |- preserves _ (match ?x with _ => _ end) => destruct x
      end ].

Lemma preserves_renderContentPage (kind : CatalogKind) (id : string) :
  preserves I (renderContentPage kind id).
Proof.
  destruct kind; unfold renderContentPage, Plugin.renderNetworkContentPage,
    Plugin.renderStudioContentPage, ServerConnector.getNetworkContent,
    ServerConnector.getStudioContent, prop_movies, prop_tvShows;
    repeat step.
Qed.

Lemma preserves_renderCustomView (path : string) :
  preserves I (Plugin.renderCustomView path).
Proof.
  unfold Plugin.renderCustomView, Plugin.renderBrowsePage.
  repeat first [ apply (preserves_renderContentPage Network)
               | apply (preserves_renderContentPage Studio)
               | step ].
Qed.

Lemma preserves_updateUI : preserves I Plugin.updateUI.
Proof.
  unfold Plugin.updateUI, Plugin.not_awaited.
  repeat first [apply preserves_renderCustomView | step].
Qed.

Lemma preserves_refreshData_report :
  preserves I (try_catch Plugin.refreshData_report Plugin.refreshData_catch).
Proof.
  unfold Plugin.refreshData_report, Plugin.refreshData_catch.
  repeat first [apply preserves_updateUI | step].
Qed.

Hypothesis I_networkCache : forall w c, I w -> I (set_networkCache c w).
Hypothesis I_studioCache : forall w c, I w -> I (set_studioCache c w).

Lemma preserves_refreshData_try :
  preserves I (try_catch Plugin.refreshData_try Plugin.refreshData_catch).
Proof.
  unfold Plugin.refreshData_try, Plugin.refreshData_report,
    Plugin.refreshData_catch,
    ServerConnector.getNetworks, ServerConnector.getStudios, reduce_by_id.
  repeat first [ apply preserves_updateUI
               | apply preserves_modify; intros w Hw;
                 first [apply I_networkCache | apply I_studioCache]; exact Hw
               | step ].
Qed.

End Preserves.

(** ** Catalog refresh *)

Lemma try_catch_bind {A B} (m : M A) (k : A -> M B) (h : Exn -> M B)
    (o : Oracle) (s : St) :
  try_catch (bind m k) h o s
  = match m o s with
    | (Returned a, s') => try_catch (k a) h o s'
    | (Thrown e, s') => h e o s'
    end.
Proof. unfold try_catch, bind. destruct (m o s) as [[a|e] s']; reflexivity. Qed.

(** The state in which the [try] block of [refreshData] starts. *)
Lemma refreshData_run (o : Oracle) (w : World) :
  run Plugin.refreshData o w
  = try_catch Plugin.refreshData_try Plugin.refreshData_catch o
      {| world := set_lastRefresh (Some (clock w)) w;
         trace := [EvConsole log_level "Refreshing data from Jellyseerr" None] |}.
Proof. reflexivity. Qed.

Lemma refreshData_try_cases (o : Oracle) (s : St) :
  let w := world s in
  let s1 := {| world := w; trace := trace s ++ [EvFetch (networks_request w) w] |} in
  try_catch Plugin.refreshData_try Plugin.refreshData_catch o s
  = match catalog_of (o (networks_request w)) with
    | None => Plugin.refreshData_catch (catalog_exn (o (networks_request w))) o s1
    | Some ns =>
        let w2 := set_networkCache (index_by_id ns) w in
        let s2 := {| world := w2;
                     trace := trace s1 ++ [EvFetch (studios_request w) w2] |} in
        match catalog_of (o (studios_request w)) with
        | None => Plugin.refreshData_catch (catalog_exn (o (studios_request w))) o s2
        | Some ss =>
            try_catch Plugin.refreshData_report Plugin.refreshData_catch o
              {| world := set_studioCache (index_by_id ss) w2; trace := trace s2 |}
        end
    end.
Proof.
  intros w s1. subst w s1.
  unfold Plugin.refreshData_try. rewrite try_catch_bind.
  unfold ServerConnector.getNetworks. rewrite makeRequest_run.
  fold (networks_request (world s)). unfold catalog_of, catalog_exn.
  destruct (response_json (o (networks_request (world s)))) as [[|ns|m t]|];
    try reflexivity.
  rewrite try_catch_bind. cbn [reduce_by_id ret].
  rewrite try_catch_bind. cbn [modify].
  rewrite try_catch_bind.
  unfold ServerConnector.getStudios. rewrite makeRequest_run. cbn [world trace].
  change (api_request (set_networkCache (index_by_id ns) (world s)) "/studios" GET None)
    with (studios_request (world s)).
  destruct (response_json (o (studios_request (world s)))) as [[|ss|m t]|];
    reflexivity.
Qed.

Lemma refreshData_catch_run (e : Exn) (o : Oracle) (s : St) :
  Plugin.refreshData_catch e o s
  = (Returned tt,
     {| world := world s;
        trace := trace s ++ [EvConsole error_level
                               "Error refreshing data from Jellyseerr:" (Some e)] |}).
Proof. reflexivity. Qed.

(** C9.  [refreshData] ends with the last-refresh timestamp set to the time
    of the call, whatever the service answers; the first request, [GET
    /networks], is issued in a state that differs from the initial one in the
    timestamp only, and every later request of the refresh is issued with
    that timestamp in place. *)
Theorem refresh_sets_timestamp_first (o : Oracle) (w : World) :
  let r := run Plugin.refreshData o w in
  lastRefresh (final_world r) = Some (clock w) /\
  exists rest,
    final_trace r
    = EvConsole log_level "Refreshing data from Jellyseerr" None
      :: EvFetch (networks_request w) (set_lastRefresh (Some (clock w)) w)
      :: rest /\
    Forall (snapshot_ok (fun s => lastRefresh s = Some (clock w))) rest.
Proof.
  intros r. subst r. rewrite refreshData_run, refreshData_try_cases.
  cbn [world trace].
  change (networks_request (set_lastRefresh (Some (clock w)) w))
    with (networks_request w).
  change (studios_request (set_lastRefresh (Some (clock w)) w))
    with (studios_request w).
  destruct (catalog_of (o (networks_request w))) as [ns|].
  - destruct (catalog_of (o (studios_request w))) as [ss|].
    + cbv zeta.
      match goal with |- context [try_catch _ _ o ?s3] =>
        destruct (preserves_refreshData_report
                    (fun s => lastRefresh s = Some (clock w))
                    ltac:(intros w0 H0; split; intros; exact H0) o s3 eq_refl)
          as (tr & E & F & HI)
      end.
      unfold final_world, final_trace. split; [exact HI|].
      rewrite E. eexists. split; [reflexivity|].
      constructor; [reflexivity|exact F].
    + rewrite refreshData_catch_run. split; [reflexivity|].
      eexists. split; [reflexivity|]. repeat constructor.
  - rewrite refreshData_catch_run. split; [reflexivity|].
    eexists. split; [reflexivity|]. repeat constructor.
Qed.

(** C1 (as amended).  [refreshData] fetches the networks first and the
    studios only once the networks are in.  When the networks response
    delivers no catalog, both mappings end as they were and [GET /studios] is
    never sent.  When it delivers one, the network mapping is replaced by the
    index of the delivered list, and the studio mapping is replaced likewise
    if its response delivers a catalog and is left as it was if not.  Each
    mapping is replaced in one step: whenever a request is issued it is
    either the old or the new mapping.  A catalog that fails is written to
    the console and nothing else: the document is left exactly as it was and
    the state differs from the one before in the timestamp and, when the
    networks were delivered, in their mapping only.  Views are redrawn only
    after both catalogs were delivered, and no notification is added in any
    case. *)
Theorem refresh_is_sequential (o : Oracle) (w : World) :
  let r := run Plugin.refreshData o w in
  let w' := final_world r in
  notif_container (dom w') = notif_container (dom w) /\
  Forall (snapshot_ok (fun s =>
            (networkCache s = networkCache w \/ networkCache s = networkCache w') /\
            (studioCache s = studioCache w \/ studioCache s = studioCache w')))
         (final_trace r) /\
  match catalog_of (o (networks_request w)) with
  | None =>
      networkCache w' = networkCache w /\ studioCache w' = studioCache w /\
      dom w' = dom w /\
      w' = set_lastRefresh (Some (clock w)) w /\
      final_trace r
      = [EvConsole log_level "Refreshing data from Jellyseerr" None;
         EvFetch (networks_request w) (set_lastRefresh (Some (clock w)) w);
         EvConsole error_level "Error refreshing data from Jellyseerr:"
           (Some (catalog_exn (o (networks_request w))))]
  | Some ns =>
      networkCache w' = index_by_id ns /\
      match catalog_of (o (studios_request w)) with
      | None =>
          studioCache w' = studioCache w /\
          dom w' = dom w /\
          w' = set_networkCache (index_by_id ns) (set_lastRefresh (Some (clock w)) w) /\
          final_trace r
          = [EvConsole log_level "Refreshing data from Jellyseerr" None;
             EvFetch (networks_request w) (set_lastRefresh (Some (clock w)) w);
             EvFetch (studios_request w)
               (set_networkCache (index_by_id ns) (set_lastRefresh (Some (clock w)) w));
             EvConsole error_level "Error refreshing data from Jellyseerr:"
               (Some (catalog_exn (o (studios_request w))))]
      | Some ss => studioCache w' = index_by_id ss
      end
  end.
Proof.
  intros r w'. subst w' r. rewrite refreshData_run, refreshData_try_cases.
  cbn [world trace].
  change (networks_request (set_lastRefresh (Some (clock w)) w))
    with (networks_request w).
  change (studios_request (set_lastRefresh (Some (clock w)) w))
    with (studios_request w).
  destruct (catalog_of (o (networks_request w))) as [ns|].
  - destruct (catalog_of (o (studios_request w))) as [ss|].
    + cbv zeta.
      match goal with |- context [try_catch _ _ o ?s3] =>
        destruct (preserves_refreshData_report
                    (fun s => networkCache s = index_by_id ns /\
                              studioCache s = index_by_id ss /\
                              notif_container (dom s) = notif_container (dom w))
                    ltac:(intros w0 H0; split; intros; exact H0) o s3
                    (conj eq_refl (conj eq_refl eq_refl)))
          as (tr & E & F & Hn & Hs & Hd)
      end.
      unfold final_world, final_trace. rewrite E, Hn, Hs.
      split; [exact Hd|]. split; [|split; reflexivity].
      cbn [trace app]. repeat (constructor; [simpl; auto|]).
      eapply Forall_impl; [exact F|].
      intros [req s|] H; simpl in *; [|exact Logic.I].
      destruct H as (-> & -> & _). auto.
    + rewrite refreshData_catch_run. split; [reflexivity|].
      split; [|repeat split].
      repeat (constructor; [simpl; auto|]). constructor.
  - rewrite refreshData_catch_run. split; [reflexivity|].
    split; [|repeat split].
    repeat (constructor; [simpl; auto|]). constructor.
Qed.

(** C1, as stated, fails: with [GET /networks] failing and [GET /studios]
    ready to answer with a catalog, the studios are never requested and
    their mapping is not replaced. *)
Lemma refresh_not_independent_counterexample :
  let r := run Plugin.refreshData Sample.networks_down Sample.w0 in
  catalog_of (Sample.networks_down (networks_request Sample.w0)) = None /\
  catalog_of (Sample.networks_down (studios_request Sample.w0)) = Some [Sample.warner] /\
  requests (final_trace r) = [networks_request Sample.w0] /\
  studioCache (final_world r) = ∅ /\
  studioCache (final_world r) <> index_by_id [Sample.warner].
Proof.
  repeat split.
  intros H. apply (f_equal (fun m => m !! "9")) in H. vm_compute in H. discriminate H.
Qed.

(** With only [GET /studios] failing, the networks are replaced and the
    studios kept. *)
Example refresh_studios_down :
  let w := set_studioCache (index_by_id [Sample.warner]) Sample.w0 in
  let w' := final_world (run Plugin.refreshData Sample.studios_down w) in
  networkCache w' = index_by_id [Sample.hbo; Sample.netflix] /\
  studioCache w' = index_by_id [Sample.warner] /\
  lastRefresh w' = Some 1000.
Proof. repeat split. Qed.

(** ** Notifications and their timers *)

Lemma node_add_fade_out (j : N) (n : Notification) :
  node (EventLoop.add_fade_out j n) = node n.
Proof. unfold EventLoop.add_fade_out. destruct (N.eqb (node n) j); reflexivity. Qed.

Lemma add_fade_out_other (j : N) (n : Notification) :
  node n <> j -> EventLoop.add_fade_out j n = n.
Proof.
  intros H. unfold EventLoop.add_fade_out.
  destruct (N.eqb_spec (node n) j); [contradiction|reflexivity].
Qed.

Lemma add_fade_out_same (n : Notification) :
  EventLoop.add_fade_out (node n) n = fading n.
Proof. unfold EventLoop.add_fade_out. rewrite N.eqb_refl. reflexivity. Qed.

Lemma find_fade_other (id j : N) (l : list Notification) :
  j <> id ->
  List.find (fun n => N.eqb (node n) id) (map (EventLoop.add_fade_out j) l)
  = List.find (fun n => N.eqb (node n) id) l.
Proof.
  intros Hj. induction l as [|n l IH]; [reflexivity|].
  cbn [map List.find]. rewrite node_add_fade_out.
  destruct (N.eqb_spec (node n) id) as [E|E]; [|exact IH].
  rewrite add_fade_out_other by congruence. reflexivity.
Qed.

Lemma find_fade_same (n0 : Notification) (l : list Notification) :
  List.find (fun n => N.eqb (node n) (node n0)) l = Some n0 ->
  List.find (fun n => N.eqb (node n) (node n0)) (map (EventLoop.add_fade_out (node n0)) l)
  = Some (fading n0).
Proof.
  induction l as [|n l IH]; [discriminate|].
  cbn [map List.find]. rewrite node_add_fade_out.
  destruct (N.eqb_spec (node n) (node n0)) as [E|E]; [|exact IH].
  intros [= <-]. rewrite add_fade_out_same. reflexivity.
Qed.

Lemma find_remove_other (id j : N) (l : list Notification) :
  j <> id ->
  List.find (fun n => N.eqb (node n) id)
    (List.filter (fun n => negb (N.eqb (node n) j)) l)
  = List.find (fun n => N.eqb (node n) id) l.
Proof.
  intros Hj. induction l as [|n l IH]; [reflexivity|].
  cbn [List.filter List.find].
  destruct (N.eqb_spec (node n) j) as [Hn|Hn]; cbn [negb].
  - destruct (N.eqb_spec (node n) id); [congruence|exact IH].
  - cbn [List.find]. destruct (N.eqb (node n) id); [reflexivity|exact IH].
Qed.

Lemma find_remove_same (id : N) (l : list Notification) :
  List.find (fun n => N.eqb (node n) id)
    (List.filter (fun n => negb (N.eqb (node n) id)) l) = None.
Proof.
  induction l as [|n l IH]; [reflexivity|].
  cbn [List.filter]. destruct (N.eqb (node n) id) eqn:E; cbn [negb]; [exact IH|].
  cbn [List.find]. rewrite E. exact IH.
Qed.

Lemma find_fresh (l : list Notification) (n0 : Notification) :
  Forall (fun n => node n < node n0) l ->
  List.find (fun n => N.eqb (node n) (node n0)) (l ++ [n0]) = Some n0.
Proof.
  intros Hl. induction Hl as [|n l Hn _ IH]; cbn [app List.find].
  - rewrite N.eqb_refl. reflexivity.
  - destruct (N.eqb_spec (node n) (node n0)); [lia|exact IH].
Qed.

Section Pick.

Lemma pick_None (ts : list Timer) : EventLoop.pick ts = None -> ts = [].
Proof.
  destruct ts as [|t ts]; [reflexivity|]. simpl.
  destruct (EventLoop.pick ts) as [[m rest]|]; [|discriminate].
  destruct (due t <=? due m); discriminate.
Qed.

(** [pick] takes one timer out of the queue, and no other is due before it. *)
Lemma pick_Some (ts : list Timer) (m : Timer) (rest : list Timer) :
  EventLoop.pick ts = Some (m, rest) ->
  exists l1 l2, ts = l1 ++ m :: l2 /\ rest = l1 ++ l2 /\
                Forall (fun x => due m <= due x) ts.
Proof.
  revert m rest. induction ts as [|t ts IH]; intros m rest; [discriminate|].
  simpl. destruct (EventLoop.pick ts) as [[m' rest']|] eqn:E.
  - destruct (IH m' rest' eq_refl) as (l1 & l2 & -> & -> & Hmin).
    destruct (N.leb_spec (due t) (due m')) as [Hle|Hlt]; intros [= <- <-].
    + exists [], (l1 ++ m' :: l2). repeat split.
      constructor; [lia|].
      eapply Forall_impl; [exact Hmin|]. simpl. intros x Hx. lia.
    + exists (t :: l1), l2. repeat split.
      constructor; [lia|exact Hmin].
  - apply pick_None in E as ->. intros [= <- <-].
    exists [], []. repeat split. constructor; [lia|constructor].
Qed.

Lemma total_weight_app (l1 l2 : list Timer) :
  EventLoop.total_weight (l1 ++ l2)
  = (EventLoop.total_weight l1 + EventLoop.total_weight l2)%nat.
Proof.
  unfold EventLoop.total_weight.
  induction l1 as [|t l1 IH]; simpl; [reflexivity|]. rewrite IH. lia.
Qed.

Lemma weight_pos (t : Timer) : (1 <= EventLoop.weight t)%nat.
Proof. unfold EventLoop.weight. destruct (action t); lia. Qed.

End Pick.

Section Lifecycle.

Variable n : Notification.
Variable t : N.

Lemma lookup_fire_other (a : TimerAction) (w : World) :
  target_of a <> node n ->
  EventLoop.lookup_notification (node n) (EventLoop.fire a w)
  = EventLoop.lookup_notification (node n) w.
Proof.
  intros Ha. unfold EventLoop.lookup_notification.
  destruct a as [j|j]; cbn [EventLoop.fire dom set_dom set_timers notif_container
                             set_notif_container target_of] in *;
    destruct (notif_container (dom w)) as [l|]; cbn [fmap option_fmap option_map];
    try reflexivity.
  - apply find_fade_other, Ha.
  - apply find_remove_other, Ha.
Qed.

Lemma own_timers_fire_other (a : TimerAction) (w : World) :
  target_of a <> node n ->
  own_timers (node n) (EventLoop.fire a w) = own_timers (node n) w.
Proof.
  intros Ha. unfold own_timers.
  destruct a as [j|j]; cbn [EventLoop.fire timers set_timers set_dom target_of] in *;
    [|reflexivity].
  rewrite List.filter_app. cbn [List.filter]. unfold targets at 2.
  cbn [action target_of]. destruct (N.eqb_spec j (node n)); [contradiction|].
  apply app_nil_r.
Qed.

Lemma clock_fire (a : TimerAction) (w : World) :
  clock (EventLoop.fire a w) = clock w.
Proof. destruct a; reflexivity. Qed.

Lemma own_timers_singleton (l1 l2 : list Timer) (m x : Timer) :
  targets (node n) m = true ->
  List.filter (targets (node n)) (l1 ++ m :: l2) = [x] ->
  m = x /\ List.filter (targets (node n)) (l1 ++ l2) = [].
Proof.
  intros Hm. rewrite !List.filter_app. cbn [List.filter]. rewrite Hm.
  destruct (List.filter (targets (node n)) l1) as [|y l1'].
  - cbn [app]. intros [= -> ->]. split; reflexivity.
  - cbn [app]. intros [= _ H]. destruct l1'; discriminate H.
Qed.

Lemma own_timers_without (l1 l2 : list Timer) (m : Timer) :
  targets (node n) m = false ->
  List.filter (targets (node n)) (l1 ++ m :: l2)
  = List.filter (targets (node n)) (l1 ++ l2).
Proof.
  intros Hm. rewrite !List.filter_app. cbn [List.filter]. rewrite Hm. reflexivity.
Qed.

(** Firing the next timer moves the notification along its three phases,
    or leaves its phase alone. *)
Lemma lifecycle_step (w : World) (m : Timer) (rest : list Timer) :
  lifecycle n t w ->
  EventLoop.pick (timers w) = Some (m, rest) ->
  lifecycle n t
    (EventLoop.fire (action m)
       (set_clock (N.max (clock w) (due m)) (set_timers rest w))).
Proof.
  intros Hl Hp.
  destruct (pick_Some _ _ _ Hp) as (l1 & l2 & Hts & -> & Hmin).
  set (w1 := set_clock (N.max (clock w) (due m)) (set_timers (l1 ++ l2) w)).
  assert (Hlook : EventLoop.lookup_notification (node n) w1
                  = EventLoop.lookup_notification (node n) w) by reflexivity.
  assert (Hown1 : own_timers (node n) w1
                  = List.filter (targets (node n)) (l1 ++ l2)) by reflexivity.
  assert (Hclock : clock w1 = N.max (clock w) (due m)) by reflexivity.
  destruct (targets (node n) m) eqn:Hm.
  - (* the timer belongs to the notification *)
    destruct Hl as [(Hf & Ho & Hc)|[(Hf & Ho & Hc)|(Hf & Ho & Hc)]];
      unfold own_timers in Ho; rewrite Hts in Ho.
    + destruct (own_timers_singleton _ _ _ _ Hm Ho) as [-> Hrest].
      right; left. unfold leaving. cbn [action due] in *.
      unfold EventLoop.lookup_notification in *.
      cbn [EventLoop.fire dom set_dom notif_container set_notif_container].
      change (notif_container (dom w1)) with (notif_container (dom w)).
      destruct (notif_container (dom w)) as [l|]; [|discriminate Hf].
      cbn [fmap option_fmap option_map]. split; [apply find_fade_same, Hf|].
      split.
      * unfold own_timers. cbn [timers set_timers set_dom].
        change (timers w1) with (l1 ++ l2).
        rewrite List.filter_app, Hrest. cbn [List.filter app].
        unfold targets. cbn [action target_of]. rewrite N.eqb_refl.
        rewrite Hclock. cbn [due]. f_equal. f_equal. lia.
      * cbn [clock set_timers set_dom]. rewrite Hclock. cbn [due]. lia.
    + destruct (own_timers_singleton _ _ _ _ Hm Ho) as [-> Hrest].
      right; right. unfold removed. cbn [action due] in *.
      unfold EventLoop.lookup_notification in *.
      cbn [EventLoop.fire dom set_dom notif_container set_notif_container].
      change (notif_container (dom w1)) with (notif_container (dom w)).
      destruct (notif_container (dom w)) as [l|]; [|discriminate Hf].
      cbn [fmap option_fmap option_map]. split; [apply find_remove_same|].
      split.
      * exact Hrest.
      * cbn [clock set_dom]. rewrite Hclock. cbn [due]. lia.
    + exfalso. rewrite List.filter_app in Ho. cbn [List.filter] in Ho.
      rewrite Hm in Ho. destruct (List.filter (targets (node n)) l1); discriminate Ho.
  - (* the timer belongs to another notification *)
    assert (Ha : target_of (action m) <> node n).
    { unfold targets in Hm. apply N.eqb_neq, Hm. }
    assert (Hown : own_timers (node n) (EventLoop.fire (action m) w1)
                   = own_timers (node n) w).
    { rewrite (own_timers_fire_other _ _ Ha), Hown1. unfold own_timers.
      rewrite Hts. symmetry. apply own_timers_without, Hm. }
    destruct Hl as [(Hf & Ho & Hc)|[(Hf & Ho & Hc)|(Hf & Ho & Hc)]].
    + left. unfold displayed.
      rewrite (lookup_fire_other _ _ Ha), Hlook, Hown, clock_fire, Hclock.
      repeat split; [exact Hf|exact Ho|].
      assert (Hin : In {| due := t + Plugin.display_duration;
                          action := AddFadeOut (node n) |} (timers w)).
      { unfold own_timers in Ho.
        apply (proj1 (List.filter_In (targets (node n)) _ (timers w))).
        rewrite Ho. left. reflexivity. }
      rewrite Forall_forall in Hmin.
      specialize (Hmin _ (proj2 (list_elem_of_In _ _) Hin)). cbn [due] in Hmin. lia.
    + right; left. unfold leaving.
      rewrite (lookup_fire_other _ _ Ha), Hlook, Hown, clock_fire, Hclock.
      repeat split; [exact Hf|exact Ho|lia].
    + right; right. unfold removed.
      rewrite (lookup_fire_other _ _ Ha), Hlook, Hown, clock_fire, Hclock.
      repeat split; [exact Hf|exact Ho|lia].
Qed.

Lemma run_timers_lifecycle (fuel : nat) (T : N) (w : World) :
  lifecycle n t w -> lifecycle n t (EventLoop.run_timers fuel T w).
Proof.
  revert w. induction fuel as [|fuel IH]; intros w Hl; [exact Hl|].
  cbn [EventLoop.run_timers].
  destruct (EventLoop.pick (timers w)) as [[m rest]|] eqn:Hp; [|exact Hl].
  destruct (due m <=? T); [|exact Hl].
  apply IH, lifecycle_step; assumption.
Qed.

End Lifecycle.

Lemma run_timers_clock (fuel : nat) (T : N) (w : World) :
  clock w <= T -> clock (EventLoop.run_timers fuel T w) <= T.
Proof.
  revert w. induction fuel as [|fuel IH]; intros w Hc; [exact Hc|].
  cbn [EventLoop.run_timers].
  destruct (EventLoop.pick (timers w)) as [[m rest]|]; [|exact Hc].
  destruct (N.leb_spec (due m) T); [|exact Hc].
  apply IH. rewrite clock_fire. cbn [clock set_clock]. lia.
Qed.

(** With fuel for every callback that can still run, no timer due by
    [until] is left in the queue. *)
Lemma run_timers_done (fuel : nat) (T : N) (w : World) :
  (EventLoop.total_weight (timers w) <= fuel)%nat ->
  Forall (fun tm => T < due tm) (timers (EventLoop.run_timers fuel T w)).
Proof.
  revert w. induction fuel as [|fuel IH]; intros w Hw.
  - cbn [EventLoop.run_timers]. destruct (timers w) as [|tm ts]; [constructor|].
    pose proof (weight_pos tm). cbn [EventLoop.total_weight fold_right] in Hw. lia.
  - cbn [EventLoop.run_timers].
    destruct (EventLoop.pick (timers w)) as [[m rest]|] eqn:Hp.
    + destruct (pick_Some _ _ _ Hp) as (l1 & l2 & Hts & -> & Hmin).
      destruct (N.leb_spec (due m) T) as [Hle|Hlt].
      * apply IH. rewrite Hts, total_weight_app in Hw.
        change (EventLoop.total_weight (m :: l2))
          with (EventLoop.weight m + EventLoop.total_weight l2)%nat in Hw.
        unfold EventLoop.weight in Hw.
        destruct (action m) as [j|j];
          cbn [EventLoop.fire timers set_timers set_dom set_clock];
          rewrite ?total_weight_app; cbn [EventLoop.total_weight fold_right];
          unfold EventLoop.weight; cbn [action];
          fold (EventLoop.total_weight l1); fold (EventLoop.total_weight l2); lia.
      * eapply Forall_impl; [exact Hmin|]. simpl. intros x Hx. lia.
    + apply pick_None in Hp. rewrite Hp. constructor.
Qed.

Lemma add_notification_displayed (title message : string) (type : Severity) (w : World) :
  fresh w ->
  displayed (new_notification title message type w) (clock w)
    (Plugin.add_notification title message type w).
Proof.
  intros [Hn Ht]. unfold displayed, EventLoop.lookup_notification, own_timers.
  cbn [Plugin.add_notification dom timers clock set_next_node set_timers set_dom
       notif_container set_notif_container new_notification node].
  split; [|split; [|lia]].
  - apply (find_fresh _ (new_notification title message type w)), Hn.
  - rewrite List.filter_app. cbn [List.filter]. unfold targets at 2.
    cbn [action target_of]. rewrite N.eqb_refl.
    replace (List.filter (targets (next_node w)) (timers w)) with (@nil Timer);
      [reflexivity|].
    symmetry. induction Ht as [|tm ts Htm _ IH]; [reflexivity|].
    cbn [List.filter]. unfold targets at 1.
    destruct (N.eqb_spec (target_of (action tm)) (next_node w)); [lia|exact IH].
Qed.

(** Node identities stay fresh. *)
Lemma add_notification_fresh (title message : string) (type : Severity) (w : World) :
  fresh w -> fresh (Plugin.add_notification title message type w).
Proof.
  intros [Hn Ht]. unfold fresh.
  cbn [Plugin.add_notification dom timers next_node set_next_node set_timers set_dom
       notif_container set_notif_container default].
  split; apply Forall_app; split.
  - eapply Forall_impl; [exact Hn|]. simpl. intros x Hx. lia.
  - repeat constructor. simpl. lia.
  - eapply Forall_impl; [exact Ht|]. simpl. intros x Hx. lia.
  - repeat constructor. simpl. lia.
Qed.

Lemma fire_fresh (a : TimerAction) (w : World) :
  fresh w -> target_of a < next_node w -> fresh (EventLoop.fire a w).
Proof.
  intros [Hn Ht] Ha. split.
  - destruct a as [j|j]; simpl in *;
      destruct (notif_container (dom w)) as [l|]; simpl in *; try constructor.
    + induction Hn as [|x l' Hx _ IH]; simpl; constructor; [|exact IH].
      rewrite node_add_fade_out. exact Hx.
    + induction Hn as [|x l' Hx _ IH]; simpl; [constructor|].
      destruct (negb (N.eqb (node x) j)); [constructor; assumption|exact IH].
  - destruct a as [j|j]; simpl in *; [|exact Ht].
    apply Forall_app. split; [exact Ht|]. repeat constructor. exact Ha.
Qed.

Lemma run_timers_fresh (fuel : nat) (T : N) (w : World) :
  fresh w -> fresh (EventLoop.run_timers fuel T w).
Proof.
  revert w. induction fuel as [|fuel IH]; intros w Hw; [exact Hw|].
  cbn [EventLoop.run_timers].
  destruct (EventLoop.pick (timers w)) as [[m rest]|] eqn:Hp; [|exact Hw].
  destruct (due m <=? T); [|exact Hw].
  destruct (pick_Some _ _ _ Hp) as (l1 & l2 & Hts & -> & _).
  destruct Hw as [Hn Ht]. rewrite Hts in Ht.
  apply Forall_app in Ht as [H1 H2]. apply Forall_cons in H2 as [Hm H2].
  apply IH, fire_fresh; [|exact Hm].
  split; [exact Hn|]. cbn [timers set_clock set_timers].
  apply Forall_app. split; assumption.
Qed.

Lemma advance_fresh (T : N) (w : World) : fresh w -> fresh (EventLoop.advance T w).
Proof. intros Hw. exact (run_timers_fresh _ T w Hw). Qed.

(** C8.  In a state with fresh node identities, a notification created at
    instant [clock w] is in the list and not fading at every instant before
    [clock w + 5000], is in the list and fading from [clock w + 5000] until
    before [clock w + 5500], and is out of the list from [clock w + 5500]
    on. *)
Theorem notification_lifecycle (title message : string) (type : Severity)
    (o : Oracle) (w : World) (T : N) :
  fresh w ->
  clock w <= T ->
  let n := new_notification title message type w in
  let shown := final_world (run (Plugin.showNotification title message type) o w) in
  let wT := EventLoop.advance T shown in
  (T < clock w + 5000 -> EventLoop.lookup_notification (node n) wT = Some n) /\
  (clock w + 5000 <= T -> T < clock w + 5500 ->
   EventLoop.lookup_notification (node n) wT = Some (fading n)) /\
  (clock w + 5500 <= T -> EventLoop.lookup_notification (node n) wT = None).
Proof.
  intros Hfresh HT n shown wT.
  change shown with (Plugin.add_notification title message type w) in wT.
  clear shown.
  set (w1 := Plugin.add_notification title message type w) in *.
  set (w' := EventLoop.run_timers (EventLoop.total_weight (timers w1)) T w1).
  assert (Hlook : EventLoop.lookup_notification (node n) wT
                  = EventLoop.lookup_notification (node n) w') by reflexivity.
  assert (Hl : lifecycle n (clock w) w').
  { apply run_timers_lifecycle. left. apply add_notification_displayed, Hfresh. }
  assert (Hc : clock w' <= T) by (apply run_timers_clock; exact HT).
  assert (Hd : Forall (fun tm => T < due tm) (timers w'))
    by (apply run_timers_done; lia).
  rewrite Hlook. rewrite Forall_forall in Hd.
  assert (Hpending : forall x, own_timers (node n) w' = [x] -> T < due x).
  { intros x Hx. apply Hd. apply list_elem_of_In.
    apply (proj1 (List.filter_In (targets (node n)) x (timers w'))).
    unfold own_timers in Hx. rewrite Hx. left. reflexivity. }
  destruct Hl as [(Hf & Ho & Hk)|[(Hf & Ho & Hk)|(Hf & Ho & Hk)]];
    try (apply Hpending in Ho; cbn [due] in Ho);
    unfold Plugin.display_duration, Plugin.exit_duration in *;
    repeat split; intros; first [exact Hf | lia].
Qed.

Lemma notification_lifecycle_witness :
  let n := new_notification "Error" "Failed to request Dune." error Sample.w0 in
  let shown :=
    final_world (run (Plugin.showNotification "Error" "Failed to request Dune." error)
                     Sample.all_down Sample.w0) in
  EventLoop.lookup_notification 0 (EventLoop.advance 5999 shown) = Some n /\
  EventLoop.lookup_notification 0 (EventLoop.advance 6000 shown) = Some (fading n) /\
  EventLoop.lookup_notification 0 (EventLoop.advance 6499 shown) = Some (fading n) /\
  EventLoop.lookup_notification 0 (EventLoop.advance 6500 shown) = None.
Proof.
  assert (Hfresh : fresh Sample.w0) by (split; constructor).
  split; [|split; [|split]].
  - apply (notification_lifecycle "Error" "Failed to request Dune." error
             Sample.all_down Sample.w0 5999 Hfresh); simpl; lia.
  - apply (notification_lifecycle "Error" "Failed to request Dune." error
             Sample.all_down Sample.w0 6000 Hfresh); simpl; lia.
  - apply (notification_lifecycle "Error" "Failed to request Dune." error
             Sample.all_down Sample.w0 6499 Hfresh); simpl; lia.
  - apply (notification_lifecycle "Error" "Failed to request Dune." error
             Sample.all_down Sample.w0 6500 Hfresh); simpl; lia.
Defined.

(** ** Invariants of the reachable states *)

(** The two assumptions made on the state above hold when the plugin starts
    (nothing rendered, no timer) and are kept by every method. *)

Lemma constructor_fresh (o : Options) (d : DOM) (now : N) :
  notif_container d = None -> fresh (Plugin.constructor o d now).
Proof. intros H. split; simpl; [rewrite H|]; constructor. Qed.

Lemma constructor_badged (o : Options) (d : DOM) (now : N) :
  badged d -> badged (dom (Plugin.constructor o d now)).
Proof. intros H. exact H. Qed.

Lemma document_cards_append (d : DOM) (cs : list ContainerChild) (c : ContainerChild) :
  content_container d = Some cs ->
  document_cards (set_content_container (Some (cs ++ [c])) d)
  = document_cards d ++ child_cards c.
Proof.
  intros H. unfold document_cards. rewrite H. cbn [content_container set_content_container].
  rewrite map_app, concat_app. cbn [map concat]. now rewrite app_nil_r.
Qed.

(** The state after a content page was rendered: the "not found" heading
    alone, or one more page whose cards are freshly made. *)
Lemma renderContentPage_final (kind : CatalogKind) (id : string) (o : Oracle)
    (w : World) :
  final_world (run (renderContentPage kind id) o w)
  = set_dom (set_content_container
               (Some [NotFoundHeading (not_found_text kind)]) (dom w)) w \/
  exists h items,
    Forall (fun c => is_Some (card_badge c)) (concat (map item_cards items)) /\
    final_world (run (renderContentPage kind id) o w)
    = match content_container (dom w) with
      | Some cs =>
          set_dom (set_content_container
                     (Some (cs ++ [ContentPage kind h items])) (dom w)) w
      | None => w
      end.
Proof.
  assert (Hsec : forall m t,
             Forall (fun c => is_Some (card_badge c))
               (concat (map item_cards (Plugin.section_if_nonempty "Movies" m ++
                                        Plugin.section_if_nonempty "TV Shows" t)))).
  { intros m t. rewrite map_app, concat_app. apply Forall_app.
    split; apply rendered_cards_have_badge. }
  remember (final_world (run (renderContentPage kind id) o w)) as w' eqn:E.
  unfold run, final_world in E.
  destruct kind.
  - unfold renderContentPage, Plugin.renderNetworkContentPage,
      ServerConnector.getNetworkContent in E. unfold bind at 1 in E.
    cbn [get_world world] in E.
    destruct (truthy (js_get (networkCache w) id)); cbn [negb] in E;
      [|left; exact E].
    right. unfold bind at 1, try_catch, bind at 1 in E. rewrite makeRequest_run in E.
    cbn [world trace] in E.
    destruct (response_json _) as [[|l|m t]|];
      cbn -[Plugin.section_if_nonempty] in E;
      eexists; eexists; (split; [|exact E]); first [apply Hsec | constructor].
  - unfold renderContentPage, Plugin.renderStudioContentPage,
      ServerConnector.getStudioContent in E. unfold bind at 1 in E.
    cbn [get_world world] in E.
    destruct (truthy (js_get (studioCache w) id)); cbn [negb] in E;
      [|left; exact E].
    right. unfold bind at 1, try_catch, bind at 1 in E. rewrite makeRequest_run in E.
    cbn [world trace] in E.
    destruct (response_json _) as [[|l|m t]|];
      cbn -[Plugin.section_if_nonempty] in E;
      eexists; eexists; (split; [|exact E]); first [apply Hsec | constructor].
Qed.

Lemma renderContentPage_badged (kind : CatalogKind) (id : string) (o : Oracle) (w : World) :
  badged (dom w) ->
  badged (dom (final_world (run (renderContentPage kind id) o w))).
Proof.
  intros Hw. unfold badged in *.
  destruct (renderContentPage_final kind id o w) as [->|(h & items & Hi & ->)].
  - constructor.
  - destruct (content_container (dom w)) as [cs|] eqn:Hcs; [|exact Hw].
    cbn [dom set_dom]. rewrite (document_cards_append _ _ _ Hcs).
    apply Forall_app. split; [exact Hw|exact Hi].
Qed.

Lemma requestContent_badged (item : ContentItem) (o : Oracle) (w : World) :
  badged (dom w) ->
  badged (dom (final_world (run (Plugin.requestContent item) o w))).
Proof.
  intros Hw. destruct (succeeded (o (submit_request w item))) eqn:E.
  - rewrite (requestContent_success _ _ _ E). unfold final_world, badged.
    cbn [snd world dom set_dom]. rewrite document_cards_map_cards.
    change (document_cards (dom (Plugin.add_notification _ _ _ w)))
      with (document_cards (dom w)).
    unfold badged in Hw. induction Hw as [|c l Hc _ IH]; constructor; [|exact IH].
    apply update_card_has_badge, Hc.
  - rewrite (requestContent_failure _ _ _ E). exact Hw.
Qed.

Lemma requestContent_fresh (item : ContentItem) (o : Oracle) (w : World) :
  fresh w -> fresh (final_world (run (Plugin.requestContent item) o w)).
Proof.
  intros Hw. destruct (succeeded (o (submit_request w item))) eqn:E.
  - rewrite (requestContent_success _ _ _ E). unfold final_world. cbn [snd world].
    exact (add_notification_fresh _ _ _ w Hw).
  - rewrite (requestContent_failure _ _ _ E). unfold final_world. cbn [snd world].
    exact (add_notification_fresh _ _ _ w Hw).
Qed.

Lemma refreshData_fresh (o : Oracle) (w : World) :
  fresh w -> fresh (final_world (run Plugin.refreshData o w)).
Proof.
  intros Hw. rewrite refreshData_run.
  match goal with |- context [try_catch _ _ o ?s] =>
    destruct (preserves_refreshData_try fresh
                ltac:(intros w0 H0; split; intros; exact H0)
                ltac:(intros w0 c H0; exact H0)
                ltac:(intros w0 c H0; exact H0) o s Hw) as (_ & _ & _ & H)
  end.
  exact H.
Qed.

Lemma handleViewChange_fresh (view : string) (o : Oracle) (w : World) :
  fresh w -> fresh (final_world (run (Plugin.handleViewChange view) o w)).
Proof.
  intros Hw. unfold Plugin.handleViewChange, Plugin.not_awaited, run, final_world.
  destruct (JsString.startsWith view "/jellyseerr/"); [|exact Hw].
  assert (Hp : preserves fresh (try_catch (Plugin.renderCustomView view) (fun _ => ret tt))).
  { apply preserves_try_catch; [|intros e; apply preserves_ret].
    apply preserves_renderCustomView. intros w0 H0. split; intros; exact H0. }
  destruct (Hp o {| world := w; trace := [] |} Hw) as (_ & _ & _ & H). exact H.
Qed.


(** * More properties of the plugin *)

(** ** No exception escapes a handler *)

Section AlwaysReturns.

Lemma returns_ret {A} (a : A) : always_returns (ret a).
Proof. intros o s. exists a. reflexivity. Qed.

Lemma returns_get_world : always_returns get_world.
Proof. intros o s. eexists. reflexivity. Qed.

Lemma returns_modify (f : World -> World) : always_returns (modify f).
Proof. intros o s. eexists. reflexivity. Qed.

Lemma returns_emit (e : Event) : always_returns (emit e).
Proof. intros o s. eexists. reflexivity. Qed.

Lemma returns_bind {A B} (m : M A) (k : A -> M B) :
  always_returns m -> (forall a, always_returns (k a)) -> always_returns (bind m k).
Proof.
  intros Hm Hk o s. unfold bind. destruct (Hm o s) as [a Ha].
  destruct (m o s) as [r s']. simpl in Ha. subst r. apply Hk.
Qed.

(** A [try] whose [catch] block cannot throw cannot throw. *)
Lemma returns_try_catch {A} (m : M A) (h : Exn -> M A) :
  (forall e, always_returns (h e)) -> always_returns (try_catch m h).
Proof.
  intros Hh o s. unfold try_catch. destruct (m o s) as [[a|e] s'].
  - exists a. reflexivity.
  - apply Hh.
Qed.

Ltac returns_step :=
  first
    [ apply returns_ret | apply returns_get_world | apply returns_modify
    | apply returns_emit
    | apply returns_try_catch; intros ?
    | apply returns_bind; [|intros ?]
    | match goal with
      | |- always_returns (match ?x with _ => _ end) => destruct x
      end ].

Lemma returns_renderContentPage (kind : CatalogKind) (id : string) :
  always_returns (renderContentPage kind id).
Proof.
  destruct kind; unfold renderContentPage, Plugin.renderNetworkContentPage,
    Plugin.renderStudioContentPage, Plugin.set_children, Plugin.appendChild,
    console_error;
    repeat returns_step.
Qed.

Lemma returns_refreshData : always_returns Plugin.refreshData.
Proof.
  unfold Plugin.refreshData, Plugin.refreshData_catch, console_log, console_error.
  repeat returns_step.
Qed.

Lemma returns_requestContent (item : ContentItem) :
  always_returns (Plugin.requestContent item).
Proof.
  unfold Plugin.requestContent, Plugin.showNotification, console_error.
  repeat returns_step.
Qed.

End AlwaysReturns.

Lemma returned_tt (m : M unit) (o : Oracle) (s : St) :
  always_returns m -> fst (m o s) = Returned tt.
Proof. intros H. destruct (H o s) as [[] Hu]. exact Hu. Qed.

(** What [renderCustomView] settles to. *)
Lemma renderCustomView_result (path : string) (o : Oracle) (s : St) :
  fst (Plugin.renderCustomView path o s)
  = if browse_rejects path (world s) then Thrown Plugin.localeCompare_of_undefined
    else Returned tt.
Proof.
  unfold Plugin.renderCustomView, browse_rejects. unfold bind at 1.
  cbn [get_world world].
  destruct (content_container (dom (world s))) as [cs|]; [|reflexivity].
  unfold bind at 1. cbn [Plugin.set_children modify world trace].
  destruct (resolve path) as [|networkId|studioId|].
  - unfold Plugin.renderBrowsePage, bind, get_world. cbn [world dom set_dom].
    change (networkCache (set_dom ?d (world s))) with (networkCache (world s)).
    change (studioCache (set_dom ?d (world s))) with (studioCache (world s)).
    unfold Plugin.sort_throws.
    cbn [comparator_reaches_nameless set_content_container].
    destruct (_ && _ && _); [reflexivity|]. cbn [orb].
    destruct (_ && _ && _); reflexivity.
  - apply (returned_tt _ _ _ (returns_renderContentPage Network networkId)).
  - apply (returned_tt _ _ _ (returns_renderContentPage Studio studioId)).
  - reflexivity.
Qed.

Lemma sort_throws_named (d : DOM) (cache : gmap string CatalogEntity) :
  named cache -> Plugin.sort_throws d cache = false.
Proof.
  intros H. unfold Plugin.sort_throws.
  assert (E : existsb Plugin.nameless (map snd (map_to_list cache)) = false).
  { apply not_true_is_false. intros Hx. apply existsb_exists in Hx.
    destruct Hx as (e & Hin & Hn). apply in_map_iff in Hin.
    destruct Hin as ([k e'] & <- & Hin). apply list_elem_of_In in Hin.
    apply elem_of_map_to_list in Hin. specialize (H k e' Hin). cbn in H, Hn.
    unfold Plugin.nameless in Hn. destruct (entity_name e'); [discriminate Hn|].
    destruct H as [x Hx]. discriminate Hx. }
  rewrite E, andb_false_r. reflexivity.
Qed.

Lemma sort_throws_small (d : DOM) (cache : gmap string CatalogEntity) :
  (size cache <= 1)%nat -> Plugin.sort_throws d cache = false.
Proof.
  intros H. unfold Plugin.sort_throws. rewrite length_map, length_map_to_list.
  destruct (Nat.ltb_spec 1 (size cache)); [lia|reflexivity].
Qed.

(** X1.  No failure of the service escapes the asynchronous methods: a
    refresh, a submission and a view change return normally whatever the
    service answers.  [renderCustomView] rejects in one case only, which the
    handlers swallow since they do not await it: on the browse path, with a
    content container, when sorting a cache by name throws; it does not when
    every cached entity has a name or no cache holds more than one entity. *)
Theorem async_methods_rejections :
  always_returns Plugin.refreshData /\
  (forall item, always_returns (Plugin.requestContent item)) /\
  (forall view, always_returns (Plugin.handleViewChange view)) /\
  (forall path o s,
     fst (Plugin.renderCustomView path o s)
     = if browse_rejects path (world s) then Thrown Plugin.localeCompare_of_undefined
       else Returned tt) /\
  (forall path w,
     (named (networkCache w) /\ named (studioCache w)) \/
     (size (networkCache w) <= 1 /\ size (studioCache w) <= 1)%nat ->
     browse_rejects path w = false).
Proof.
  split; [apply returns_refreshData|].
  split; [apply returns_requestContent|].
  split.
  { intros view. unfold Plugin.handleViewChange, Plugin.not_awaited.
    destruct (JsString.startsWith view "/jellyseerr/"); [|apply returns_ret].
    apply returns_try_catch. intros e. apply returns_ret. }
  split; [apply renderCustomView_result|].
  intros path w H. unfold browse_rejects.
  destruct (content_container (dom w)); [|reflexivity].
  destruct (resolve path); try reflexivity.
  destruct H as [[H1 H2]|[H1 H2]].
  - rewrite !sort_throws_named by assumption. reflexivity.
  - rewrite !sort_throws_small by assumption. reflexivity.
Qed.

Lemma async_methods_rejections_witness :
  named (networkCache Sample.w_page) /\ named (studioCache Sample.w_page) /\
  browse_rejects "/jellyseerr/browse" Sample.w_page = false.
Proof.
  assert (H : named (networkCache Sample.w_page) /\ named (studioCache Sample.w_page)).
  { split; intros k e Hk.
    - apply (elem_of_map_to_list (networkCache Sample.w_page)) in Hk.
      vm_compute in Hk. apply list_elem_of_In in Hk.
      destruct Hk as [[= <- <-]|[]]. eexists. reflexivity.
    - apply (elem_of_map_to_list (studioCache Sample.w_page)) in Hk.
      vm_compute in Hk. apply list_elem_of_In in Hk. destruct Hk. }
  split; [apply H|]. split; [apply H|].
  exact (proj2 (proj2 (proj2 (proj2 async_methods_rejections)))
           "/jellyseerr/browse" Sample.w_page (or_introl H)).
Defined.

(** Two networks without a name: the browse page is not rendered, the
    container is left empty and the method rejects. *)
Example browse_page_rejects :
  let anon1 := {| entity_id := 1; entity_name := None; logoPath := None |} in
  let anon2 := {| entity_id := 2; entity_name := None; logoPath := None |} in
  let w := set_networkCache (index_by_id [anon1; anon2]) Sample.w_page in
  run (Plugin.renderCustomView "/jellyseerr/browse") Sample.all_ok w
  = (Thrown Plugin.localeCompare_of_undefined, {| world := cleared w; trace := [] |}).
Proof. reflexivity. Qed.

Lemma returns_handler (a : Action) : always_returns (handler a).
Proof.
  destruct a as [|item|view|settings|until]; cbn [handler].
  - apply returns_refreshData.
  - apply returns_requestContent.
  - unfold Plugin.handleViewChange, Plugin.not_awaited.
    destruct (JsString.startsWith view "/jellyseerr/"); [|apply returns_ret].
    apply returns_try_catch. intros e. apply returns_ret.
  - unfold onSave, Plugin.not_awaited. apply returns_bind; [apply returns_get_world|].
    intros w. destruct (window_plugin (dom w)); [|apply returns_ret].
    apply returns_bind; [apply returns_modify|].
    intros _. apply returns_try_catch. intros e. apply returns_ret.
  - apply returns_ret.
Qed.

(** ** The requests the plugin sends *)

Section Emits.

Variable P : Event -> Prop.
Hypothesis P_console : forall level msg cause, P (EvConsole level msg cause).

Lemma emits_ret {A} (a : A) : emits P (ret a).
Proof. intros o s. exists []. rewrite app_nil_r. split; [reflexivity|constructor]. Qed.

Lemma emits_throw {A} (e : Exn) : emits P (@throw A e).
Proof. intros o s. exists []. rewrite app_nil_r. split; [reflexivity|constructor]. Qed.

Lemma emits_get_world : emits P get_world.
Proof. intros o s. exists []. rewrite app_nil_r. split; [reflexivity|constructor]. Qed.

Lemma emits_modify (f : World -> World) : emits P (modify f).
Proof. intros o s. exists []. simpl. rewrite app_nil_r. split; [reflexivity|constructor]. Qed.

Lemma emits_console_log (msg : string) : emits P (console_log msg).
Proof. intros o s. eexists. split; [reflexivity|]. repeat constructor. apply P_console. Qed.

Lemma emits_console_error (msg : string) (e : Exn) : emits P (console_error msg e).
Proof. intros o s. eexists. split; [reflexivity|]. repeat constructor. apply P_console. Qed.

Lemma emits_bind {A B} (m : M A) (k : A -> M B) :
  emits P m -> (forall a, emits P (k a)) -> emits P (bind m k).
Proof.
  intros Hm Hk o s. unfold bind.
  destruct (Hm o s) as (tr1 & E1 & F1).
  destruct (m o s) as [[a|e] s1]; simpl in *.
  - destruct (Hk a o s1) as (tr2 & E2 & F2).
    exists (tr1 ++ tr2). rewrite E2, E1, app_assoc.
    split; [reflexivity|]. apply Forall_app. split; assumption.
  - exists tr1. split; assumption.
Qed.

Lemma emits_try_catch {A} (m : M A) (h : Exn -> M A) :
  emits P m -> (forall e, emits P (h e)) -> emits P (try_catch m h).
Proof.
  intros Hm Hh o s. unfold try_catch.
  destruct (Hm o s) as (tr1 & E1 & F1).
  destruct (m o s) as [[a|e] s1]; simpl in *.
  - exists tr1. split; assumption.
  - destruct (Hh e o s1) as (tr2 & E2 & F2).
    exists (tr1 ++ tr2). rewrite E2, E1, app_assoc.
    split; [reflexivity|]. apply Forall_app. split; assumption.
Qed.

Lemma emits_makeRequest (endpoint : string) (method : Method)
    (data : option RequestBody) :
  (forall w, P (EvFetch (api_request w endpoint method
                           match method with GET => None | POST | PUT => data end) w)) ->
  emits P (ServerConnector.makeRequest endpoint method data).
Proof.
  intros HP o s. rewrite makeRequest_run. eexists. split; [reflexivity|].
  repeat constructor. apply HP.
Qed.

End Emits.

Lemma plugin_request_get (endpoint : string) (w : World) :
  read_endpoint endpoint ->
  plugin_request (EvFetch (api_request w endpoint GET None) w).
Proof.
  intros H. split; [reflexivity|]. exists endpoint. split; [reflexivity|].
  left. repeat split. exact H.
Qed.

Lemma plugin_request_post (b : RequestBody) (w : World) :
  plugin_request (EvFetch (api_request w "/request" POST (Some b)) w).
Proof.
  split; [reflexivity|]. exists "/request". split; [reflexivity|].
  right. repeat split. eexists. reflexivity.
Qed.

Ltac emits_step :=
  first
    [ apply emits_ret | apply emits_throw | apply emits_get_world
    | apply emits_modify
    | apply emits_console_log; intros; exact Logic.I
    | apply emits_console_error; intros; exact Logic.I
    | apply emits_makeRequest; intros ?;
      first [ apply plugin_request_post
            | apply plugin_request_get; unfold read_endpoint; eauto 6 ]
    | apply emits_bind; [|intros ?]
    | apply emits_try_catch; [|intros ?]
    | match goal with
      | |- emits _ (match ?x with _ => _ end) => destruct x
      end ].

Lemma emits_renderCustomView (path : string) :
  emits plugin_request (Plugin.renderCustomView path).
Proof.
  unfold Plugin.renderCustomView, Plugin.renderBrowsePage,
    Plugin.renderNetworkContentPage, Plugin.renderStudioContentPage,
    Plugin.set_children, Plugin.appendChild,
    ServerConnector.getNetworkContent, ServerConnector.getStudioContent,
    prop_movies, prop_tvShows.
  repeat emits_step.
Qed.

Lemma emits_refreshData : emits plugin_request Plugin.refreshData.
Proof.
  unfold Plugin.refreshData, Plugin.refreshData_try, Plugin.refreshData_report,
    Plugin.refreshData_catch, Plugin.updateUI, Plugin.not_awaited,
    Plugin.renderNetworksAndStudios,
    ServerConnector.getNetworks, ServerConnector.getStudios, reduce_by_id.
  repeat first [apply emits_renderCustomView | emits_step].
Qed.

Lemma emits_requestContent (item : ContentItem) :
  emits plugin_request (Plugin.requestContent item).
Proof.
  unfold Plugin.requestContent, Plugin.showNotification,
    ServerConnector.requestContent.
  repeat emits_step.
Qed.

Lemma emits_handler (a : Action) : emits plugin_request (handler a).
Proof.
  destruct a as [|item|view|settings|until]; cbn [handler].
  - apply emits_refreshData.
  - apply emits_requestContent.
  - unfold Plugin.handleViewChange, Plugin.not_awaited.
    repeat first [apply emits_renderCustomView | emits_step].
  - unfold onSave, Plugin.not_awaited.
    repeat first [apply emits_refreshData | emits_step].
  - apply emits_ret.
Qed.

(** X2.  Whatever handler runs, every request it sends goes to the
    connector's address under ["/api/v1"] with the connector's key, and it is
    either a [GET] without body of the network list, the studio list or the
    content of one network or studio, or a [POST] with a body to
    ["/request"]. *)
Theorem handlers_send_plugin_requests (a : Action) (o : Oracle) (w : World) :
  Forall plugin_request (final_trace (run (handler a) o w)).
Proof.
  destruct (emits_handler a o {| world := w; trace := [] |}) as (tr & E & F).
  unfold final_trace, run. rewrite E. exact F.
Qed.

Lemma append_inv_head (s a b : string) : s +:+ a = s +:+ b -> a = b.
Proof.
  induction s as [|c s IH]; simpl; [trivial|]. intros [= H]. exact (IH H).
Qed.

Lemma checkLibraryStatus_requests (tmdbId : N) (mediaType : MediaType)
    (o : Oracle) (w : World) :
  requests (final_trace (run (checkLibraryStatus tmdbId mediaType) o w))
  = [status_request w tmdbId mediaType].
Proof.
  unfold run, checkLibraryStatus, final_trace.
  rewrite makeRequest_run. reflexivity.
Qed.

(** X3.  No handler ever asks the service for the library status of an item:
    whatever a handler sends, from whatever state, differs from the request
    that [checkLibraryStatus] sends from that state, for every item. *)
Theorem handlers_never_check_library_status (a : Action) (o : Oracle) (w : World)
    (r : Request) (s : World) (tmdbId : N) (mediaType : MediaType) (o' : Oracle) :
  In (EvFetch r s) (final_trace (run (handler a) o w)) ->
  requests (final_trace (run (checkLibraryStatus tmdbId mediaType) o' s)) <> [r].
Proof.
  intros Hin Heq. rewrite checkLibraryStatus_requests in Heq.
  injection Heq as Heq. symmetry in Heq.
  destruct (emits_handler a o {| world := w; trace := [] |}) as (tr & E & F).
  unfold final_trace, run in Hin. rewrite E in Hin. cbn [trace app] in Hin.
  rewrite Forall_forall in F. specialize (F _ (proj2 (list_elem_of_In _ _) Hin)).
  destruct F as (_ & endpoint & Hurl & [(_ & _ & He)|(Hm & _)]).
  - subst r. unfold status_request, api_request in Hurl. cbn [req_url] in Hurl.
    apply append_inv_head in Hurl. cbn in Hurl. injection Hurl as Hurl.
    destruct He as [->|[->|[[id ->]|[id ->]]]]; cbn in Hurl; discriminate Hurl.
  - subst r. discriminate Hm.
Qed.

Lemma handlers_never_check_library_status_witness :
  let s := set_lastRefresh (Some 1000) Sample.w0 in
  In (EvFetch (networks_request Sample.w0) s)
     (final_trace (run (handler DoRefresh) Sample.all_ok Sample.w0)) /\
  requests (final_trace (run (checkLibraryStatus 438631 movie) Sample.all_down s))
  <> [networks_request Sample.w0].
Proof.
  assert (H : In (EvFetch (networks_request Sample.w0)
                    (set_lastRefresh (Some 1000) Sample.w0))
                 (final_trace (run (handler DoRefresh) Sample.all_ok Sample.w0))).
  { right. left. reflexivity. }
  split; [exact H|].
  exact (handlers_never_check_library_status DoRefresh Sample.all_ok Sample.w0
           _ _ 438631 movie Sample.all_down H).
Defined.

(** ** What stays in the background *)

Lemma requests_Forall (R : Request -> Prop) (tr : list Event) :
  Forall (fun ev => match ev with EvFetch r _ => R r | EvConsole _ _ _ => True end) tr ->
  Forall R (requests tr).
Proof.
  induction 1 as [|[r s|l m c] tr H _ IH]; cbn [requests];
    [constructor|constructor; assumption|assumption].
Qed.

Section Background.

Variable I : World -> Prop.
Hypothesis I_background : background I.

Lemma background_view : view_independent I.
Proof. intros w Hw. destruct (I_background w Hw) as (H1 & H2 & _). split; assumption. Qed.

Lemma preserves_refreshData : preserves I Plugin.refreshData.
Proof.
  unfold Plugin.refreshData.
  apply preserves_bind; [apply preserves_console_log|intros _].
  apply preserves_bind.
  - apply preserves_modify. intros w Hw. apply (I_background w Hw).
  - intros _. apply preserves_refreshData_try.
    + apply background_view.
    + intros w c Hw. apply (I_background w Hw).
    + intros w c Hw. apply (I_background w Hw).
Qed.

Lemma preserves_handleViewChange (view : string) :
  preserves I (Plugin.handleViewChange view).
Proof.
  unfold Plugin.handleViewChange, Plugin.not_awaited.
  destruct (JsString.startsWith view "/jellyseerr/"); [|apply preserves_ret].
  apply preserves_try_catch; [|intros e; apply preserves_ret].
  apply preserves_renderCustomView, background_view.
Qed.

Hypothesis I_options : forall w o, I w -> I (set_options o w).

Lemma preserves_onSave (settings : Options) : preserves I (onSave settings).
Proof.
  unfold onSave, Plugin.not_awaited.
  apply preserves_bind; [apply preserves_get_world|intros w0].
  destruct (window_plugin (dom w0)); [|apply preserves_ret].
  apply preserves_bind; [apply preserves_modify; intros w Hw; apply I_options, Hw|].
  intros _. apply preserves_try_catch; [|intros e; apply preserves_ret].
  apply preserves_refreshData.
Qed.

Hypothesis I_clock : forall w t, I w -> I (set_clock t w).
Hypothesis I_timers : forall w ts, I w -> I (set_timers ts w).
Hypothesis I_notifications :
  forall w l, I w -> I (set_dom (set_notif_container l (dom w)) w).

Lemma fire_background (a : TimerAction) (w : World) : I w -> I (EventLoop.fire a w).
Proof.
  intros Hw. destruct a as [j|j]; cbn [EventLoop.fire].
  - apply I_timers.
    apply (I_notifications w (map (EventLoop.add_fade_out j) <$> notif_container (dom w))), Hw.
  - apply (I_notifications w), Hw.
Qed.

Lemma run_timers_background (fuel : nat) (T : N) (w : World) :
  I w -> I (EventLoop.run_timers fuel T w).
Proof.
  revert w. induction fuel as [|fuel IH]; intros w Hw; [exact Hw|].
  cbn [EventLoop.run_timers].
  destruct (EventLoop.pick (timers w)) as [[m rest]|]; [|exact Hw].
  destruct (due m <=? T); [|exact Hw].
  apply IH, fire_background, I_clock, I_timers, Hw.
Qed.

Lemma advance_background (T : N) (w : World) : I w -> I (EventLoop.advance T w).
Proof. intros Hw. apply I_clock, run_timers_background, Hw. Qed.

Hypothesis I_next_node : forall w n, I w -> I (set_next_node n w).

Lemma requestContent_background (item : ContentItem) (o : Oracle) (w : World) :
  I w -> I (final_world (run (Plugin.requestContent item) o w)).
Proof.
  intros Hw.
  assert (Hn : forall t m ty, I (Plugin.add_notification t m ty w)).
  { intros t m ty. unfold Plugin.add_notification.
    apply I_next_node, I_timers, I_notifications, Hw. }
  destruct (succeeded (o (submit_request w item))) eqn:E.
  - rewrite (requestContent_success _ _ _ E). unfold final_world. cbn [snd world].
    unfold Plugin.map_cards.
    apply (I_background _ (Hn _ _ _)).
  - rewrite (requestContent_failure _ _ _ E). apply Hn.
Qed.

(** A property of the plugin that no field written by a handler or by a
    timer touches holds throughout a session. *)
Lemma perform_background (o : Oracle) (a : Action) (w : World) :
  I w -> I (perform o a w).
Proof.
  intros Hw. destruct a as [|item|view|settings|until]; cbn [perform handler].
  - destruct (preserves_refreshData o {| world := w; trace := [] |} Hw)
      as (_ & _ & _ & H). exact H.
  - apply requestContent_background, Hw.
  - destruct (preserves_handleViewChange view o {| world := w; trace := [] |} Hw)
      as (_ & _ & _ & H). exact H.
  - destruct (preserves_onSave settings o {| world := w; trace := [] |} Hw)
      as (_ & _ & _ & H). exact H.
  - apply advance_background, Hw.
Qed.

Lemma play_background (turns : list (Oracle * Action)) (w : World) :
  I w -> I (play turns w).
Proof.
  revert w. induction turns as [|[o a] turns IH]; intros w Hw; [exact Hw|].
  cbn [play fold_left fst snd]. apply IH, perform_background, Hw.
Qed.

End Background.

(** X4.  The connector is built once: no handler and no timer changes its
    address or key, in any session; this includes saving new settings. *)
Theorem connector_is_constant (turns : list (Oracle * Action)) (w : World) :
  serverConnector (play turns w) = serverConnector w.
Proof.
  apply (play_background (fun s => serverConnector s = serverConnector w));
    try (intros; assumption); try reflexivity.
  intros w0 H0. repeat split; intros; exact H0.
Qed.

Lemma not_awaited_returns (m : M unit) (o : Oracle) (s : St) :
  always_returns m -> Plugin.not_awaited m o s = m o s.
Proof.
  intros Hm. unfold Plugin.not_awaited, try_catch.
  destruct (Hm o s) as [a Ha]. destruct (m o s) as [[u|e] s']; simpl in Ha;
    [reflexivity|discriminate Ha].
Qed.

Lemma not_awaited_returned (m : M unit) (o : Oracle) (s : St) :
  fst (m o s) = Returned tt -> Plugin.not_awaited m o s = m o s.
Proof.
  intros Hm. unfold Plugin.not_awaited, try_catch.
  destruct (m o s) as [[u|e] s']; simpl in Hm; [reflexivity|discriminate Hm].
Qed.

Lemma onSave_run (settings : Options) (o : Oracle) (w : World) :
  run (onSave settings) o w
  = if window_plugin (dom w) then run Plugin.refreshData o (set_options settings w)
    else (Returned tt, {| world := w; trace := [] |}).
Proof.
  unfold run, onSave, bind at 1. cbn [get_world world].
  destruct (window_plugin (dom w)); [|reflexivity].
  unfold bind at 1. cbn [modify world trace].
  apply not_awaited_returns, returns_refreshData.
Qed.

Lemma refreshData_first_request (o : Oracle) (w : World) :
  exists rest, requests (final_trace (run Plugin.refreshData o w))
               = networks_request w :: rest.
Proof.
  rewrite refreshData_run, refreshData_try_cases. cbn [world trace].
  change (networks_request (set_lastRefresh (Some (clock w)) w))
    with (networks_request w).
  destruct (catalog_of (o (networks_request w))) as [ns|].
  - destruct (catalog_of (o (studios_request _))) as [ss|].
    + cbv zeta.
      match goal with |- context [try_catch _ _ o ?s3] =>
        destruct (preserves_refreshData_report (fun _ => True)
                    ltac:(intros w0 H0; split; intros; exact H0) o s3 Logic.I)
          as (tr & E & _)
      end.
      unfold final_trace. rewrite E. eexists. reflexivity.
    + rewrite refreshData_catch_run. eexists. reflexivity.
  - rewrite refreshData_catch_run. eexists. reflexivity.
Qed.

(** X5.  When [window.jellyfinJellyseerrPlugin] holds the plugin, saving
    settings replaces the options and starts a refresh, and that refresh
    still talks to the address, and with the key, the plugin was constructed
    with: its first request is [GET /networks] built from the old connector,
    and every request it sends is.  When it does not, saving settings changes
    nothing and sends nothing. *)
Theorem onSave_keeps_old_connector (settings : Options) (o : Oracle) (w : World) :
  let r := run (onSave settings) o w in
  (window_plugin (dom w) = true ->
   options (final_world r) = settings /\
   serverConnector (final_world r) = serverConnector w /\
   (exists rest, requests (final_trace r) = networks_request w :: rest) /\
   Forall (sent_with (serverConnector w)) (requests (final_trace r))) /\
  (window_plugin (dom w) = false -> r = (Returned tt, {| world := w; trace := [] |})).
Proof.
  intros r. subst r. rewrite onSave_run.
  split; intros Hg; rewrite Hg; [|reflexivity].
  set (w1 := set_options settings w).
  set (I := fun s => options s = settings /\ serverConnector s = serverConnector w).
  assert (HI : background I).
  { intros w0 H0. repeat split; intros; apply H0. }
  destruct (preserves_refreshData I HI o {| world := w1; trace := [] |}
              (conj eq_refl eq_refl)) as (tr & E & F & Ho & Hc).
  destruct (emits_refreshData o {| world := w1; trace := [] |}) as (tr' & E' & F').
  rewrite E in E'. apply app_inv_head in E'. subst tr'.
  unfold final_world, final_trace, run in *.
  rewrite E in *. cbn [trace app] in *.
  split; [exact Ho|]. split; [exact Hc|]. split.
  - pose proof (refreshData_first_request o w1) as H.
    unfold final_trace, run in H. rewrite E in H. exact H.
  - apply requests_Forall. rewrite Forall_forall in F, F'. apply Forall_forall.
    intros [q s|l m c] Hq; [|exact Logic.I].
    specialize (F _ Hq). specialize (F' _ Hq). cbn in F, F'.
    destruct F as [_ Hs]. destruct F' as (Hk & e & Hu & _).
    rewrite Hs in Hk, Hu. split; [exact Hk|]. exists e. exact Hu.
Qed.

Lemma onSave_keeps_old_connector_witness :
  let settings := {| jellyseerrUrl := "http://elsewhere:5055"; jellyseerrApiKey := "new";
                     refreshInterval := 1; displayNetworks := [];
                     displayStudios := [] |} in
  let r := run (onSave settings) Sample.all_ok Sample.w0 in
  options (final_world r) = settings /\
  serverConnector (final_world r) = serverConnector Sample.w0 /\
  (exists rest, requests (final_trace r) = networks_request Sample.w0 :: rest) /\
  Forall (sent_with (serverConnector Sample.w0)) (requests (final_trace r)).
Proof.
  exact (proj1 (onSave_keeps_old_connector
                  {| jellyseerrUrl := "http://elsewhere:5055"; jellyseerrApiKey := "new";
                     refreshInterval := 1; displayNetworks := [];
                     displayStudios := [] |} Sample.all_ok Sample.w0) eq_refl).
Defined.

(** ** Cache keys are numerals *)

Lemma pretty_N_char_digit (x : N) : is_digit (pretty_N_char x) = true.
Proof. unfold pretty_N_char. repeat case_match; reflexivity. Qed.

Lemma pretty_N_go_digits (x : N) (s : string) :
  all_digits s = true -> all_digits (pretty_N_go x s) = true.
Proof.
  revert s. induction (N.lt_wf_0 x) as [x _ IH]; intros s Hs.
  destruct (decide (0 < x)) as [Hx|Hx].
  - rewrite pretty_N_go_step by exact Hx. apply IH.
    + apply N.div_lt; lia.
    + cbn [all_digits]. rewrite pretty_N_char_digit. exact Hs.
  - assert (x = 0) as -> by lia. rewrite pretty_N_go_0. exact Hs.
Qed.

Lemma pretty_N_digits (n : N) : all_digits (pretty n) = true.
Proof.
  unfold pretty, pretty_N. case_decide; [reflexivity|].
  apply pretty_N_go_digits. reflexivity.
Qed.

Lemma all_digits_contains (c : ascii) (s : string) :
  is_digit c = false -> all_digits s = true -> JsString.contains c s = false.
Proof.
  intros Hc. induction s as [|a s IH]; [reflexivity|].
  cbn [all_digits JsString.contains]. intros H.
  apply andb_true_iff in H as [Ha Hs]. rewrite (IH Hs), orb_false_r.
  destruct (Ascii.eqb_spec a c); [congruence|reflexivity].
Qed.

Lemma numeral_not_inherited (n : N) :
  existsb (String.eqb (pretty n)) object_prototype_keys = false.
Proof.
  destruct (existsb _ _) eqn:E; [|reflexivity].
  apply existsb_exists in E as (k & Hk & Heq). apply String.eqb_eq in Heq.
  pose proof (pretty_N_digits n) as Hd. rewrite Heq in Hd.
  unfold object_prototype_keys in Hk. cbn [In] in Hk.
  repeat (destruct Hk as [<-|Hk]; [discriminate Hd|]). contradiction.
Qed.

(** ** The cache built by a refresh *)

Lemma index_by_id_fold (l : list CatalogEntity) :
  index_by_id l = fold_right (fun e acc => <[cache_key e := e]> acc) ∅ (rev l).
Proof.
  unfold index_by_id. symmetry.
  apply (fold_left_rev_right (fun e acc => <[cache_key e := e]> acc)).
Qed.

Lemma fold_index_lookup (r : list CatalogEntity) (k : string) :
  fold_right (fun e acc => <[cache_key e := e]> acc) (∅ : gmap string CatalogEntity) r !! k
  = List.find (fun e => String.eqb (cache_key e) k) r.
Proof.
  induction r as [|e r IH]; cbn [fold_right List.find].
  - apply lookup_empty.
  - destruct (String.eqb_spec (cache_key e) k) as [->|Hne].
    + apply lookup_insert_eq.
    + rewrite lookup_insert_ne by exact Hne. exact IH.
Qed.

Lemma index_by_id_lookup (l : list CatalogEntity) (k : string) :
  index_by_id l !! k
  = List.find (fun e => String.eqb (cache_key e) k) (rev l).
Proof. rewrite index_by_id_fold. apply fold_index_lookup. Qed.

Lemma fold_index_size (r : list CatalogEntity) :
  NoDup (map entity_id r) ->
  size (fold_right (fun e acc => <[cache_key e := e]> acc)
          (∅ : gmap string CatalogEntity) r) = length r.
Proof.
  induction r as [|e r IH]; cbn [fold_right map length]; intros Hnd.
  - apply map_size_empty.
  - apply NoDup_cons in Hnd as [He Hnd].
    rewrite map_size_insert_None; [now rewrite IH|].
    rewrite fold_index_lookup.
    destruct (List.find _ r) as [x|] eqn:E; [|reflexivity].
    apply find_some in E as [Hin Heq]. apply String.eqb_eq in Heq.
    unfold cache_key in Heq. apply pretty_N_inj in Heq.
    exfalso. apply He. rewrite <- Heq. apply list_elem_of_In, in_map, Hin.
Qed.

Lemma cache_key_eqb (e : CatalogEntity) (id : N) :
  String.eqb (cache_key e) (pretty id) = N.eqb (entity_id e) id.
Proof.
  unfold cache_key. destruct (N.eqb_spec (entity_id e) id) as [->|Hne].
  - apply String.eqb_refl.
  - apply String.eqb_neq. intros H. apply Hne. exact (pretty_N_inj _ _ H).
Qed.

Lemma index_by_id_keyed (l : list CatalogEntity) : keyed (index_by_id l).
Proof.
  intros k e H. rewrite index_by_id_lookup in H.
  apply find_some in H as [_ H]. apply String.eqb_eq in H. congruence.
Qed.

Lemma index_by_id_lookup_id (l : list CatalogEntity) (id : N) :
  index_by_id l !! pretty id = last_with_id id l.
Proof.
  rewrite index_by_id_lookup. unfold last_with_id.
  induction (rev l) as [|e r IH]; [reflexivity|].
  cbn [List.find]. rewrite cache_key_eqb. destruct (N.eqb (entity_id e) id);
    [reflexivity|exact IH].
Qed.

(** X6.  The cache a refresh builds from a delivered list maps every id to
    the last entity delivered with that id and to nothing else: an id that
    was not delivered is absent, and every entry sits under the numeral of its
    own id and was delivered. *)
Theorem index_by_id_spec (l : list CatalogEntity) :
  (forall id, index_by_id l !! pretty id = last_with_id id l) /\
  (forall k e, index_by_id l !! k = Some e -> k = pretty (entity_id e) /\ In e l).
Proof.
  split; [apply index_by_id_lookup_id|].
  intros k e H. split; [exact (index_by_id_keyed l k e H)|].
  rewrite index_by_id_lookup in H. apply find_some in H as [H _].
  apply in_rev, H.
Qed.

Lemma index_by_id_spec_witness :
  index_by_id [Sample.hbo; Sample.netflix] !! "7" = None /\
  ("2" = pretty (entity_id Sample.netflix) /\ In Sample.netflix [Sample.hbo; Sample.netflix]).
Proof.
  destruct (index_by_id_spec [Sample.hbo; Sample.netflix]) as [H1 H2].
  split; [exact (H1 7)|]. apply H2. reflexivity.
Defined.

Lemma last_with_id_unique (e : CatalogEntity) (l : list CatalogEntity) :
  NoDup (map entity_id l) -> In e l -> last_with_id (entity_id e) l = Some e.
Proof.
  unfold last_with_id. intros Hnd Hin.
  assert (Hnd' : NoDup (map entity_id (rev l))).
  { rewrite map_rev. apply NoDup_ListNoDup, List.NoDup_rev, NoDup_ListNoDup, Hnd. }
  apply in_rev in Hin. revert Hnd' Hin.
  induction (rev l) as [|x r IH]; [contradiction|].
  cbn [map List.find In]. intros Hn [->|Hin].
  - rewrite N.eqb_refl. reflexivity.
  - apply NoDup_cons in Hn as [Hx Hn].
    destruct (N.eqb_spec (entity_id x) (entity_id e)) as [Heq|_]; [|exact (IH Hn Hin)].
    exfalso. apply Hx. rewrite Heq. apply list_elem_of_In, in_map, Hin.
Qed.

(** X7.  When the delivered ids are pairwise different, the cache gives back
    exactly what was delivered: each entity is found under its id, and the
    cache has as many entries as the list. *)
Theorem index_by_id_round_trip (l : list CatalogEntity) :
  NoDup (map entity_id l) ->
  (forall e, In e l -> index_by_id l !! cache_key e = Some e) /\
  size (index_by_id l) = length l.
Proof.
  intros Hnd. split.
  - intros e He. unfold cache_key.
    rewrite index_by_id_lookup_id. apply last_with_id_unique; assumption.
  - rewrite index_by_id_fold, fold_index_size, length_rev; [reflexivity|].
    rewrite map_rev. apply NoDup_ListNoDup, List.NoDup_rev, NoDup_ListNoDup, Hnd.
Qed.

Lemma index_by_id_round_trip_witness :
  index_by_id [Sample.hbo; Sample.netflix] !! "2" = Some Sample.netflix /\
  size (index_by_id [Sample.hbo; Sample.netflix]) = 2%nat.
Proof.
  assert (Hnd : NoDup (map entity_id [Sample.hbo; Sample.netflix])).
  { apply NoDup_ListNoDup. repeat constructor; simpl; intuition discriminate. }
  destruct (index_by_id_round_trip [Sample.hbo; Sample.netflix] Hnd) as [H1 H2].
  split; [|exact H2].
  apply (H1 Sample.netflix). simpl. auto.
Defined.

(** ** Looking up a numeric id *)

Lemma js_get_numeral (m : gmap string CatalogEntity) (id : N) :
  js_get m (pretty id) = match m !! pretty id with
                         | Some e => Own e
                         | None => Undefined
                         end.
Proof.
  unfold js_get. destruct (m !! pretty id); [reflexivity|].
  now rewrite numeral_not_inherited.
Qed.

(** X8.  For a numeric id that is not in the cache of its catalog, the detail
    page is the "not found" heading and nothing is requested, whatever else
    the cache holds. *)
Theorem numeric_id_not_found (kind : CatalogKind) (id : N) (o : Oracle) (w : World) :
  cache_of kind w !! pretty id = None ->
  run (renderContentPage kind (pretty id)) o w
  = (Returned tt,
     {| world := set_dom (set_content_container
                            (Some [NotFoundHeading (not_found_text kind)]) (dom w)) w;
        trace := [] |}).
Proof.
  intros H. apply not_found_without_fetch; [exact H|apply numeral_not_inherited].
Qed.

Lemma numeric_id_not_found_witness :
  run (renderContentPage Studio (pretty 7)) Sample.all_ok Sample.w_page
  = (Returned tt,
     {| world := set_dom (set_content_container
                            (Some [NotFoundHeading "Studio not found"])
                            (dom Sample.w_page)) Sample.w_page;
        trace := [] |}).
Proof. exact (numeric_id_not_found Studio 7 Sample.all_ok Sample.w_page eq_refl). Defined.

(** ** The caches over a session *)

Lemma refreshData_caches (o : Oracle) (w : World) :
  let w' := final_world (run Plugin.refreshData o w) in
  networkCache w' = match catalog_of (o (networks_request w)) with
                    | Some ns => index_by_id ns
                    | None => networkCache w
                    end /\
  studioCache w' = match catalog_of (o (networks_request w)),
                         catalog_of (o (studios_request w)) with
                   | Some _, Some ss => index_by_id ss
                   | _, _ => studioCache w
                   end.
Proof.
  intros w'. subst w'. rewrite refreshData_run, refreshData_try_cases.
  cbn [world trace].
  change (networks_request (set_lastRefresh (Some (clock w)) w))
    with (networks_request w).
  change (studios_request (set_lastRefresh (Some (clock w)) w))
    with (studios_request w).
  destruct (catalog_of (o (networks_request w))) as [ns|].
  - destruct (catalog_of (o (studios_request w))) as [ss|].
    + cbv zeta.
      match goal with |- context [try_catch _ _ o ?s3] =>
        destruct (preserves_refreshData_report
                    (fun s => networkCache s = index_by_id ns /\
                              studioCache s = index_by_id ss)
                    ltac:(intros w0 H0; split; intros; exact H0) o s3
                    (conj eq_refl eq_refl))
          as (_ & _ & _ & H)
      end.
      exact H.
    + rewrite refreshData_catch_run. split; reflexivity.
  - rewrite refreshData_catch_run. split; reflexivity.
Qed.

(** X9.  A refresh rebuilds a cache from the delivered list alone: once the
    networks are delivered, the network cache answers every id exactly as
    the delivered list does, whatever it held before; and so does the studio
    cache once both lists are delivered.  Nothing of the old cache is merged
    in. *)
Theorem refresh_rebuilds_wholesale (o : Oracle) (w : World)
    (ns : list CatalogEntity) :
  catalog_of (o (networks_request w)) = Some ns ->
  let w' := final_world (run Plugin.refreshData o w) in
  (forall id, js_get (networkCache w') (pretty id)
              = match last_with_id id ns with
                | Some e => Own e
                | None => Undefined
                end) /\
  (forall ss, catalog_of (o (studios_request w)) = Some ss ->
     forall id, js_get (studioCache w') (pretty id)
                = match last_with_id id ss with
                  | Some e => Own e
                  | None => Undefined
                  end).
Proof.
  intros Hn w'. subst w'.
  destruct (refreshData_caches o w) as [H1 H2]. rewrite Hn in H1, H2.
  split.
  - intros id. rewrite js_get_numeral, H1, index_by_id_lookup_id. reflexivity.
  - intros ss Hs id. rewrite Hs in H2.
    rewrite js_get_numeral, H2, index_by_id_lookup_id. reflexivity.
Qed.

Lemma refresh_rebuilds_wholesale_witness :
  let w := set_networkCache (index_by_id [Sample.warner]) Sample.w0 in
  let w' := final_world (run Plugin.refreshData Sample.all_ok w) in
  js_get (networkCache w) "9" = Own Sample.warner /\
  js_get (networkCache w') "9" = Undefined /\
  js_get (networkCache w') "2" = Own Sample.netflix /\
  js_get (studioCache w') "9" = Own Sample.warner.
Proof.
  pose proof (refresh_rebuilds_wholesale Sample.all_ok
                (set_networkCache (index_by_id [Sample.warner]) Sample.w0)
                [Sample.hbo; Sample.netflix] eq_refl) as [H1 H2].
  split; [reflexivity|]. split; [exact (H1 9)|]. split; [exact (H1 2)|].
  exact (H2 [Sample.warner] eq_refl 9).
Defined.

Lemma perform_caches (o : Oracle) (a : Action) (w : World) :
  (networkCache (perform o a w) = networkCache w \/
   exists ns, networkCache (perform o a w) = index_by_id ns) /\
  (studioCache (perform o a w) = studioCache w \/
   exists ss, studioCache (perform o a w) = index_by_id ss).
Proof.
  assert (Hr : forall w1,
             networkCache w1 = networkCache w -> studioCache w1 = studioCache w ->
             let w' := final_world (run Plugin.refreshData o w1) in
             (networkCache w' = networkCache w \/
              exists ns, networkCache w' = index_by_id ns) /\
             (studioCache w' = studioCache w \/
              exists ss, studioCache w' = index_by_id ss)).
  { intros w1 Hn Hs w'. subst w'.
    destruct (refreshData_caches o w1) as [H1 H2]. rewrite H1, H2, Hn, Hs.
    destruct (catalog_of (o (networks_request w1))) as [ns|];
      destruct (catalog_of (o (studios_request w1))) as [ss|];
      split; first [left; reflexivity | right; eexists; reflexivity]. }
  destruct a as [|item|view|settings|until]; cbn [perform handler].
  - apply Hr; reflexivity.
  - destruct (succeeded (o (submit_request w item))) eqn:E.
    + rewrite (requestContent_success _ _ _ E). split; left; reflexivity.
    + rewrite (requestContent_failure _ _ _ E). split; left; reflexivity.
  - assert (Hp : preserves (fun s => networkCache s = networkCache w /\
                                     studioCache s = studioCache w)
                   (Plugin.handleViewChange view)).
    { unfold Plugin.handleViewChange, Plugin.not_awaited.
      destruct (JsString.startsWith view "/jellyseerr/"); [|apply preserves_ret].
      apply preserves_try_catch; [|intros e; apply preserves_ret].
      apply preserves_renderCustomView. intros w0 H0. split; intros; exact H0. }
    destruct (Hp o {| world := w; trace := [] |} (conj eq_refl eq_refl))
      as (_ & _ & _ & H1 & H2).
    split; left; assumption.
  - rewrite onSave_run. destruct (window_plugin (dom w));
      [apply Hr; reflexivity|split; left; reflexivity].
  - pose proof (advance_background
                  (fun s => networkCache s = networkCache w /\
                            studioCache s = studioCache w)
                  ltac:(intros; assumption) ltac:(intros; assumption)
                  ltac:(intros; assumption) until w (conj eq_refl eq_refl)) as [H1 H2].
    split; left; assumption.
Qed.

Lemma play_keyed (turns : list (Oracle * Action)) (w : World) :
  keyed (networkCache w) -> keyed (studioCache w) ->
  keyed (networkCache (play turns w)) /\ keyed (studioCache (play turns w)).
Proof.
  revert w. induction turns as [|[o a] turns IH]; intros w Hn Hs; [split; assumption|].
  cbn [play fold_left fst snd].
  destruct (perform_caches o a w) as [[H1|[ns H1]] [H2|[ss H2]]];
    apply IH; rewrite ?H1, ?H2; first [assumption | apply index_by_id_keyed].
Qed.

(** X10.  From a fresh plugin on, through any session, every entry of either
    cache sits under the numeral of its own id: a lookup by a numeric id finds
    an entity with exactly that id, or nothing. *)
Theorem lookup_by_id_is_exact (turns : list (Oracle * Action))
    (opts : Options) (d : DOM) (now : N) (kind : CatalogKind) (id : N) :
  let w := play turns (Plugin.constructor opts d now) in
  match js_get (cache_of kind w) (pretty id) with
  | Own e => entity_id e = id
  | Undefined => cache_of kind w !! pretty id = None
  | Inherited _ => False
  end.
Proof.
  intros w.
  assert (Hk : keyed (networkCache w) /\ keyed (studioCache w)).
  { apply play_keyed; intros k e H; cbn in H; rewrite lookup_empty in H;
      discriminate H. }
  rewrite js_get_numeral.
  destruct (cache_of kind w !! pretty id) as [e|] eqn:E; [|reflexivity].
  assert (H : pretty id = cache_key e).
  { destruct kind; [apply (proj1 Hk)|apply (proj2 Hk)]; exact E. }
  symmetry. exact (pretty_N_inj _ _ H).
Qed.

(** ** Content pages *)

Lemma renderContentPage_found (kind : CatalogKind) (id : string) (o : Oracle) (w : World) :
  truthy (js_get (cache_of kind w) id) = true ->
  run (renderContentPage kind id) o w
  = (Returned tt,
     {| world := appended (ContentPage kind
                             (Plugin.content_header kind (js_get (cache_of kind w) id))
                             (page_items kind (o (content_request w kind id)))) w;
        trace := EvFetch (content_request w kind id) w
                 :: match page_exn (o (content_request w kind id)) with
                    | Some e => [EvConsole error_level (fetch_error_text kind id) (Some e)]
                    | None => []
                    end |}).
Proof.
  intros Hfound. unfold run, page_items, page_exn.
  destruct kind; cbn [cache_of] in Hfound.
  - unfold renderContentPage, Plugin.renderNetworkContentPage,
      ServerConnector.getNetworkContent.
    unfold bind at 1. cbn [get_world world]. rewrite Hfound. cbn [negb].
    unfold bind at 1, try_catch, bind at 1. rewrite makeRequest_run.
    cbn [world trace].
    change (api_request w ("/network/" +:+ id +:+ "/content") GET None)
      with (content_request w Network id).
    destruct (response_json (o (content_request w Network id))) as [[|l|m t]|];
      reflexivity.
  - unfold renderContentPage, Plugin.renderStudioContentPage,
      ServerConnector.getStudioContent.
    unfold bind at 1. cbn [get_world world]. rewrite Hfound. cbn [negb].
    unfold bind at 1, try_catch, bind at 1. rewrite makeRequest_run.
    cbn [world trace].
    change (api_request w ("/studio/" +:+ id +:+ "/content") GET None)
      with (content_request w Studio id).
    destruct (response_json (o (content_request w Studio id))) as [[|l|m t]|];
      reflexivity.
Qed.

(** X11.  When the content call of a detail page fails, the page is rendered
    all the same: the header of the entity followed by the one "Failed to
    load" message.  The failure is written to the console, exactly one
    request was sent, and nothing else in the state changes. *)
Theorem content_page_degrades (kind : CatalogKind) (id : string) (o : Oracle)
    (w : World) (cs : list ContainerChild) :
  truthy (js_get (cache_of kind w) id) = true ->
  content_container (dom w) = Some cs ->
  response_json (o (content_request w kind id)) = None ->
  run (renderContentPage kind id) o w
  = (Returned tt,
     {| world :=
          set_dom (set_content_container
                     (Some (cs ++ [ContentPage kind
                                     (Plugin.content_header kind
                                        (js_get (cache_of kind w) id))
                                     [ErrorMessage (failed_text kind)]]))
                     (dom w)) w;
        trace := [EvFetch (content_request w kind id) w;
                  EvConsole error_level (fetch_error_text kind id)
                    (Some (response_exn (o (content_request w kind id))))] |}).
Proof.
  intros Hfound Hcs Hfail. rewrite (renderContentPage_found _ _ _ _ Hfound).
  unfold page_items, page_exn, appended. rewrite Hfail, Hcs. reflexivity.
Qed.

Lemma content_page_degrades_witness :
  run (renderContentPage Network "1") Sample.all_down Sample.w_page
  = (Returned tt,
     {| world :=
          set_dom (set_content_container
                     (Some [Sample.page;
                            ContentPage Network
                              {| logo_src := "https://image.tmdb.org/t/p/w500/hbo.png";
                                 header_title := "HBO" |}
                              [ErrorMessage "Failed to load content for this network."]])
                     (dom Sample.w_page)) Sample.w_page;
        trace := [EvFetch (content_request Sample.w_page Network "1") Sample.w_page;
                  EvConsole error_level "Error fetching content for network 1:"
                    (Some FetchRejected)] |}).
Proof.
  exact (content_page_degrades Network "1" Sample.all_down Sample.w_page
           [Sample.page] eq_refl eq_refl eq_refl).
Defined.

Lemma section_cards (title : string) (group : option (list ContentItem)) :
  concat (map item_cards (Plugin.section_if_nonempty title group))
  = map Plugin.createContentCard (default [] group).
Proof.
  destruct group as [[|i l]|]; try reflexivity.
  cbn [Plugin.section_if_nonempty map concat item_cards Plugin.createContentSection].
  apply app_nil_r.
Qed.

(** X12.  When the content call of a detail page delivers an object, every
    delivered item gets exactly one card, in the order delivered, movies
    before series, after the cards already in the container; a group that is
    missing or empty contributes no card and no section. *)
Theorem content_page_cards (kind : CatalogKind) (id : string) (o : Oracle)
    (w : World) (cs : list ContainerChild) (m t : option (list ContentItem)) :
  truthy (js_get (cache_of kind w) id) = true ->
  content_container (dom w) = Some cs ->
  response_json (o (content_request w kind id)) = Some (JObject m t) ->
  document_cards (dom (final_world (run (renderContentPage kind id) o w)))
  = document_cards (dom w)
    ++ map Plugin.createContentCard (delivered_items (JObject m t)).
Proof.
  intros Hfound Hcs Hj. rewrite (renderContentPage_found _ _ _ _ Hfound).
  unfold final_world, page_items, appended. cbn [snd world]. rewrite Hj, Hcs.
  cbn [dom set_dom]. rewrite (document_cards_append _ _ _ Hcs). f_equal.
  cbn [child_cards delivered_items].
  rewrite !map_app, concat_app, !section_cards. reflexivity.
Qed.

Lemma content_page_cards_witness :
  document_cards
    (dom (final_world (run (renderContentPage Network "1") Sample.misfiled Sample.w_page)))
  = document_cards (dom Sample.w_page) ++ [Plugin.createContentCard Sample.dune_series].
Proof.
  exact (content_page_cards Network "1" Sample.misfiled Sample.w_page [Sample.page]
           (Some [Sample.dune_series]) (Some []) eq_refl eq_refl eq_refl).
Defined.

(** ** From a card to its page *)

Lemma renderCustomView_detail (path : string) (o : Oracle) (w : World)
    (cs : list ContainerChild) (kind : CatalogKind) (id : string) :
  content_container (dom w) = Some cs ->
  resolve path = match kind with
                 | Network => NetworkDetail id
                 | Studio => StudioDetail id
                 end ->
  run (Plugin.renderCustomView path) o w
  = run (renderContentPage kind id) o
      (set_dom (set_content_container (Some []) (dom w)) w).
Proof.
  intros Hcs Hr. unfold run, Plugin.renderCustomView.
  unfold bind at 1. cbn [get_world world]. rewrite Hcs.
  unfold bind at 1. cbn [Plugin.set_children modify world trace]. rewrite Hr.
  destruct kind; reflexivity.
Qed.

Lemma resolve_entity_card (kind : CatalogKind) (e : CatalogEntity) :
  resolve (ec_click (entity_card kind e))
  = match kind with
    | Network => NetworkDetail (cache_key e)
    | Studio => StudioDetail (cache_key e)
    end.
Proof.
  destruct kind; cbn [entity_card createNetworkCard createStudioCard ec_click].
  - unfold openNetworkContent. change "/jellyseerr/network/" with network_prefix.
    rewrite resolve_network. f_equal.
    apply pop_split_without_sep, all_digits_contains; [reflexivity|apply pretty_N_digits].
  - unfold openStudioContent. change "/jellyseerr/studio/" with studio_prefix.
    rewrite resolve_studio. f_equal.
    apply pop_split_without_sep, all_digits_contains; [reflexivity|apply pretty_N_digits].
Qed.

(** X13.  The path a network or studio card navigates to leads back to the
    entity the card was made from: when that entity is still cached under its
    id and the host reports the view change, the content container is
    replaced by the page of this very entity, and the one request sent asks
    for the content of its id. *)
Theorem card_opens_its_page (kind : CatalogKind) (e : CatalogEntity) (o : Oracle)
    (w : World) (cs : list ContainerChild) :
  cache_of kind w !! cache_key e = Some e ->
  content_container (dom w) = Some cs ->
  let r := run (Plugin.handleViewChange (ec_click (entity_card kind e))) o w in
  requests (final_trace r) = [content_request w kind (cache_key e)] /\
  content_container (dom (final_world r))
  = Some [ContentPage kind (Plugin.content_header kind (Own e))
            (page_items kind (o (content_request w kind (cache_key e))))].
Proof.
  intros He Hcs r. subst r.
  assert (Hv : JsString.startsWith (ec_click (entity_card kind e)) "/jellyseerr/" = true)
    by (destruct kind; reflexivity).
  unfold Plugin.handleViewChange. rewrite Hv.
  unfold run. rewrite not_awaited_returned.
  2:{ rewrite renderCustomView_result. unfold browse_rejects.
      rewrite (resolve_entity_card kind e).
      destruct (content_container _), kind; reflexivity. }
  fold (run (Plugin.renderCustomView (ec_click (entity_card kind e))) o w).
  rewrite (renderCustomView_detail _ o w cs kind (cache_key e) Hcs
             (resolve_entity_card kind e)).
  set (w1 := set_dom (set_content_container (Some []) (dom w)) w).
  assert (Hget : js_get (cache_of kind w1) (cache_key e) = Own e).
  { unfold js_get. replace (cache_of kind w1) with (cache_of kind w)
      by (destruct kind; reflexivity).
    now rewrite He. }
  rewrite renderContentPage_found by (rewrite Hget; reflexivity).
  rewrite Hget. unfold final_trace, final_world, appended. cbn [snd world trace].
  split.
  - cbn [requests]. destruct (page_exn _); reflexivity.
  - reflexivity.
Qed.

Lemma card_opens_its_page_witness :
  let r := run (Plugin.handleViewChange (ec_click (createNetworkCard Sample.hbo)))
             Sample.all_ok Sample.w_page in
  requests (final_trace r) = [content_request Sample.w_page Network "1"] /\
  content_container (dom (final_world r))
  = Some [ContentPage Network
            {| logo_src := "https://image.tmdb.org/t/p/w500/hbo.png";
               header_title := "HBO" |}
            [Plugin.createContentSection "Movies" [Sample.dune]]].
Proof.
  exact (card_opens_its_page Network Sample.hbo Sample.all_ok Sample.w_page
           [Sample.page] eq_refl eq_refl).
Defined.

(** ** The cards of the home sections *)

Section SelectCards.

Variable createCard : CatalogEntity -> EntityCard.
Hypothesis createCard_title :
  forall e, ec_title (createCard e) = default "" (entity_name e).

Lemma omap_name_cons (e : CatalogEntity) (values : list CatalogEntity) :
  omap entity_name (e :: values)
  = match entity_name e with
    | Some s => s :: omap entity_name values
    | None => omap entity_name values
    end.
Proof. reflexivity. Qed.

Lemma find_by_name_none (name : string) (values : list CatalogEntity) :
  List.find (has_name name) values = None <->
  existsb (String.eqb name) (omap entity_name values) = false.
Proof.
  induction values as [|e values IH]; [cbn; tauto|].
  rewrite omap_name_cons. cbn [List.find]. unfold has_name at 1.
  destruct (entity_name e) as [s|]; [|exact IH].
  cbn [existsb]. rewrite (String.eqb_sym name).
  destruct (String.eqb s name); cbn [orb].
  - split; discriminate.
  - exact IH.
Qed.

Lemma select_cards_titles (names : list string) (values : list CatalogEntity) :
  map ec_title (select_cards createCard names values)
  = List.filter (fun name => existsb (String.eqb name) (omap entity_name values)) names.
Proof.
  unfold select_cards.
  induction names as [|name names IH]; [reflexivity|].
  cbn [flat_map List.filter]. rewrite map_app, IH.
  destruct (List.find _ values) as [e|] eqn:E.
  - assert (Hx : existsb (String.eqb name) (omap entity_name values) = true).
    { destruct (existsb _ _) eqn:Hx; [reflexivity|].
      apply find_by_name_none in Hx. congruence. }
    rewrite Hx. apply find_some in E as [_ E]. unfold has_name in E.
    cbn [map app]. rewrite createCard_title.
    destruct (entity_name e) as [s|]; [|discriminate E].
    apply String.eqb_eq in E. now rewrite E.
  - apply find_by_name_none in E. rewrite E. reflexivity.
Qed.

Lemma find_by_name_unique (name : string) (values : list CatalogEntity)
    (e : CatalogEntity) :
  NoDup (omap entity_name values) -> In e values -> entity_name e = Some name ->
  List.find (has_name name) values = Some e.
Proof.
  intros Hnd Hin Hname. induction values as [|x values IH]; [contradiction|].
  rewrite omap_name_cons in Hnd. cbn [List.find]. destruct Hin as [->|Hin].
  - unfold has_name. rewrite Hname, String.eqb_refl. reflexivity.
  - unfold has_name at 1. destruct (entity_name x) as [s|] eqn:Hs; [|exact (IH Hnd Hin)].
    apply NoDup_cons in Hnd as [Hx Hnd].
    destruct (String.eqb_spec s name) as [Heq|_]; [|exact (IH Hnd Hin)].
    exfalso. apply Hx. rewrite Heq. apply list_elem_of_omap.
    exists e. split; [apply list_elem_of_In, Hin|exact Hname].
Qed.

Lemma find_by_name_perm (name : string) (values values' : list CatalogEntity) :
  values ≡ₚ values' -> NoDup (omap entity_name values) ->
  List.find (has_name name) values = List.find (has_name name) values'.
Proof.
  intros Hp Hnd.
  pose proof (omap_Permutation entity_name _ _ Hp) as Hm.
  assert (Hnd' : NoDup (omap entity_name values')) by (rewrite <- Hm; exact Hnd).
  assert (Hex : existsb (String.eqb name) (omap entity_name values)
                = existsb (String.eqb name) (omap entity_name values')).
  { destruct (existsb _ (omap entity_name values')) eqn:Hx.
    - apply existsb_exists in Hx as (x & Hx & Heq).
      apply existsb_exists. exists x. split; [|exact Heq].
      apply list_elem_of_In. rewrite Hm. apply list_elem_of_In, Hx.
    - destruct (existsb _ (omap entity_name values)) eqn:Hy; [|reflexivity].
      apply existsb_exists in Hy as (x & Hy & Heq).
      assert (Ht : existsb (String.eqb name) (omap entity_name values') = true).
      { apply existsb_exists. exists x. split; [|exact Heq].
        apply list_elem_of_In. rewrite <- Hm. apply list_elem_of_In, Hy. }
      congruence. }
  destruct (List.find _ values) as [e|] eqn:E.
  - apply find_some in E as [Hin Heq]. unfold has_name in Heq.
    destruct (entity_name e) as [s|] eqn:Hs; [|discriminate Heq].
    apply String.eqb_eq in Heq. subst s.
    symmetry. apply find_by_name_unique; [exact Hnd'| |exact Hs].
    apply list_elem_of_In. rewrite <- Hp. apply list_elem_of_In, Hin.
  - symmetry. apply find_by_name_none. rewrite <- Hex.
    apply find_by_name_none, E.
Qed.

Lemma select_cards_perm (names : list string) (values values' : list CatalogEntity) :
  values ≡ₚ values' -> NoDup (omap entity_name values) ->
  select_cards createCard names values = select_cards createCard names values'.
Proof.
  intros Hp Hnd. unfold select_cards.
  induction names as [|name names IH]; [reflexivity|].
  cbn [flat_map]. now rewrite IH, (find_by_name_perm name _ _ Hp Hnd).
Qed.

End SelectCards.

(** X14.  The home section shows the configured names in the configured
    order and nothing else: one card per occurrence of a name that some
    cached entity carries, none for a name no entity carries, whatever else
    the cache holds, entities without a name included. *)
Theorem home_cards_follow_the_configuration (names : list string)
    (values : list CatalogEntity) :
  map ec_title (select_cards createNetworkCard names values)
  = List.filter (fun name => existsb (String.eqb name) (omap entity_name values)) names /\
  map ec_title (select_cards createStudioCard names values)
  = List.filter (fun name => existsb (String.eqb name) (omap entity_name values)) names.
Proof. split; apply select_cards_titles; reflexivity. Qed.

(** X15.  When the cached entities that have a name have pairwise different
    names, the home section does not depend on the order in which the cache
    is enumerated. *)
Theorem home_cards_ignore_enumeration_order (kind : CatalogKind) (names : list string)
    (values values' : list CatalogEntity) :
  values ≡ₚ values' ->
  NoDup (omap entity_name values) ->
  select_cards (entity_card kind) names values
  = select_cards (entity_card kind) names values'.
Proof. apply select_cards_perm. Qed.

Lemma home_cards_ignore_enumeration_order_witness :
  select_cards createNetworkCard ["HBO"] [Sample.hbo; Sample.netflix]
  = select_cards createNetworkCard ["HBO"] [Sample.netflix; Sample.hbo] /\
  select_cards createNetworkCard ["HBO"] [Sample.netflix; Sample.hbo]
  = [createNetworkCard Sample.hbo].
Proof.
  split; [|reflexivity].
  apply (home_cards_ignore_enumeration_order Network ["HBO"]
           [Sample.hbo; Sample.netflix] [Sample.netflix; Sample.hbo]).
  - apply Permutation_swap.
  - apply NoDup_ListNoDup. repeat constructor; simpl; intuition discriminate.
Defined.

(** With two entities of one name, the first one enumerated is shown. *)
Example home_cards_same_name :
  let twin := {| entity_id := 3; entity_name := Some "HBO"; logoPath := None |} in
  select_cards createNetworkCard ["HBO"] [Sample.hbo; twin] = [createNetworkCard Sample.hbo] /\
  select_cards createNetworkCard ["HBO"] [twin; Sample.hbo] = [createNetworkCard twin].
Proof. split; reflexivity. Qed.

(** ** Submissions, one after the other *)

Lemma requestContent_cards (item : ContentItem) (o : Oracle) (w : World) :
  document_cards (dom (perform o (DoSubmit item) w))
  = if succeeded (o (submit_request w item))
    then map (Plugin.update_card item) (document_cards (dom w))
    else document_cards (dom w).
Proof.
  cbn [perform handler]. destruct (succeeded (o (submit_request w item))) eqn:E.
  - rewrite (requestContent_success _ _ _ E). unfold final_world.
    cbn [snd world dom set_dom]. rewrite document_cards_map_cards. reflexivity.
  - rewrite (requestContent_failure _ _ _ E). reflexivity.
Qed.

Lemma requestContent_connector (item : ContentItem) (o : Oracle) (w : World) :
  serverConnector (perform o (DoSubmit item) w) = serverConnector w.
Proof.
  cbn [perform handler]. destruct (succeeded (o (submit_request w item))) eqn:E.
  - rewrite (requestContent_success _ _ _ E). reflexivity.
  - rewrite (requestContent_failure _ _ _ E). reflexivity.
Qed.

Lemma submit_request_connector (w w' : World) (item : ContentItem) :
  serverConnector w' = serverConnector w ->
  submit_request w' item = submit_request w item.
Proof. intros H. unfold submit_request, api_request. now rewrite H. Qed.

Lemma update_card_comm (i j : ContentItem) (c : Card) :
  Plugin.update_card i (Plugin.update_card j c)
  = Plugin.update_card j (Plugin.update_card i c).
Proof.
  unfold Plugin.update_card.
  destruct (Plugin.selects i c) eqn:Ei, (Plugin.selects j c) eqn:Ej;
    rewrite ?selects_mark_requested, ?Ei, ?Ej; reflexivity.
Qed.

Lemma update_card_idem (i : ContentItem) (c : Card) :
  Plugin.update_card i (Plugin.update_card i c) = Plugin.update_card i c.
Proof.
  unfold Plugin.update_card.
  destruct (Plugin.selects i c) eqn:Ei; rewrite ?selects_mark_requested, Ei;
    [|reflexivity].
  unfold Plugin.mark_requested; cbn. destruct (card_badge c); reflexivity.
Qed.

(** X16.  What two submissions leave on the cards does not depend on their
    order, whatever the service answers to each of them.  Two submissions of
    one item leave the cards as a single successful one does if either of
    them succeeds, and as they were if both fail; so once a submission has
    succeeded, another one of the same item changes no card, whatever its
    outcome. *)
Theorem submissions_compose (o1 o2 : Oracle) (i j : ContentItem) (w : World) :
  document_cards (dom (play [(o1, DoSubmit i); (o2, DoSubmit j)] w))
  = document_cards (dom (play [(o2, DoSubmit j); (o1, DoSubmit i)] w)) /\
  document_cards (dom (play [(o1, DoSubmit i); (o2, DoSubmit i)] w))
  = (if succeeded (o1 (submit_request w i)) || succeeded (o2 (submit_request w i))
     then map (Plugin.update_card i) (document_cards (dom w))
     else document_cards (dom w)) /\
  (succeeded (o1 (submit_request w i)) = true ->
   document_cards (dom (play [(o1, DoSubmit i); (o2, DoSubmit i)] w))
   = document_cards (dom (play [(o1, DoSubmit i)] w))).
Proof.
  cbn [play fold_left fst snd].
  rewrite !requestContent_cards.
  rewrite !(submit_request_connector w _ _ (requestContent_connector _ o1 w)).
  rewrite !(submit_request_connector w _ _ (requestContent_connector _ o2 w)).
  split; [|split].
  - destruct (succeeded (o1 (submit_request w i))), (succeeded (o2 (submit_request w j)));
      rewrite ?map_map; try reflexivity.
    apply map_ext. intros c. apply update_card_comm.
  - destruct (succeeded (o1 (submit_request w i))), (succeeded (o2 (submit_request w i)));
      cbn [orb]; rewrite ?map_map; try reflexivity.
    apply map_ext. intros c. apply update_card_idem.
  - intros ->. destruct (succeeded (o2 (submit_request w i)));
      rewrite ?map_map; try reflexivity.
    apply map_ext. intros c. apply update_card_idem.
Qed.

(** A submission that fails and the same one succeeding afterwards: the
    second changes the cards. *)
Example submission_retried :
  let turns := [(Sample.all_down, DoSubmit Sample.dune); (Sample.all_ok, DoSubmit Sample.dune)] in
  document_cards (dom (play [(Sample.all_down, DoSubmit Sample.dune)] Sample.w_page))
  = document_cards (dom Sample.w_page) /\
  Forall shows_requested (representations Sample.dune (dom (play turns Sample.w_page))).
Proof. split; [reflexivity|]. repeat constructor. Qed.

(** X17.  Nothing remembers a submission: submitting the same item again
    sends the same [POST] again and adds one more notification, also when
    the first submission succeeded and the cards already show "Requested". *)
Theorem resubmission_is_not_prevented (o : Oracle) (item : ContentItem) (w : World) :
  let w1 := perform o (DoSubmit item) w in
  let w2 := perform o (DoSubmit item) w1 in
  requests (final_trace (run (Plugin.requestContent item) o w))
  = [submit_request w item] /\
  requests (final_trace (run (Plugin.requestContent item) o w1))
  = [submit_request w item] /\
  length (default [] (notif_container (dom w2)))
  = S (S (length (default [] (notif_container (dom w))))).
Proof.
  intros w1 w2. subst w2.
  assert (Hc : serverConnector w1 = serverConnector w)
    by apply requestContent_connector.
  assert (Hstep : forall w0,
             requests (final_trace (run (Plugin.requestContent item) o w0))
             = [submit_request w0 item] /\
             length (default [] (notif_container (dom (perform o (DoSubmit item) w0))))
             = S (length (default [] (notif_container (dom w0))))).
  { intros w0. cbn [perform handler].
    destruct (succeeded (o (submit_request w0 item))) eqn:E.
    - rewrite (requestContent_success _ _ _ E). split; [reflexivity|].
      unfold final_world. cbn. rewrite length_app. cbn. lia.
    - rewrite (requestContent_failure _ _ _ E). split; [reflexivity|].
      unfold final_world. cbn. rewrite length_app. cbn. lia. }
  destruct (Hstep w) as [H1 H2]. destruct (Hstep w1) as [H3 H4].
  fold w1 in H2. rewrite (submit_request_connector w w1 item Hc) in H3.
  split; [exact H1|]. split; [exact H3|]. rewrite H4, H2. reflexivity.
Qed.

(** X18.  A successful submission appends exactly one notification, of
    severity [success], whose message carries the item's display name, and
    writes nothing to the console. *)
Theorem submit_success_notifies (item : ContentItem) (o : Oracle) (w : World) :
  succeeded (o (submit_request w item)) = true ->
  let r := run (Plugin.requestContent item) o w in
  notif_container (dom (final_world r))
  = Some (default [] (notif_container (dom w)) ++
          [new_notification "Success" (display_name item +:+ " has been requested.")
             success w]) /\
  final_trace r = [EvFetch (submit_request w item) w].
Proof.
  intros Hok r. subst r. rewrite (requestContent_success _ _ _ Hok).
  split; reflexivity.
Qed.

Lemma submit_success_notifies_witness :
  let r := run (Plugin.requestContent Sample.dune_series) Sample.all_ok Sample.w_page in
  notif_container (dom (final_world r))
  = Some [new_notification "Success" "Dune: Prophecy has been requested." success
            Sample.w_page] /\
  final_trace r = [EvFetch (submit_request Sample.w_page Sample.dune_series) Sample.w_page].
Proof.
  exact (submit_success_notifies Sample.dune_series Sample.all_ok Sample.w_page eq_refl).
Defined.

(** ** Invariants of a session *)

Section SessionInvariant.

Variable J : World -> Prop.
Hypothesis J_background : background J.
Hypothesis J_options : forall w o, J w -> J (set_options o w).
Hypothesis J_notify :
  forall w title message type, J w -> J (Plugin.add_notification title message type w).
Hypothesis J_advance : forall w T, J w -> J (EventLoop.advance T w).

Lemma perform_invariant (o : Oracle) (a : Action) (w : World) :
  J w -> J (perform o a w).
Proof.
  intros Hw. destruct a as [|item|view|settings|until]; cbn [perform handler].
  - destruct (preserves_refreshData J J_background o {| world := w; trace := [] |} Hw)
      as (_ & _ & _ & H). exact H.
  - destruct (succeeded (o (submit_request w item))) eqn:E.
    + rewrite (requestContent_success _ _ _ E). unfold final_world. cbn [snd world].
      unfold Plugin.map_cards. apply (J_background _ (J_notify _ _ _ _ Hw)).
    + rewrite (requestContent_failure _ _ _ E). apply J_notify, Hw.
  - destruct (preserves_handleViewChange J J_background view o
                {| world := w; trace := [] |} Hw) as (_ & _ & _ & H). exact H.
  - destruct (preserves_onSave J J_background J_options settings o
                {| world := w; trace := [] |} Hw) as (_ & _ & _ & H). exact H.
  - apply J_advance, Hw.
Qed.

Lemma play_invariant (turns : list (Oracle * Action)) (w : World) :
  J w -> J (play turns w).
Proof.
  revert w. induction turns as [|[o a] turns IH]; intros w Hw; [exact Hw|].
  cbn [play fold_left fst snd]. apply IH, perform_invariant, Hw.
Qed.

End SessionInvariant.

(** ** The notification list stays tidy *)

Lemma nodes_fade (j : N) (l : list Notification) :
  map node (map (EventLoop.add_fade_out j) l) = map node l.
Proof.
  induction l as [|n l IH]; [reflexivity|].
  cbn [map]. now rewrite node_add_fade_out, IH.
Qed.

Lemma sorted_filter (p : Notification -> bool) (l : list Notification) :
  StronglySorted N.lt (map node l) ->
  StronglySorted N.lt (map node (List.filter p l)).
Proof.
  induction l as [|n l IH]; cbn [map List.filter]; [trivial|].
  intros H. apply StronglySorted_inv in H as [Hl Hn].
  destruct (p n); [|exact (IH Hl)].
  cbn [map]. constructor; [exact (IH Hl)|].
  rewrite Forall_forall in Hn. apply Forall_forall. intros x Hx.
  apply Hn. apply list_elem_of_In in Hx. apply list_elem_of_In.
  apply in_map_iff in Hx as (y & <- & Hy). apply filter_In in Hy as [Hy _].
  apply in_map, Hy.
Qed.

Lemma sorted_snoc (l : list N) (x : N) :
  StronglySorted N.lt l -> Forall (fun y => y < x) l -> StronglySorted N.lt (l ++ [x]).
Proof.
  induction l as [|y l IH]; cbn [app]; intros Hs Hx.
  - repeat constructor.
  - apply StronglySorted_inv in Hs as [Hs Hy]. apply Forall_cons in Hx as [Hyx Hx].
    constructor; [exact (IH Hs Hx)|]. apply Forall_app. split; [exact Hy|].
    repeat constructor. exact Hyx.
Qed.

Lemma fire_nodes_ordered (a : TimerAction) (w : World) :
  ordered w -> ordered (EventLoop.fire a w).
Proof.
  unfold ordered, nodes. intros H.
  destruct a as [j|j]; cbn [EventLoop.fire dom set_dom set_timers notif_container
                             set_notif_container];
    destruct (notif_container (dom w)) as [l|]; simpl in *; try exact H.
  - rewrite nodes_fade. exact H.
  - apply sorted_filter, H.
Qed.

Lemma run_timers_ordered (fuel : nat) (T : N) (w : World) :
  ordered w -> ordered (EventLoop.run_timers fuel T w).
Proof.
  revert w. induction fuel as [|fuel IH]; intros w Hw; [exact Hw|].
  cbn [EventLoop.run_timers].
  destruct (EventLoop.pick (timers w)) as [[m rest]|]; [|exact Hw].
  destruct (due m <=? T); [|exact Hw].
  apply IH, fire_nodes_ordered. exact Hw.
Qed.

Lemma add_notification_ordered (title message : string) (type : Severity) (w : World) :
  fresh w -> ordered w -> ordered (Plugin.add_notification title message type w).
Proof.
  intros [Hn _] Ho. unfold ordered, nodes in *.
  cbn [Plugin.add_notification dom set_next_node set_timers set_dom notif_container
       set_notif_container]. simpl.
  rewrite map_app. apply sorted_snoc; [exact Ho|].
  cbn [map node]. apply Forall_forall. intros y Hy.
  apply list_elem_of_In, in_map_iff in Hy as (n & <- & Hin).
  rewrite Forall_forall in Hn. apply Hn, list_elem_of_In, Hin.
Qed.

Lemma run_timers_idle (fuel : nat) (T : N) (w : World) :
  settled w -> T < clock w -> EventLoop.run_timers fuel T w = w.
Proof.
  intros Hs HT. destruct fuel as [|fuel]; [reflexivity|].
  cbn [EventLoop.run_timers].
  destruct (EventLoop.pick (timers w)) as [[m rest]|] eqn:Hp; [|reflexivity].
  destruct (pick_Some _ _ _ Hp) as (l1 & l2 & Hts & _ & _).
  unfold settled in Hs. rewrite Hts in Hs.
  apply Forall_app in Hs as [_ Hs]. apply Forall_cons in Hs as [Hm _].
  destruct (N.leb_spec (due m) T); [lia|reflexivity].
Qed.

Lemma advance_settled (T : N) (w : World) : settled w -> settled (EventLoop.advance T w).
Proof.
  intros Hs. unfold EventLoop.advance. destruct (N.lt_ge_cases T (clock w)) as [HT|HT].
  - rewrite (run_timers_idle _ _ _ Hs HT). unfold settled in *.
    cbn [clock timers set_clock]. rewrite N.max_l by lia. exact Hs.
  - pose proof (run_timers_clock (EventLoop.total_weight (timers w)) T w HT) as Hc.
    pose proof (run_timers_done (EventLoop.total_weight (timers w)) T w (le_n _)) as Hd.
    unfold settled. cbn [clock timers set_clock]. rewrite N.max_r by exact Hc.
    exact Hd.
Qed.

Lemma covered_step (w : World) (m : Timer) (rest : list Timer) (c : N) :
  covered w ->
  EventLoop.pick (timers w) = Some (m, rest) ->
  covered (EventLoop.fire (action m) (set_clock c (set_timers rest w))).
Proof.
  intros Hc Hp. destruct (pick_Some _ _ _ Hp) as (l1 & l2 & Hts & -> & _).
  unfold covered in *. rewrite Hts in Hc.
  assert (Hkeep : forall n : Notification,
             Exists (fun tm => target_of (action tm) = node n) (l1 ++ m :: l2) ->
             target_of (action m) <> node n ->
             Exists (fun tm => target_of (action tm) = node n) (l1 ++ l2)).
  { intros n Hn Hne. apply Exists_app in Hn as [Hn|Hn]; apply Exists_app;
      [left; exact Hn|right].
    apply Exists_cons in Hn as [Hn|Hn]; [contradiction|exact Hn]. }
  destruct (action m) as [j|j] eqn:Ha;
    cbn [EventLoop.fire dom timers set_dom set_timers set_clock notif_container
         set_notif_container target_of] in *;
    destruct (notif_container (dom w)) as [l|]; simpl in *; try constructor.
  - induction Hc as [|n l Hn _ IH]; cbn [map]; constructor; [|exact IH].
    rewrite node_add_fade_out. apply Exists_app.
    destruct (N.eq_dec j (node n)) as [Hj|Hj].
    + right. constructor. exact Hj.
    + left. apply Hkeep; assumption.
  - induction Hc as [|n l Hn _ IH]; cbn [List.filter]; [constructor|].
    destruct (N.eqb_spec (node n) j) as [Hj|Hj]; cbn [negb]; [exact IH|].
    constructor; [|exact IH]. apply Hkeep; [exact Hn|congruence].
Qed.

Lemma run_timers_covered (fuel : nat) (T : N) (w : World) :
  covered w -> covered (EventLoop.run_timers fuel T w).
Proof.
  revert w. induction fuel as [|fuel IH]; intros w Hw; [exact Hw|].
  cbn [EventLoop.run_timers].
  destruct (EventLoop.pick (timers w)) as [[m rest]|] eqn:Hp; [|exact Hw].
  destruct (due m <=? T); [|exact Hw].
  apply IH, covered_step; assumption.
Qed.

Lemma horizon_step (w : World) (m : Timer) (rest : list Timer) :
  within (clock w + Plugin.display_duration + Plugin.exit_duration) w ->
  EventLoop.pick (timers w) = Some (m, rest) ->
  let w' := EventLoop.fire (action m)
              (set_clock (N.max (clock w) (due m)) (set_timers rest w)) in
  within (clock w' + Plugin.display_duration + Plugin.exit_duration) w'.
Proof.
  intros Hb Hp w'. subst w'.
  destruct (pick_Some _ _ _ Hp) as (l1 & l2 & Hts & -> & _).
  unfold within in *. rewrite Hts in Hb. rewrite clock_fire. cbn [clock set_clock].
  apply Forall_app in Hb as [H1 H2]. apply Forall_cons in H2 as [_ H2].
  assert (Hrest : Forall (fun tm => due tm + remaining tm
                                    <= N.max (clock w) (due m) + Plugin.display_duration
                                       + Plugin.exit_duration) (l1 ++ l2)).
  { apply Forall_app. split; (eapply Forall_impl; [eassumption|]);
      simpl; intros x Hx; lia. }
  destruct (action m) as [j|j];
    cbn [EventLoop.fire timers set_timers set_dom set_clock clock]; [|exact Hrest].
  apply Forall_app. split; [exact Hrest|]. repeat constructor.
  unfold remaining, Plugin.display_duration, Plugin.exit_duration. cbn [due action]. lia.
Qed.

Lemma run_timers_horizon (fuel : nat) (T : N) (w : World) :
  within (clock w + Plugin.display_duration + Plugin.exit_duration) w ->
  let w' := EventLoop.run_timers fuel T w in
  within (clock w' + Plugin.display_duration + Plugin.exit_duration) w'.
Proof.
  revert w. induction fuel as [|fuel IH]; intros w Hw; [exact Hw|].
  cbn [EventLoop.run_timers].
  destruct (EventLoop.pick (timers w)) as [[m rest]|] eqn:Hp; [|exact Hw].
  destruct (due m <=? T); [|exact Hw].
  apply IH, horizon_step; assumption.
Qed.

Lemma advance_tidy (w : World) (T : N) : tidy w -> tidy (EventLoop.advance T w).
Proof.
  intros (Hf & Ho & Hs & Hc & Hb). repeat split.
  - apply (advance_fresh T w Hf).
  - apply (advance_fresh T w Hf).
  - exact (run_timers_ordered _ T w Ho).
  - apply advance_settled, Hs.
  - exact (run_timers_covered _ T w Hc).
  - pose proof (run_timers_horizon (EventLoop.total_weight (timers w)) T w Hb) as H.
    unfold EventLoop.advance, within in *. cbn [timers clock set_clock].
    eapply Forall_impl; [exact H|]. simpl. intros x Hx. lia.
Qed.

Lemma add_notification_tidy (w : World) (title message : string) (type : Severity) :
  tidy w -> tidy (Plugin.add_notification title message type w).
Proof.
  intros (Hf & Ho & Hs & Hc & Hb). split; [apply add_notification_fresh, Hf|].
  split; [apply add_notification_ordered; assumption|].
  unfold settled, covered, within in *.
  cbn [Plugin.add_notification dom timers clock set_next_node set_timers set_dom
       notif_container set_notif_container]. simpl.
  repeat split.
  - apply Forall_app. split; [exact Hs|]. repeat constructor.
    unfold Plugin.display_duration. cbn [due]. lia.
  - apply Forall_app. split.
    + eapply Forall_impl; [exact Hc|]. simpl. intros n Hn.
      apply Exists_app. left. exact Hn.
    + repeat constructor. apply Exists_app. right. constructor. reflexivity.
  - apply Forall_app. split; [exact Hb|]. repeat constructor.
    unfold remaining. cbn [due action]. lia.
Qed.

Lemma tidy_background : background tidy.
Proof. intros w H. repeat split; intros; apply H. Qed.

Lemma constructor_tidy (o : Options) (d : DOM) (now : N) :
  notif_container d = None -> tidy (Plugin.constructor o d now).
Proof.
  intros H. unfold tidy, fresh, ordered, nodes, settled, covered, within.
  cbn [Plugin.constructor dom timers]. rewrite H. simpl. repeat split; constructor.
Qed.

Lemma play_tidy (turns : list (Oracle * Action)) (w : World) :
  tidy w -> tidy (play turns w).
Proof.
  apply play_invariant.
  - apply tidy_background.
  - intros w0 o H. exact H.
  - intros w0 title message type. apply add_notification_tidy.
  - intros w0 T. apply advance_tidy.
Qed.

(** X19.  From a fresh plugin on, through any session, the notification list
    is in order of creation, without repetition: a notification is appended
    below the older ones and the timers remove elements without reordering
    the rest. *)
Theorem notifications_stay_in_creation_order (turns : list (Oracle * Action))
    (opts : Options) (d : DOM) (now : N) :
  notif_container d = None ->
  StronglySorted N.lt (nodes (play turns (Plugin.constructor opts d now))).
Proof.
  intros H. apply (play_tidy turns _ (constructor_tidy opts d now H)).
Qed.

Lemma notifications_stay_in_creation_order_witness :
  nodes (play [(Sample.all_down, DoSubmit Sample.dune); (Sample.all_ok, DoSubmit Sample.heat);
               (Sample.all_ok, DoWait 6000); (Sample.all_ok, DoSubmit Sample.dune)]
           Sample.w0) = [0; 1; 2] /\
  StronglySorted N.lt [0; 1; 2].
Proof.
  split; [reflexivity|].
  exact (notifications_stay_in_creation_order
           [(Sample.all_down, DoSubmit Sample.dune); (Sample.all_ok, DoSubmit Sample.heat);
            (Sample.all_ok, DoWait 6000); (Sample.all_ok, DoSubmit Sample.dune)]
           Sample.opts Sample.empty_dom 1000 eq_refl).
Defined.

(** ** Every notification keeps its schedule *)

Lemma find_snoc_other (id : N) (l : list Notification) (n' : Notification) :
  node n' <> id ->
  List.find (fun n => N.eqb (node n) id) (l ++ [n'])
  = List.find (fun n => N.eqb (node n) id) l.
Proof.
  intros Hne. induction l as [|x l IH]; cbn [app List.find].
  - destruct (N.eqb_spec (node n') id); [contradiction|reflexivity].
  - destruct (N.eqb (node x) id); [reflexivity|exact IH].
Qed.

Lemma lifecycle_add_notification (n : Notification) (t : N)
    (title message : string) (type : Severity) (w : World) :
  node n < next_node w ->
  lifecycle n t w ->
  lifecycle n t (Plugin.add_notification title message type w).
Proof.
  intros Hn Hl.
  assert (Hlook : EventLoop.lookup_notification (node n)
                    (Plugin.add_notification title message type w)
                  = EventLoop.lookup_notification (node n) w).
  { unfold EventLoop.lookup_notification.
    cbn [Plugin.add_notification dom set_next_node set_timers set_dom notif_container
         set_notif_container].
    destruct (notif_container (dom w)) as [l|]; simpl.
    - apply find_snoc_other. cbn [node]. lia.
    - destruct (N.eqb_spec (next_node w) (node n)); [lia|reflexivity]. }
  assert (Hown : own_timers (node n) (Plugin.add_notification title message type w)
                 = own_timers (node n) w).
  { unfold own_timers.
    cbn [Plugin.add_notification timers set_next_node set_timers].
    rewrite List.filter_app. cbn [List.filter]. unfold targets at 2.
    cbn [action target_of]. destruct (N.eqb_spec (next_node w) (node n)); [lia|].
    apply app_nil_r. }
  unfold lifecycle, displayed, leaving, removed in *. rewrite Hlook, Hown.
  exact Hl.
Qed.

Lemma lifecycle_advance (n : Notification) (t : N) (T : N) (w : World) :
  lifecycle n t w -> lifecycle n t (EventLoop.advance T w).
Proof.
  intros Hl. unfold EventLoop.advance.
  set (w' := EventLoop.run_timers (EventLoop.total_weight (timers w)) T w).
  assert (Hl' : lifecycle n t w') by (apply run_timers_lifecycle, Hl).
  pose proof (run_timers_done (EventLoop.total_weight (timers w)) T w (le_n _)) as Hd.
  fold w' in Hd.
  destruct Hl' as [(Hf & Ho & Hk)|[(Hf & Ho & Hk)|(Hf & Ho & Hk)]].
  - left. repeat split; [exact Hf|exact Ho|]. cbn [clock set_clock].
    assert (HT : T < t + Plugin.display_duration).
    { rewrite Forall_forall in Hd.
      assert (Hin : In {| due := t + Plugin.display_duration;
                          action := AddFadeOut (node n) |} (timers w')).
      { apply (proj1 (List.filter_In (targets (node n)) _ (timers w'))).
        unfold own_timers in Ho. rewrite Ho. left. reflexivity. }
      apply list_elem_of_In in Hin. apply Hd in Hin. exact Hin. }
    lia.
  - right; left. repeat split; [exact Hf|exact Ho|]. cbn [clock set_clock]. lia.
  - right; right. repeat split; [exact Hf|exact Ho|]. cbn [clock set_clock]. lia.
Qed.

Lemma scheduled_play (n : Notification) (t : N) (turns : list (Oracle * Action))
    (w : World) :
  scheduled n t w -> scheduled n t (play turns w).
Proof.
  apply play_invariant.
  - intros w0 H. repeat split; intros; apply H.
  - intros w0 o H. exact H.
  - intros w0 title message type (Ht & Hn & Hl). split; [apply add_notification_tidy, Ht|].
    split; [cbn; lia|]. apply lifecycle_add_notification; assumption.
  - intros w0 T (Ht & Hn & Hl). split; [apply advance_tidy, Ht|].
    split; [|apply lifecycle_advance, Hl].
    refine (advance_background (fun s => node n < next_node s) _ _ _ T w0 Hn);
      intros; assumption.
Qed.

(** In a settled state the clock tells the phase of a notification. *)
Lemma scheduled_phase (n : Notification) (t : N) (w : World) :
  scheduled n t w ->
  (clock w < t + 5000 -> EventLoop.lookup_notification (node n) w = Some n) /\
  (t + 5000 <= clock w -> clock w < t + 5500 ->
   EventLoop.lookup_notification (node n) w = Some (fading n)) /\
  (t + 5500 <= clock w -> EventLoop.lookup_notification (node n) w = None).
Proof.
  intros ((_ & _ & Hs & _) & _ & Hl).
  assert (Hpending : forall x, own_timers (node n) w = [x] -> clock w < due x).
  { intros x Hx. unfold settled in Hs. rewrite Forall_forall in Hs.
    apply Hs, list_elem_of_In.
    apply (proj1 (List.filter_In (targets (node n)) x (timers w))).
    unfold own_timers in Hx. rewrite Hx. left. reflexivity. }
  destruct Hl as [(Hf & Ho & Hk)|[(Hf & Ho & Hk)|(Hf & Ho & Hk)]];
    try (apply Hpending in Ho; cbn [due] in Ho);
    unfold Plugin.display_duration, Plugin.exit_duration in *;
    repeat split; intros; first [exact Hf | lia].
Qed.

(** X20.  Every notification keeps its own schedule, whatever happens around
    it.  Shown at instant [t] in a session of a fresh plugin, it is in the
    list and not fading whenever the clock reads less than [t + 5000], in the
    list and fading from [t + 5000] until before [t + 5500], and out of the
    list from [t + 5500] on, through any further refreshes, view changes,
    submissions (with their own notifications), saves and waits. *)
Theorem notifications_are_independent (before after : list (Oracle * Action))
    (opts : Options) (d : DOM) (now : N)
    (title message : string) (type : Severity) (o : Oracle) :
  notif_container d = None ->
  let w := play before (Plugin.constructor opts d now) in
  let n := new_notification title message type w in
  let w' := play after
              (final_world (run (Plugin.showNotification title message type) o w)) in
  (clock w' < clock w + 5000 -> EventLoop.lookup_notification (node n) w' = Some n) /\
  (clock w + 5000 <= clock w' -> clock w' < clock w + 5500 ->
   EventLoop.lookup_notification (node n) w' = Some (fading n)) /\
  (clock w + 5500 <= clock w' -> EventLoop.lookup_notification (node n) w' = None).
Proof.
  intros Hd w n w'.
  assert (Hw : tidy w) by (apply play_tidy, constructor_tidy, Hd).
  apply scheduled_phase. subst w'. apply scheduled_play.
  change (final_world (run (Plugin.showNotification title message type) o w))
    with (Plugin.add_notification title message type w).
  split; [apply add_notification_tidy, Hw|]. split; [cbn; lia|].
  left. apply add_notification_displayed, Hw.
Qed.

Lemma notifications_are_independent_witness :
  let w := play [(Sample.all_down, DoSubmit Sample.dune)] Sample.w0 in
  let n := new_notification "Hello" "there" info w in
  let later := [(Sample.all_ok, DoWait 3000); (Sample.all_ok, DoSubmit Sample.heat);
                (Sample.all_down, DoRefresh); (Sample.all_ok, DoWait 6200)] in
  let w' := play later
              (final_world (run (Plugin.showNotification "Hello" "there" info)
                              Sample.all_ok w)) in
  clock w = 1000 /\ clock w' = 6200 /\
  EventLoop.lookup_notification (node n) w' = Some (fading n).
Proof.
  split; [reflexivity|]. split; [reflexivity|].
  apply (notifications_are_independent [(Sample.all_down, DoSubmit Sample.dune)]
           [(Sample.all_ok, DoWait 3000); (Sample.all_ok, DoSubmit Sample.heat);
            (Sample.all_down, DoRefresh); (Sample.all_ok, DoWait 6200)]
           Sample.opts Sample.empty_dom 1000 "Hello" "there" info Sample.all_ok eq_refl).
  - vm_compute. discriminate.
  - vm_compute. reflexivity.
Defined.

(** ** Notifications do not pile up *)

Lemma draining_step (deadline : N) (w : World) (m : Timer) (rest : list Timer) :
  draining deadline w ->
  EventLoop.pick (timers w) = Some (m, rest) ->
  draining deadline
    (EventLoop.fire (action m) (set_clock (N.max (clock w) (due m)) (set_timers rest w))).
Proof.
  intros Hd Hp. destruct (pick_Some _ _ _ Hp) as (l1 & l2 & Hts & -> & Hmin).
  unfold draining in *. rewrite Hts in Hd, Hmin. rewrite clock_fire. cbn [clock set_clock].
  apply Forall_app in Hd as [H1 H2]. apply Forall_cons in H2 as [Hm H2].
  apply Forall_app in Hmin as [M1 M2]. apply Forall_cons in M2 as [_ M2].
  assert (Hrest : Forall (fun tm => N.max (clock w) (due m) <= due tm /\
                                    due tm + remaining tm <= deadline) (l1 ++ l2)).
  { apply Forall_app. split.
    - apply Forall_forall. intros x Hx. rewrite Forall_forall in H1, M1.
      specialize (H1 x Hx). specialize (M1 x Hx). simpl in M1. lia.
    - apply Forall_forall. intros x Hx. rewrite Forall_forall in H2, M2.
      specialize (H2 x Hx). specialize (M2 x Hx). simpl in M2. lia. }
  unfold remaining in Hm.
  destruct (action m) as [j|j];
    cbn [EventLoop.fire timers set_timers set_dom set_clock clock]; [|exact Hrest].
  apply Forall_app. split; [exact Hrest|]. repeat constructor; cbn [due]; [lia|].
  unfold remaining. cbn [due action]. lia.
Qed.

Lemma run_timers_draining (deadline : N) (fuel : nat) (T : N) (w : World) :
  draining deadline w -> draining deadline (EventLoop.run_timers fuel T w).
Proof.
  revert w. induction fuel as [|fuel IH]; intros w Hw; [exact Hw|].
  cbn [EventLoop.run_timers].
  destruct (EventLoop.pick (timers w)) as [[m rest]|] eqn:Hp; [|exact Hw].
  destruct (due m <=? T); [|exact Hw].
  apply IH, draining_step; assumption.
Qed.

Lemma tidy_draining (w : World) :
  tidy w -> draining (clock w + Plugin.display_duration + Plugin.exit_duration) w.
Proof.
  intros (_ & _ & Hs & _ & Hb). unfold draining, settled, within in *.
  apply Forall_forall. intros x Hx. rewrite Forall_forall in Hs, Hb.
  specialize (Hs x Hx). specialize (Hb x Hx). simpl in Hs. lia.
Qed.

Lemma advance_drains (T : N) (w : World) :
  tidy w ->
  clock w + Plugin.display_duration + Plugin.exit_duration <= T ->
  nodes (EventLoop.advance T w) = [] /\ timers (EventLoop.advance T w) = [].
Proof.
  intros Hw HT. unfold EventLoop.advance, nodes. cbn [dom timers set_clock].
  set (w' := EventLoop.run_timers (EventLoop.total_weight (timers w)) T w).
  pose proof (run_timers_draining _ (EventLoop.total_weight (timers w)) T w
                (tidy_draining w Hw)) as Hd.
  pose proof (run_timers_done (EventLoop.total_weight (timers w)) T w (le_n _)) as Hl.
  pose proof (run_timers_covered (EventLoop.total_weight (timers w)) T w
                (proj1 (proj2 (proj2 (proj2 Hw))))) as Hc.
  fold w' in Hd, Hl, Hc.
  assert (Ht : timers w' = []).
  { unfold draining in Hd. destruct (timers w') as [|x ts]; [reflexivity|].
    apply Forall_cons in Hd as [[_ Hx] _]. apply Forall_cons in Hl as [Hx' _]. lia. }
  split; [|exact Ht].
  unfold covered in Hc. rewrite Ht in Hc.
  destruct (default [] (notif_container (dom w'))) as [|n l]; [reflexivity|].
  apply Forall_cons in Hc as [Hn _]. apply Exists_nil in Hn. contradiction.
Qed.

(** X21.  Notifications do not pile up: at any point of any session of a
    fresh plugin, once 5500 ms pass without further activity the notification
    list is empty and no timer is left pending. *)
Theorem notifications_all_expire (turns : list (Oracle * Action))
    (opts : Options) (d : DOM) (now : N) (T : N) :
  notif_container d = None ->
  let w := play turns (Plugin.constructor opts d now) in
  clock w + 5500 <= T ->
  nodes (EventLoop.advance T w) = [] /\ timers (EventLoop.advance T w) = [].
Proof.
  intros Hd w HT. apply advance_drains.
  - apply play_tidy, constructor_tidy, Hd.
  - unfold Plugin.display_duration, Plugin.exit_duration. lia.
Qed.

Lemma notifications_all_expire_witness :
  let turns := [(Sample.all_down, DoSubmit Sample.dune); (Sample.all_ok, DoWait 5200);
                (Sample.all_ok, DoSubmit Sample.heat)] in
  let w := play turns Sample.w0 in
  (nodes w = [0; 1] /\ clock w = 5200) /\
  nodes (EventLoop.advance 10700 w) = [] /\ timers (EventLoop.advance 10700 w) = [].
Proof.
  split; [split; reflexivity|].
  apply (notifications_all_expire
           [(Sample.all_down, DoSubmit Sample.dune); (Sample.all_ok, DoWait 5200);
            (Sample.all_ok, DoSubmit Sample.heat)]
           Sample.opts Sample.empty_dom 1000 10700 eq_refl).
  vm_compute. discriminate.
Defined.

(** ** What a handler leaves alone *)

Section ContainerFrame.

Variable I : World -> Prop.
Hypothesis I_container : container_independent I.

Lemma frame_set_children (cs : list ContainerChild) : preserves I (Plugin.set_children cs).
Proof. apply preserves_modify. intros w Hw. apply I_container, Hw. Qed.

Lemma frame_appendChild (c : ContainerChild) : preserves I (Plugin.appendChild c).
Proof.
  apply preserves_modify. intros w Hw.
  destruct (content_container (dom w)); [apply I_container, Hw|exact Hw].
Qed.

Ltac frame_step :=
  first
    [ apply preserves_ret | apply preserves_throw | apply preserves_get_world
    | apply preserves_makeRequest | apply preserves_console_log
    | apply preserves_console_error | apply frame_set_children
    | apply frame_appendChild
    | apply preserves_bind; [|intros ?]
    | apply preserves_try_catch; [|intros ?]
    | match goal with
      | |- preserves _ (match ?x with _ => _ end) => destruct x
      end ].

Lemma frame_renderContentPage (kind : CatalogKind) (id : string) :
  preserves I (renderContentPage kind id).
Proof.
  destruct kind; unfold renderContentPage, Plugin.renderNetworkContentPage,
    Plugin.renderStudioContentPage, ServerConnector.getNetworkContent,
    ServerConnector.getStudioContent, prop_movies, prop_tvShows;
    repeat frame_step.
Qed.

Lemma frame_renderCustomView (path : string) :
  preserves I (Plugin.renderCustomView path).
Proof.
  unfold Plugin.renderCustomView, Plugin.renderBrowsePage.
  repeat first [ apply (frame_renderContentPage Network)
               | apply (frame_renderContentPage Studio)
               | frame_step ].
Qed.

Lemma frame_handleViewChange (view : string) :
  preserves I (Plugin.handleViewChange view).
Proof.
  unfold Plugin.handleViewChange, Plugin.not_awaited.
  destruct (JsString.startsWith view "/jellyseerr/"); [|apply preserves_ret].
  apply preserves_try_catch; [|intros e; apply preserves_ret].
  apply frame_renderCustomView.
Qed.

End ContainerFrame.

(** X22.  A view change touches nothing but the children of the content
    container, whatever the service answers; and when the view is not one of
    the plugin's, or the page has no content container, it changes nothing at
    all and sends nothing. *)
Theorem view_change_touches_only_the_container (view : string) (o : Oracle) (w : World) :
  let r := run (Plugin.handleViewChange view) o w in
  same_but_container w (final_world r) /\
  (JsString.startsWith view "/jellyseerr/" = false \/ content_container (dom w) = None ->
   final_world r = w /\ final_trace r = []).
Proof.
  intros r. subst r. split.
  - destruct (frame_handleViewChange (same_but_container w)
                ltac:(intros w0 c H0; exact H0) view o {| world := w; trace := [] |})
      as (_ & _ & _ & H); [|exact H].
    unfold same_but_container. destruct w as [? ? ? ? ? [? ? ? ?] ? ? ?]. reflexivity.
  - unfold run, Plugin.handleViewChange.
    destruct (JsString.startsWith view "/jellyseerr/"); [|split; reflexivity].
    intros [H|H]; [discriminate H|].
    unfold Plugin.not_awaited, try_catch, Plugin.renderCustomView, bind, get_world.
    cbn [world]. rewrite H. split; reflexivity.
Qed.

Lemma view_change_touches_only_the_container_witness :
  JsString.startsWith "/settings/display" "/jellyseerr/" = false /\
  final_world (run (Plugin.handleViewChange "/settings/display") Sample.all_ok Sample.w_page)
  = Sample.w_page /\
  final_trace (run (Plugin.handleViewChange "/settings/display") Sample.all_ok Sample.w_page)
  = [].
Proof.
  split; [reflexivity|].
  apply (view_change_touches_only_the_container "/settings/display" Sample.all_ok
           Sample.w_page).
  left. reflexivity.
Defined.

(** ** The home sections after a refresh *)

Lemma updateUI_home (o : Oracle) (s : St) (h : HomeSections) :
  home (dom (world s)) = Some h ->
  home (dom (world (snd (Plugin.updateUI o s)))) = Some (rendered_home (world s)).
Proof.
  intros Hh. unfold Plugin.updateUI, bind at 1, get_world. cbn [world].
  rewrite Hh. unfold bind, Plugin.renderNetworksAndStudios, modify. cbn [world trace].
  fold (rendered_home (world s)).
  set (s' := {| world := _; trace := trace s |}).
  assert (H' : home (dom (world s')) = Some (rendered_home (world s))) by reflexivity.
  destruct (JsString.startsWith _ "/jellyseerr/"); [|exact H'].
  unfold Plugin.not_awaited.
  assert (P : forall path,
             preserves (fun s0 => home (dom s0) = Some (rendered_home (world s)))
               (try_catch (Plugin.renderCustomView path) (fun _ => ret tt))).
  { intros path. apply preserves_try_catch; [|intros e; apply preserves_ret].
    apply frame_renderCustomView. intros w0 c H0. exact H0. }
  match goal with |- context [Plugin.renderCustomView ?path] =>
    destruct (P path o s' H') as (_ & _ & _ & H)
  end.
  exact H.
Qed.

Lemma refreshData_report_world (o : Oracle) (s : St) :
  exists tr,
    world (snd (try_catch Plugin.refreshData_report Plugin.refreshData_catch o s))
    = world (snd (Plugin.updateUI o {| world := world s; trace := tr |})).
Proof.
  unfold Plugin.refreshData_report. rewrite try_catch_bind. unfold get_world at 1.
  rewrite try_catch_bind. unfold console_log at 1, emit at 1. cbn [world trace].
  match goal with |- context [try_catch _ _ o {| world := _; trace := ?tr |}] =>
    exists tr
  end.
  unfold try_catch.
  destruct (Plugin.updateUI o _) as [[u|e] s']; reflexivity.
Qed.

Lemma refreshData_home (o : Oracle) (w : World) (h : HomeSections) :
  home (dom w) = Some h ->
  home (dom (final_world (run Plugin.refreshData o w)))
  = Some match catalog_of (o (networks_request w)),
               catalog_of (o (studios_request w)) with
         | Some ns, Some ss =>
             {| home_displayNetworks := displayNetworks (options w);
                home_networks := index_by_id ns;
                home_displayStudios := displayStudios (options w);
                home_studios := index_by_id ss |}
         | _, _ => h
         end.
Proof.
  intros Hh. rewrite refreshData_run, refreshData_try_cases. cbn [world trace].
  change (networks_request (set_lastRefresh (Some (clock w)) w))
    with (networks_request w).
  change (studios_request (set_lastRefresh (Some (clock w)) w))
    with (studios_request w).
  destruct (catalog_of (o (networks_request w))) as [ns|].
  - destruct (catalog_of (o (studios_request w))) as [ss|].
    + cbv zeta. unfold final_world.
      match goal with |- context [try_catch _ _ o ?s3] =>
        destruct (refreshData_report_world o s3) as (tr & ->)
      end.
      cbn [world]. erewrite updateUI_home; [reflexivity|exact Hh].
    + rewrite refreshData_catch_run. exact Hh.
  - rewrite refreshData_catch_run. exact Hh.
Qed.

(** X23.  A refresh redraws the home sections from the configured names and
    the two new catalogs when both were fetched, also while a page of the
    plugin is open and is redrawn as well; when either fetch fails the home
    sections stay as they were, although the network cache may already have
    been replaced. *)
Theorem refresh_redraws_home_on_success (o : Oracle) (w : World) (h : HomeSections) :
  home (dom w) = Some h ->
  home (dom (final_world (run Plugin.refreshData o w)))
  = Some match catalog_of (o (networks_request w)),
               catalog_of (o (studios_request w)) with
         | Some ns, Some ss =>
             {| home_displayNetworks := displayNetworks (options w);
                home_networks := index_by_id ns;
                home_displayStudios := displayStudios (options w);
                home_studios := index_by_id ss |}
         | _, _ => h
         end.
Proof. apply refreshData_home. Qed.

Lemma refresh_redraws_home_on_success_witness :
  let w := set_dom (set_home (Some (rendered_home Sample.w0)) (dom Sample.w0)) Sample.w0 in
  let w' := final_world (run Plugin.refreshData Sample.studios_down w) in
  networkCache w' <> networkCache w /\
  home (dom w') = Some (rendered_home Sample.w0).
Proof.
  split; [discriminate|].
  exact (refresh_redraws_home_on_success Sample.studios_down
           (set_dom (set_home (Some (rendered_home Sample.w0)) (dom Sample.w0)) Sample.w0)
           (rendered_home Sample.w0) eq_refl).
Defined.

(** X24.  Saved settings reach the home page only through the refresh that
    follows: when [window.jellyfinJellyseerrPlugin] holds the plugin, the
    options are replaced at once, but the home sections show the new names
    only if both catalogs were fetched, and stay as they were otherwise. *)
Theorem settings_reach_home_through_refresh (settings : Options) (o : Oracle)
    (w : World) (h : HomeSections) :
  window_plugin (dom w) = true ->
  home (dom w) = Some h ->
  let w' := final_world (run (onSave settings) o w) in
  options w' = settings /\
  home (dom w')
  = Some match catalog_of (o (networks_request w)),
               catalog_of (o (studios_request w)) with
         | Some ns, Some ss =>
             {| home_displayNetworks := displayNetworks settings;
                home_networks := index_by_id ns;
                home_displayStudios := displayStudios settings;
                home_studios := index_by_id ss |}
         | _, _ => h
         end.
Proof.
  intros Hg Hh w'. subst w'. rewrite onSave_run, Hg. split.
  - destruct (preserves_refreshData (fun s => options s = settings)
                ltac:(intros w0 H0; repeat split; intros; exact H0) o
                {| world := set_options settings w; trace := [] |} eq_refl)
      as (_ & _ & _ & H).
    exact H.
  - exact (refreshData_home o (set_options settings w) h Hh).
Qed.

Lemma settings_reach_home_through_refresh_witness :
  let w := set_dom (set_home (Some (rendered_home Sample.w0)) (dom Sample.w0)) Sample.w0 in
  let settings := {| jellyseerrUrl := jellyseerrUrl Sample.opts;
                     jellyseerrApiKey := jellyseerrApiKey Sample.opts;
                     refreshInterval := 1;
                     displayNetworks := ["HBO"];
                     displayStudios := [] |} in
  let w' := final_world (run (onSave settings) Sample.all_down w) in
  options w' = settings /\ home (dom w') = Some (rendered_home Sample.w0).
Proof.
  exact (settings_reach_home_through_refresh
           {| jellyseerrUrl := jellyseerrUrl Sample.opts;
              jellyseerrApiKey := jellyseerrApiKey Sample.opts;
              refreshInterval := 1;
              displayNetworks := ["HBO"];
              displayStudios := [] |}
           Sample.all_down
           (set_dom (set_home (Some (rendered_home Sample.w0)) (dom Sample.w0)) Sample.w0)
           (rendered_home Sample.w0) eq_refl eq_refl).
Defined.

(** ** What a rendered page shows *)

Lemma page_items_drawn (kind : CatalogKind) (r : Response) :
  Forall drawn (concat (map item_cards (page_items kind r))).
Proof.
  unfold page_items. destruct (response_json r) as [[|l|m t]|]; try constructor.
  rewrite map_app, concat_app, !section_cards. apply Forall_app.
  split; apply Forall_forall; intros c Hc; apply list_elem_of_In, in_map_iff in Hc;
    destruct Hc as (x & <- & _); exists x; reflexivity.
Qed.

Lemma renderContentPage_missing (kind : CatalogKind) (id : string) (o : Oracle) (w : World) :
  truthy (js_get (cache_of kind w) id) = false ->
  final_world (run (renderContentPage kind id) o w)
  = set_dom (set_content_container
               (Some [NotFoundHeading (not_found_text kind)]) (dom w)) w.
Proof.
  intros H. destruct kind; cbn [cache_of] in H;
    unfold run, final_world, renderContentPage, Plugin.renderNetworkContentPage,
      Plugin.renderStudioContentPage; unfold bind at 1; cbn [get_world world];
    rewrite H; reflexivity.
Qed.

Lemma renderContentPage_drawn (kind : CatalogKind) (id : string) (o : Oracle) (w : World) :
  Forall drawn (document_cards (dom w)) ->
  Forall drawn (document_cards (dom (final_world (run (renderContentPage kind id) o w)))).
Proof.
  intros Hw. destruct (truthy (js_get (cache_of kind w) id)) eqn:E.
  - rewrite (renderContentPage_found kind id o w E). unfold final_world, appended.
    cbn [snd world].
    destruct (content_container (dom w)) as [cs|] eqn:Hcs; [|exact Hw].
    cbn [dom set_dom]. rewrite (document_cards_append _ _ _ Hcs).
    apply Forall_app. split; [exact Hw|apply page_items_drawn].
  - rewrite (renderContentPage_missing kind id o w E). constructor.
Qed.

Lemma renderCustomView_drawn (path : string) (o : Oracle) (w : World)
    (cs : list ContainerChild) :
  content_container (dom w) = Some cs ->
  Forall drawn (document_cards (dom (final_world (run (Plugin.renderCustomView path) o w)))).
Proof.
  intros Hcs.
  destruct (resolve path) as [|networkId|studioId|] eqn:Hr.
  - unfold run, final_world, Plugin.renderCustomView. unfold bind at 1.
    cbn [get_world world]. rewrite Hcs. unfold bind at 1.
    cbn [Plugin.set_children modify world trace]. rewrite Hr.
    unfold Plugin.renderBrowsePage, bind, get_world, Plugin.appendChild, modify.
    cbn [fst snd world trace].
    repeat match goal with
           | |- context [if ?b then _ else _] => destruct b
           end; cbn; constructor.
  - rewrite (renderCustomView_detail path o w cs Network networkId Hcs Hr).
    apply renderContentPage_drawn. constructor.
  - rewrite (renderCustomView_detail path o w cs Studio studioId Hcs Hr).
    apply renderContentPage_drawn. constructor.
  - rewrite (renderCustomView_unrecognized path o w Hr). unfold final_world, cleared.
    cbn [snd world]. rewrite Hcs. constructor.
Qed.

Lemma drawn_not_requested (c : Card) : drawn c -> ~ shows_requested c.
Proof.
  intros [item ->] [H _]. cbn [Plugin.createContentCard card_badge] in H.
  destruct (item_available item); discriminate H.
Qed.

(** X25.  The mark "Requested" does not outlive the page: whenever a plugin
    page is rendered again, by a view change or by the pass that follows a
    refresh, every card of the document is drawn anew from a delivered item,
    with the badge of its availability, and none reads "Requested", whatever
    was submitted before. *)
Theorem rerender_forgets_requested (path : string) (o : Oracle) (w : World)
    (cs : list ContainerChild) :
  content_container (dom w) = Some cs ->
  let w' := final_world (run (Plugin.renderCustomView path) o w) in
  Forall (fun c => drawn c /\ ~ shows_requested c) (document_cards (dom w')).
Proof.
  intros Hcs w'. subst w'.
  eapply Forall_impl; [exact (renderCustomView_drawn path o w cs Hcs)|].
  intros c Hc. split; [exact Hc|apply drawn_not_requested, Hc].
Qed.

Lemma rerender_forgets_requested_witness :
  let w := perform Sample.all_ok (DoSubmit Sample.dune) Sample.w_page in
  let w' := final_world (run (Plugin.renderCustomView "/jellyseerr/network/1")
                           Sample.all_ok w) in
  Exists shows_requested (document_cards (dom w)) /\
  document_cards (dom w') = [Plugin.createContentCard Sample.dune] /\
  Forall (fun c => drawn c /\ ~ shows_requested c) (document_cards (dom w')).
Proof.
  split; [left; split; reflexivity|]. split; [reflexivity|].
  exact (rerender_forgets_requested "/jellyseerr/network/1" Sample.all_ok
           (perform Sample.all_ok (DoSubmit Sample.dune) Sample.w_page) _ eq_refl).
Defined.
